(** * Dataflow-plan-to-SQL conversion: instance sets and emitted SELECTs

    A shallow embedding of [metricflow/plan_conversion/dataflow_to_sql.py]
    ([DataflowToSqlQueryPlanConverter]).  Handlers are state-passing
    computations: the state is the process-wide sequential id counter read
    by [_next_unique_table_alias]; Python exceptions ([AssertionError],
    [RuntimeError]) are an explicit error result. *)

From Stdlib Require Import String Ascii List ZArith Bool Arith Lia.
From Stdlib Require Import DecimalString DecimalNat.
Import ListNotations.
Local Open Scope string_scope.
Local Open Scope list_scope.

Set Implicit Arguments.
Set Warnings "-register-all".

(* ================================================================== *)
(** ** Errors and the alias counter *)

Inductive CompileError : Type :=
| AssertionError (message : string)
| RuntimeError (message : string)
| IndexError (message : string).

(** Outcome of running a handler from a given counter value. *)
Inductive Outcome (A : Type) : Type :=
| Returned (value : A) (next_index : nat)
| Raised (error : CompileError).

Arguments Returned {A} value next_index.
Arguments Raised {A} error.

Definition Conv (A : Type) : Type := nat -> Outcome A.

Definition ret {A} (a : A) : Conv A := fun s => Returned a s.

Definition bind {A B} (c : Conv A) (k : A -> Conv B) : Conv B :=
  fun s => match c s with
           | Returned a s' => k a s'
           | Raised e => Raised e
           end.

Definition raise {A} (e : CompileError) : Conv A := fun _ => Raised e.

(** Python's [assert cond, message]. *)
Definition assert_that (cond : bool) (message : string) : Conv unit :=
  if cond then ret tt else raise (AssertionError message).

Declare Scope conv_scope.
Delimit Scope conv_scope with conv.
Notation "x <- c ;; k" := (bind c (fun x => k))
  (at level 61, c at next level, right associativity) : conv_scope.
Notation "c ;;; k" := (bind c (fun _ => k))
  (at level 61, right associativity) : conv_scope.
Local Open Scope conv_scope.

(** [for x in xs: body] where the body may raise and threads the counter. *)
Fixpoint for_each {A B} (f : A -> Conv B) (xs : list A) : Conv (list B) :=
  match xs with
  | [] => ret []
  | x :: xs' => y <- f x ;; ys <- for_each f xs' ;; ret (y :: ys)
  end.

(** Modelled from the spec: [StaticIdPrefix.SUB_QUERY] and
    [SequentialIdGenerator.create_next_id] (metricflow_semantics.dag, not
    under src/): a monotonic ID generator mints table aliases; an alias is
    the sub-query prefix followed by the index. *)
Definition SUB_QUERY_PREFIX : string := "subq".

Definition alias_of_index (n : nat) : string :=
  (SUB_QUERY_PREFIX ++ "_" ++ NilEmpty.string_of_uint (Nat.to_uint n))%string.

Definition _next_unique_table_alias : Conv string :=
  fun s => Returned (alias_of_index s) (S s).

(* ================================================================== *)
(** ** Enumerations *)

Inductive AggregationState : Type := NON_AGGREGATED | PARTIAL | COMPLETE.

(** The order NON_AGGREGATED < PARTIAL < COMPLETE as a rank. *)
Definition state_rank (s : AggregationState) : nat :=
  match s with NON_AGGREGATED => 0 | PARTIAL => 1 | COMPLETE => 2 end.

Definition AggregationState_eq_dec (a b : AggregationState) : {a = b} + {a <> b}.
Proof. decide equality. Defined.

(** [TimeGranularity] of dbt_semantic_interfaces with its [to_int]; the
    handlers only compare [to_int] values and test equality. *)
Inductive TimeGranularity : Type := DAY | WEEK | MONTH | QUARTER | YEAR.

Definition to_int (g : TimeGranularity) : Z :=
  match g with
  | DAY => 10 | WEEK => 11 | MONTH => 12 | QUARTER => 13 | YEAR => 14
  end%Z.

Definition TimeGranularity_eq_dec (a b : TimeGranularity) : {a = b} + {a <> b}.
Proof. decide equality. Defined.

Inductive DatePart : Type :=
| DP_YEAR | DP_QUARTER | DP_MONTH | DP_DAY | DP_DOW | DP_DOY.

Definition DatePart_eq_dec (a b : DatePart) : {a = b} + {a <> b}.
Proof. decide equality. Defined.

Inductive AggregationType : Type :=
| AGG_SUM | AGG_MIN | AGG_MAX | AGG_COUNT_DISTINCT | AGG_SUM_BOOLEAN
| AGG_AVERAGE | AGG_PERCENTILE | AGG_MEDIAN | AGG_COUNT.

Definition AggregationType_eq_dec (a b : AggregationType) : {a = b} + {a <> b}.
Proof. decide equality. Defined.

Inductive MetricType : Type :=
| SIMPLE | RATIO | CUMULATIVE | DERIVED | CONVERSION.

Inductive ConversionCalculationType : Type := CONVERSIONS | CONVERSION_RATE.

Inductive SqlJoinType : Type :=
| LEFT_OUTER | FULL_OUTER | INNER | CROSS_JOIN.

(** [SqlEngine] of metricflow.protocols.sql_client. *)
Inductive SqlEngine : Type :=
| BIGQUERY | DUCKDB | REDSHIFT | POSTGRES | SNOWFLAKE | DATABRICKS | TRINO.

Inductive SqlQueryOptimizationLevel : Type := O0 | O1 | O2 | O3 | O4.

(** [METRIC_TIME_ELEMENT_NAME] of dbt_semantic_interfaces.naming.keywords. *)
Definition METRIC_TIME_ELEMENT_NAME : string := "metric_time".

(* ================================================================== *)
(** ** Specs *)

(** An entity link is an [EntityReference]: the entity's element name. *)
Definition EntityReference : Type := string.
Definition TimeDimensionReference : Type := string.
Definition MeasureReference : Type := string.
Definition MetricReference : Type := string.
Definition SemanticModelReference : Type := string.

Record MeasureSpec : Type := mkMeasureSpec {
  measure_element_name : string
}.

Record DimensionSpec : Type := mkDimensionSpec {
  dimension_element_name : string;
  dimension_entity_links : list EntityReference
}.

Record TimeDimensionSpec : Type := mkTimeDimensionSpec {
  td_element_name : string;
  td_entity_links : list EntityReference;
  time_granularity : TimeGranularity;
  date_part : option DatePart;
  td_aggregation_state : option AggregationState
}.

Record EntitySpec : Type := mkEntitySpec {
  entity_element_name : string;
  entity_entity_links : list EntityReference
}.

Record GroupByMetricSpec : Type := mkGroupByMetricSpec {
  gbm_element_name : string;
  gbm_entity_links : list EntityReference;
  metric_subquery_entity_links : list EntityReference
}.

Record MetricSpec : Type := mkMetricSpec {
  metric_element_name : string
}.

Record MetadataSpec : Type := mkMetadataSpec {
  metadata_element_name : string;
  metadata_agg_type : option AggregationType
}.

(** What the column-association resolver is asked about. *)
Inductive InstanceSpec : Type :=
| OfMeasure (s : MeasureSpec)
| OfDimension (s : DimensionSpec)
| OfTimeDimension (s : TimeDimensionSpec)
| OfEntity (s : EntitySpec)
| OfGroupByMetric (s : GroupByMetricSpec)
| OfMetric (s : MetricSpec)
| OfMetadata (s : MetadataSpec).

Definition links_eq_dec := list_eq_dec string_dec.

Definition MeasureSpec_eq_dec (a b : MeasureSpec) : {a = b} + {a <> b}.
Proof. decide equality; apply string_dec. Defined.

Definition DimensionSpec_eq_dec (a b : DimensionSpec) : {a = b} + {a <> b}.
Proof. decide equality; [apply links_eq_dec | apply string_dec]. Defined.

Definition TimeDimensionSpec_eq_dec (a b : TimeDimensionSpec) : {a = b} + {a <> b}.
Proof.
  decide equality;
    try apply links_eq_dec; try apply string_dec;
    try apply TimeGranularity_eq_dec;
    decide equality; try apply DatePart_eq_dec; apply AggregationState_eq_dec.
Defined.

Definition EntitySpec_eq_dec (a b : EntitySpec) : {a = b} + {a <> b}.
Proof. decide equality; [apply links_eq_dec | apply string_dec]. Defined.

Definition GroupByMetricSpec_eq_dec (a b : GroupByMetricSpec) : {a = b} + {a <> b}.
Proof. decide equality; try apply links_eq_dec; apply string_dec. Defined.

Definition MetricSpec_eq_dec (a b : MetricSpec) : {a = b} + {a <> b}.
Proof. decide equality; apply string_dec. Defined.

Definition MetadataSpec_eq_dec (a b : MetadataSpec) : {a = b} + {a <> b}.
Proof.
  decide equality; [decide equality; apply AggregationType_eq_dec | apply string_dec].
Defined.

(** [TimeDimensionSpec.reference]: the dimension reference keeps the
    element name only. *)
Definition td_reference (s : TimeDimensionSpec) : TimeDimensionReference :=
  td_element_name s.

Definition measure_reference (s : MeasureSpec) : MeasureReference :=
  measure_element_name s.

(* ================================================================== *)
(** ** Instances and instance sets *)

Record ColumnAssociation : Type := mkColumnAssociation {
  column_name : string
}.

Record SemanticModelElementReference : Type := mkSemanticModelElementReference {
  semantic_model_name : SemanticModelReference;
  element_name : string
}.

Record MetricModelReference : Type := mkMetricModelReference {
  metric_name : string
}.

(** A measure instance carries, besides spec and columns, its aggregation
    state and an optional fill-nulls-with integer. *)
Record MeasureInstance : Type := mkMeasureInstance {
  measure_associated_columns : list ColumnAssociation;
  measure_spec : MeasureSpec;
  aggregation_state : AggregationState;
  origin_semantic_model_reference : SemanticModelElementReference;
  fill_nulls_with : option Z
}.

(** The other instance variants: a spec bound to columns plus provenance. *)
Record Instance (Spec Origin : Type) : Type := mkInstance {
  associated_columns : list ColumnAssociation;
  spec : Spec;
  defined_from : Origin
}.

Definition DimensionInstance := Instance DimensionSpec (list SemanticModelElementReference).
Definition TimeDimensionInstance := Instance TimeDimensionSpec (list SemanticModelElementReference).
Definition EntityInstance := Instance EntitySpec (list SemanticModelElementReference).
Definition GroupByMetricInstance := Instance GroupByMetricSpec MetricModelReference.
Definition MetricInstance := Instance MetricSpec MetricModelReference.
Definition MetadataInstance := Instance MetadataSpec unit.

(** Modelled from the spec: the [associated_column] property
    (metricflow_semantics.instances, not under src/).  An instance binds
    its spec to one or more column associations; the singular accessor
    stands for the one column of an instance and fails otherwise. *)
Definition associated_column {Spec Origin} (i : Instance Spec Origin)
  : Conv ColumnAssociation :=
  match associated_columns i with
  | [c] => ret c
  | _ => raise (AssertionError "expected exactly one associated column")
  end.

Record InstanceSet : Type := mkInstanceSet {
  measure_instances : list MeasureInstance;
  dimension_instances : list DimensionInstance;
  time_dimension_instances : list TimeDimensionInstance;
  entity_instances : list EntityInstance;
  group_by_metric_instances : list GroupByMetricInstance;
  metric_instances : list MetricInstance;
  metadata_instances : list MetadataInstance
}.

Definition empty_instance_set : InstanceSet := mkInstanceSet [] [] [] [] [] [] [].

Record InstanceSpecSet : Type := mkInstanceSpecSet {
  measure_specs : list MeasureSpec;
  dimension_specs : list DimensionSpec;
  time_dimension_specs : list TimeDimensionSpec;
  entity_specs : list EntitySpec;
  group_by_metric_specs : list GroupByMetricSpec;
  metric_specs : list MetricSpec;
  metadata_specs : list MetadataSpec
}.

(** [InstanceSet.spec_set]: projection to the spec set. *)
Definition spec_set (s : InstanceSet) : InstanceSpecSet :=
  mkInstanceSpecSet
    (map measure_spec (measure_instances s))
    (map (@spec _ _) (dimension_instances s))
    (map (@spec _ _) (time_dimension_instances s))
    (map (@spec _ _) (entity_instances s))
    (map (@spec _ _) (group_by_metric_instances s))
    (map (@spec _ _) (metric_instances s))
    (map (@spec _ _) (metadata_instances s)).

Section Merge.
Variables (I S : Type) (spec_of : I -> S).
Variable S_eq_dec : forall a b : S, {a = b} + {a <> b}.

Definition has_spec (x : S) (acc : list I) : bool :=
  existsb (fun y => if S_eq_dec (spec_of y) x then true else false) acc.

(** Append the instances of [xs] whose spec is not yet present. *)
Fixpoint merge_instances (acc xs : list I) : list I :=
  match xs with
  | [] => acc
  | x :: xs' =>
      if has_spec (spec_of x) acc
      then merge_instances acc xs'
      else merge_instances (acc ++ [x]) xs'
  end.
End Merge.

(** Modelled from the spec: [InstanceSet.merge]
    (metricflow_semantics.instances, not under src/).  The instance sets
    are combined category by category in the order given, and instances in
    common are de-duplicated: an instance whose spec is already present is
    not added again. *)
Definition merge (instance_sets : list InstanceSet) : InstanceSet :=
  fold_left
    (fun acc s =>
       mkInstanceSet
         (merge_instances measure_spec MeasureSpec_eq_dec
            (measure_instances acc) (measure_instances s))
         (merge_instances (@spec _ _) DimensionSpec_eq_dec
            (dimension_instances acc) (dimension_instances s))
         (merge_instances (@spec _ _) TimeDimensionSpec_eq_dec
            (time_dimension_instances acc) (time_dimension_instances s))
         (merge_instances (@spec _ _) EntitySpec_eq_dec
            (entity_instances acc) (entity_instances s))
         (merge_instances (@spec _ _) GroupByMetricSpec_eq_dec
            (group_by_metric_instances acc) (group_by_metric_instances s))
         (merge_instances (@spec _ _) MetricSpec_eq_dec
            (metric_instances acc) (metric_instances s))
         (merge_instances (@spec _ _) MetadataSpec_eq_dec
            (metadata_instances acc) (metadata_instances s)))
    instance_sets empty_instance_set.

(* ================================================================== *)
(** ** SQL expressions and SQL query plan nodes *)

Inductive SqlFunction : Type :=
| SQL_AVERAGE | SQL_COUNT_DISTINCT | SQL_MAX | SQL_MIN | SQL_SUM
| SQL_COALESCE | SQL_CONCAT.

Inductive SqlComparison : Type :=
| LESS_THAN | GREATER_THAN | LESS_THAN_OR_EQUALS | GREATER_THAN_OR_EQUALS | EQUALS.

Inductive SqlLogicalOperator : Type := SQL_AND | SQL_OR.

Inductive SqlWindowFunction : Type := FIRST_VALUE | LAST_VALUE | AVERAGE_OVER.

(** [SqlBindParameters]: the values bound to the parameters of a raw SQL
    string, by parameter name. *)
Definition SqlBindParameters : Type := list (string * string).

Record SqlColumnReference : Type := mkSqlColumnReference {
  table_alias : string;
  ref_column_name : string
}.

Inductive SqlExpressionNode : Type :=
| SqlColumnReferenceExpression (col_ref : SqlColumnReference)
| SqlStringExpression (sql_expr : string) (used_columns : list string)
    (bind_parameters : SqlBindParameters)
| SqlStringLiteralExpression (literal_value : string)
| SqlBetweenExpression (column_arg start_expr end_expr : SqlExpressionNode)
| SqlAggregateFunctionExpression (sql_function : SqlFunction)
    (sql_function_args : list SqlExpressionNode)
| SqlRatioComputationExpression (numerator denominator : SqlExpressionNode)
| SqlDateTruncExpression (granularity : TimeGranularity) (arg : SqlExpressionNode)
| SqlExtractExpression (part : DatePart) (arg : SqlExpressionNode)
| SqlComparisonExpression (left_expr : SqlExpressionNode)
    (comparison : SqlComparison) (right_expr : SqlExpressionNode)
| SqlLogicalExpression (operator : SqlLogicalOperator) (args : list SqlExpressionNode)
| SqlGenerateUuidExpression
| SqlWindowFunctionExpression (window_function : SqlWindowFunction)
    (sql_function_args : list SqlExpressionNode)
    (partition_by_args : list SqlExpressionNode)
    (order_by_args : list (SqlExpressionNode * bool)).

Record SqlSelectColumn : Type := mkSqlSelectColumn {
  expr : SqlExpressionNode;
  column_alias : string
}.

Record SqlOrderByDescription : Type := mkSqlOrderByDescription {
  order_expr : SqlExpressionNode;
  desc : bool
}.

Definition SqlTable : Type := string.

Inductive SqlQueryPlanNode : Type :=
| SqlSelectStatementNode (select : SqlSelectStatement)
| SqlTableFromClauseNode (sql_table : SqlTable)
| SqlCreateTableAsNode (sql_table : SqlTable) (parent_node : SqlQueryPlanNode)
with SqlSelectStatement : Type :=
| mkSqlSelectStatement
    (description : string)
    (select_columns : list SqlSelectColumn)
    (from_source : SqlQueryPlanNode)
    (from_source_alias : string)
    (joins_descs : list SqlJoinDescription)
    (where_clause : option SqlExpressionNode)
    (group_bys : list SqlSelectColumn)
    (order_bys : list SqlOrderByDescription)
    (limit : option Z)
    (distinct : bool)
with SqlJoinDescription : Type :=
| mkSqlJoinDescription
    (right_source : SqlQueryPlanNode)
    (right_source_alias : string)
    (on_condition : option SqlExpressionNode)
    (join_type : SqlJoinType).

Definition select_columns (s : SqlSelectStatement) : list SqlSelectColumn :=
  let 'mkSqlSelectStatement _ c _ _ _ _ _ _ _ _ := s in c.
Definition from_source (s : SqlSelectStatement) : SqlQueryPlanNode :=
  let 'mkSqlSelectStatement _ _ f _ _ _ _ _ _ _ := s in f.
Definition from_source_alias (s : SqlSelectStatement) : string :=
  let 'mkSqlSelectStatement _ _ _ a _ _ _ _ _ _ := s in a.
Definition joins_descs (s : SqlSelectStatement) : list SqlJoinDescription :=
  let 'mkSqlSelectStatement _ _ _ _ j _ _ _ _ _ := s in j.
(** The [where] field. *)
Definition where_clause (s : SqlSelectStatement) : option SqlExpressionNode :=
  let 'mkSqlSelectStatement _ _ _ _ _ w _ _ _ _ := s in w.
Definition group_bys (s : SqlSelectStatement) : list SqlSelectColumn :=
  let 'mkSqlSelectStatement _ _ _ _ _ _ g _ _ _ := s in g.

(** The keyword arguments of [SqlSelectStatementNode(...)] that the
    handlers leave out take their defaults. *)
Definition select_statement
    (description : string) (select_columns : list SqlSelectColumn)
    (from_source : SqlQueryPlanNode) (from_source_alias : string)
    (joins_descs : list SqlJoinDescription)
    (where_clause : option SqlExpressionNode)
    (group_bys : list SqlSelectColumn) : SqlSelectStatement :=
  mkSqlSelectStatement description select_columns from_source from_source_alias
    joins_descs where_clause group_bys [] None false.

(** [SqlDataSet]: the pair of an instance set and a SQL node. *)
Record SqlDataSet : Type := mkSqlDataSet {
  instance_set : InstanceSet;
  sql_node : SqlQueryPlanNode
}.

(** [SqlDataSet.checked_sql_select_node]: the SQL node when it is a SELECT
    statement, an error otherwise. *)
Definition checked_sql_select_node (d : SqlDataSet) : Conv SqlSelectStatement :=
  match sql_node d with
  | SqlSelectStatementNode s => ret s
  | _ => raise (RuntimeError "the SQL node of the data set is not a SELECT statement")
  end.

(** [SelectColumnSet] of select_column_gen: select columns by category. *)
Record SelectColumnSet : Type := mkSelectColumnSet {
  metric_columns : list SqlSelectColumn;
  measure_columns : list SqlSelectColumn;
  dimension_columns : list SqlSelectColumn;
  time_dimension_columns : list SqlSelectColumn;
  entity_columns : list SqlSelectColumn;
  group_by_metric_columns : list SqlSelectColumn;
  metadata_columns : list SqlSelectColumn
}.

Definition empty_select_column_set : SelectColumnSet :=
  mkSelectColumnSet [] [] [] [] [] [] [].

(** Modelled from the spec: [SelectColumnSet.merge], [as_tuple] and
    [without_measure_columns] (metricflow.plan_conversion.select_column_gen,
    not under src/).  Columns are emitted in a stable order, category by
    category; dropping the measure columns leaves every other category as
    it is. *)
Definition merge_columns (a b : SelectColumnSet) : SelectColumnSet :=
  mkSelectColumnSet
    (metric_columns a ++ metric_columns b)
    (measure_columns a ++ measure_columns b)
    (dimension_columns a ++ dimension_columns b)
    (time_dimension_columns a ++ time_dimension_columns b)
    (entity_columns a ++ entity_columns b)
    (group_by_metric_columns a ++ group_by_metric_columns b)
    (metadata_columns a ++ metadata_columns b).

Definition as_tuple (c : SelectColumnSet) : list SqlSelectColumn :=
  time_dimension_columns c ++ entity_columns c ++ dimension_columns c
    ++ group_by_metric_columns c ++ metric_columns c ++ measure_columns c
    ++ metadata_columns c.

Definition without_measure_columns (c : SelectColumnSet) : SelectColumnSet :=
  mkSelectColumnSet
    (metric_columns c) [] (dimension_columns c) (time_dimension_columns c)
    (entity_columns c) (group_by_metric_columns c) (metadata_columns c).

(* ================================================================== *)
(** ** Inputs carried by dataflow nodes and by the semantic manifest *)

Record MetricInputMeasureSpec : Type := mkMetricInputMeasureSpec {
  input_measure_spec : MeasureSpec;
  input_fill_nulls_with : option Z;
  input_alias : option string
}.

(** [MetricInputMeasure] of the metric protocol. *)
Record MetricInputMeasure : Type := mkMetricInputMeasure {
  post_aggregation_measure_reference : MeasureReference;
  im_fill_nulls_with : option Z
}.

Record MetricInput : Type := mkMetricInput {
  post_aggregation_reference : MetricReference
}.

Record ConversionTypeParams : Type := mkConversionTypeParams {
  base_measure : MetricInputMeasure;
  conversion_measure : MetricInputMeasure;
  calculation : ConversionCalculationType
}.

Record MetricTypeParams : Type := mkMetricTypeParams {
  numerator : option MetricInput;
  denominator : option MetricInput;
  type_expr : option string;
  conversion_type_params : option ConversionTypeParams
}.

Record Metric : Type := mkMetric {
  name : string;
  type : MetricType;
  type_params : MetricTypeParams;
  input_measures : list MetricInputMeasure;
  measure_references : list MeasureReference
}.

Record TimeSpineSource : Type := mkTimeSpineSource {
  spine_table : SqlTable;
  time_column_name : string;
  time_column_granularity : TimeGranularity
}.

(** [TIME_SPINE_DATA_SET_DESCRIPTION] of metricflow.plan_conversion.time_spine. *)
Definition TIME_SPINE_DATA_SET_DESCRIPTION : string := "Time Spine".

(* ================================================================== *)
(** ** The converter *)

Section Converter.

(** The collaborators held by [DataflowToSqlQueryPlanConverter]: the
    column-association resolver, the semantic-manifest lookups and the
    time spine source.  They are opaque to the converter. *)
Variable resolve_spec : InstanceSpec -> ColumnAssociation.

Variable SemanticModel : Type.
Variable get_by_reference : SemanticModelReference -> option SemanticModel.
Variable checked_agg_time_dimension_for_measure :
  SemanticModel -> MeasureReference -> TimeDimensionReference.
Variable get_measure_agg : MeasureReference -> AggregationType.
Variable get_metric : MetricReference -> Metric.
Variable _time_spine_source : TimeSpineSource.

(** [SqlFunctionExpression.build_expression_from_aggregation_type] of
    metricflow.sql.sql_exprs: the aggregation function applied to a
    column expression. *)
Variable build_expression_from_aggregation_type :
  AggregationType -> SqlExpressionNode -> SqlExpressionNode.

(** [datetime] values and [strftime(ISO8601_PYTHON_FORMAT)]. *)
Variable datetime : Type.
Variable strftime_iso8601 : datetime -> string.

Record TimeRangeConstraint : Type := mkTimeRangeConstraint {
  start_time : datetime;
  end_time : datetime
}.

Definition resolved_name (s : InstanceSpec) : string :=
  column_name (resolve_spec s).

Definition column_reference (alias column : string) : SqlExpressionNode :=
  SqlColumnReferenceExpression (mkSqlColumnReference alias column).

(* ---------------------------------------------------------------- *)
(** *** Instance-set transforms (metricflow.plan_conversion.instance_converters) *)

Definition with_spec {Spec Origin} (inj : Spec -> InstanceSpec)
    (new_spec : Spec) (i : Instance Spec Origin) : Instance Spec Origin :=
  mkInstance [resolve_spec (inj new_spec)] new_spec (defined_from i).

Definition with_resolved_columns {Spec Origin} (inj : Spec -> InstanceSpec)
    (i : Instance Spec Origin) : Instance Spec Origin :=
  with_spec inj (spec i) i.

Definition measure_with_resolved_columns (m : MeasureInstance) : MeasureInstance :=
  mkMeasureInstance [resolve_spec (OfMeasure (measure_spec m))]
    (measure_spec m) (aggregation_state m) (origin_semantic_model_reference m)
    (fill_nulls_with m).

(** Modelled from the spec: [ChangeAssociatedColumns] (not under src/):
    re-resolve every instance's column names through the resolver. *)
Definition ChangeAssociatedColumns (s : InstanceSet) : InstanceSet :=
  mkInstanceSet
    (map measure_with_resolved_columns (measure_instances s))
    (map (with_resolved_columns OfDimension) (dimension_instances s))
    (map (with_resolved_columns OfTimeDimension) (time_dimension_instances s))
    (map (with_resolved_columns OfEntity) (entity_instances s))
    (map (with_resolved_columns OfGroupByMetric) (group_by_metric_instances s))
    (map (with_resolved_columns OfMetric) (metric_instances s))
    (map (with_resolved_columns OfMetadata) (metadata_instances s)).

Definition mem {A} (A_eq_dec : forall a b : A, {a = b} + {a <> b})
    (x : A) (l : list A) : bool :=
  if in_dec A_eq_dec x l then true else false.

(** Modelled from the spec: [FilterElements] (not under src/): keep only
    instances matching an include-spec-set, or drop those matching an
    exclude-spec-set. *)
Definition FilterElements_include (include_specs : InstanceSpecSet)
    (s : InstanceSet) : InstanceSet :=
  mkInstanceSet
    (filter (fun x => mem MeasureSpec_eq_dec (measure_spec x) (measure_specs include_specs))
       (measure_instances s))
    (filter (fun x => mem DimensionSpec_eq_dec (spec x) (dimension_specs include_specs))
       (dimension_instances s))
    (filter (fun x => mem TimeDimensionSpec_eq_dec (spec x) (time_dimension_specs include_specs))
       (time_dimension_instances s))
    (filter (fun x => mem EntitySpec_eq_dec (spec x) (entity_specs include_specs))
       (entity_instances s))
    (filter (fun x => mem GroupByMetricSpec_eq_dec (spec x) (group_by_metric_specs include_specs))
       (group_by_metric_instances s))
    (filter (fun x => mem MetricSpec_eq_dec (spec x) (metric_specs include_specs))
       (metric_instances s))
    (filter (fun x => mem MetadataSpec_eq_dec (spec x) (metadata_specs include_specs))
       (metadata_instances s)).

Definition FilterElements_exclude (exclude_specs : InstanceSpecSet)
    (s : InstanceSet) : InstanceSet :=
  mkInstanceSet
    (filter (fun x => negb (mem MeasureSpec_eq_dec (measure_spec x) (measure_specs exclude_specs)))
       (measure_instances s))
    (filter (fun x => negb (mem DimensionSpec_eq_dec (spec x) (dimension_specs exclude_specs)))
       (dimension_instances s))
    (filter (fun x => negb (mem TimeDimensionSpec_eq_dec (spec x) (time_dimension_specs exclude_specs)))
       (time_dimension_instances s))
    (filter (fun x => negb (mem EntitySpec_eq_dec (spec x) (entity_specs exclude_specs)))
       (entity_instances s))
    (filter (fun x => negb (mem GroupByMetricSpec_eq_dec (spec x) (group_by_metric_specs exclude_specs)))
       (group_by_metric_instances s))
    (filter (fun x => negb (mem MetricSpec_eq_dec (spec x) (metric_specs exclude_specs)))
       (metric_instances s))
    (filter (fun x => negb (mem MetadataSpec_eq_dec (spec x) (metadata_specs exclude_specs)))
       (metadata_instances s)).

(** Whether an entity-link chain has the given entity as its first link. *)
Definition has_leading_link (entity_link : EntityReference)
    (links : list EntityReference) : bool :=
  match links with
  | [] => false
  | first :: _ => if string_dec first entity_link then true else false
  end.

(** Modelled from the spec: [FilterLinkableInstancesWithLeadingLink]
    (not under src/): drop linkable instances whose first entity link
    equals the given entity.  The linkable instances are those whose spec
    has an entity-link chain: dimensions, time dimensions, entities and
    group-by metrics. *)
Definition FilterLinkableInstancesWithLeadingLink (entity_link : EntityReference)
    (s : InstanceSet) : InstanceSet :=
  mkInstanceSet
    (measure_instances s)
    (filter (fun x => negb (has_leading_link entity_link (dimension_entity_links (spec x))))
       (dimension_instances s))
    (filter (fun x => negb (has_leading_link entity_link (td_entity_links (spec x))))
       (time_dimension_instances s))
    (filter (fun x => negb (has_leading_link entity_link (entity_entity_links (spec x))))
       (entity_instances s))
    (filter (fun x => negb (has_leading_link entity_link (gbm_entity_links (spec x))))
       (group_by_metric_instances s))
    (metric_instances s)
    (metadata_instances s).

(** Modelled from the spec: [AddLinkToLinkableElements] (not under src/):
    prepend the entity link to every linkable instance's entity-link
    chain; the columns follow the resolver for the rewritten spec. *)
Definition AddLinkToLinkableElements (join_on_entity : EntityReference)
    (s : InstanceSet) : InstanceSet :=
  mkInstanceSet
    (measure_instances s)
    (map (fun x =>
            with_spec OfDimension
              (mkDimensionSpec (dimension_element_name (spec x))
                 (join_on_entity :: dimension_entity_links (spec x))) x)
       (dimension_instances s))
    (map (fun x =>
            with_spec OfTimeDimension
              (mkTimeDimensionSpec (td_element_name (spec x))
                 (join_on_entity :: td_entity_links (spec x))
                 (time_granularity (spec x)) (date_part (spec x))
                 (td_aggregation_state (spec x))) x)
       (time_dimension_instances s))
    (map (fun x =>
            with_spec OfEntity
              (mkEntitySpec (entity_element_name (spec x))
                 (join_on_entity :: entity_entity_links (spec x))) x)
       (entity_instances s))
    (map (fun x =>
            with_spec OfGroupByMetric
              (mkGroupByMetricSpec (gbm_element_name (spec x))
                 (join_on_entity :: gbm_entity_links (spec x))
                 (metric_subquery_entity_links (spec x))) x)
       (group_by_metric_instances s))
    (metric_instances s)
    (metadata_instances s).

(** A Python dict keyed by aggregation state. *)
Definition StateMap : Type := list (AggregationState * AggregationState).

Fixpoint state_lookup (m : StateMap) (k : AggregationState) : option AggregationState :=
  match m with
  | [] => None
  | (k', v) :: m' => if AggregationState_eq_dec k' k then Some v else state_lookup m' k
  end.

Definition with_state (st : AggregationState) (m : MeasureInstance) : MeasureInstance :=
  mkMeasureInstance (measure_associated_columns m) (measure_spec m) st
    (origin_semantic_model_reference m) (fill_nulls_with m).

(** Modelled from the spec: [ChangeMeasureAggregationState] (not under
    src/): remap each measure's state through a dictionary; unknown
    states are an error. *)
Definition ChangeMeasureAggregationState (aggregation_state_changes : StateMap)
    (s : InstanceSet) : Conv InstanceSet :=
  measures <- for_each
    (fun m => match state_lookup aggregation_state_changes (aggregation_state m) with
              | Some st => ret (with_state st m)
              | None => raise (RuntimeError "unknown aggregation state")
              end)
    (measure_instances s) ;;
  ret (mkInstanceSet measures (dimension_instances s) (time_dimension_instances s)
         (entity_instances s) (group_by_metric_instances s) (metric_instances s)
         (metadata_instances s)).

Definition find_input_spec (specs : list MetricInputMeasureSpec) (m : MeasureSpec)
  : option MetricInputMeasureSpec :=
  find (fun i => if MeasureSpec_eq_dec (input_measure_spec i) m then true else false) specs.

(** Modelled from the spec: [UpdateMeasureFillNullsWith] (not under
    src/): copy [fill_nulls_with] from a metric-input-measure spec onto
    the matching measure instance. *)
Definition UpdateMeasureFillNullsWith (metric_input_measure_specs : list MetricInputMeasureSpec)
    (s : InstanceSet) : InstanceSet :=
  mkInstanceSet
    (map (fun m =>
            match find_input_spec metric_input_measure_specs (measure_spec m) with
            | Some i =>
                mkMeasureInstance (measure_associated_columns m) (measure_spec m)
                  (aggregation_state m) (origin_semantic_model_reference m) (input_fill_nulls_with i)
            | None => m
            end)
       (measure_instances s))
    (dimension_instances s) (time_dimension_instances s) (entity_instances s)
    (group_by_metric_instances s) (metric_instances s) (metadata_instances s).

(** The first metric-input-measure spec that names the measure and
    carries an alias. *)
Definition alias_of_measure (specs : list MetricInputMeasureSpec) (m : MeasureSpec)
  : option string :=
  match find (fun i => match input_alias i with
                       | Some a => if MeasureSpec_eq_dec (input_measure_spec i) m
                                   then negb (String.eqb a EmptyString) else false
                       | None => false
                       end) specs with
  | Some i => input_alias i
  | None => None
  end.

(** Modelled from the spec: [AliasAggregatedMeasures] (not under src/):
    rename measure instances per alias. *)
Definition AliasAggregatedMeasures (metric_input_measure_specs : list MetricInputMeasureSpec)
    (s : InstanceSet) : InstanceSet :=
  mkInstanceSet
    (map (fun m =>
            match alias_of_measure metric_input_measure_specs (measure_spec m) with
            | Some a =>
                mkMeasureInstance (measure_associated_columns m) (mkMeasureSpec a)
                  (aggregation_state m) (origin_semantic_model_reference m) (fill_nulls_with m)
            | None => m
            end)
       (measure_instances s))
    (dimension_instances s) (time_dimension_instances s) (entity_instances s)
    (group_by_metric_instances s) (metric_instances s) (metadata_instances s).

(** Modelled from the spec: [RemoveMeasures], [RemoveMetrics],
    [AddMetrics], [AddGroupByMetric] (not under src/): structural edits
    of one category that leave the others as they are. *)
Definition RemoveMeasures (s : InstanceSet) : InstanceSet :=
  mkInstanceSet [] (dimension_instances s) (time_dimension_instances s)
    (entity_instances s) (group_by_metric_instances s) (metric_instances s)
    (metadata_instances s).

Definition RemoveMetrics (s : InstanceSet) : InstanceSet :=
  mkInstanceSet (measure_instances s) (dimension_instances s)
    (time_dimension_instances s) (entity_instances s)
    (group_by_metric_instances s) [] (metadata_instances s).

Definition AddMetrics (new_metrics : list MetricInstance) (s : InstanceSet) : InstanceSet :=
  mkInstanceSet (measure_instances s) (dimension_instances s)
    (time_dimension_instances s) (entity_instances s)
    (group_by_metric_instances s) (metric_instances s ++ new_metrics)
    (metadata_instances s).

Definition AddGroupByMetric (new_instance : GroupByMetricInstance) (s : InstanceSet)
  : InstanceSet :=
  mkInstanceSet (measure_instances s) (dimension_instances s)
    (time_dimension_instances s) (entity_instances s)
    (group_by_metric_instances s ++ [new_instance]) (metric_instances s)
    (metadata_instances s).

(* ---------------------------------------------------------------- *)
(** *** Select columns for instances *)

(** An [OrderedDict]: assigning to a key that is present replaces its
    value in place, a new key goes to the end. *)
Fixpoint dict_set {V} (k : string) (v : V) (d : list (string * V)) : list (string * V) :=
  match d with
  | [] => [(k, v)]
  | (k', v') :: d' =>
      if string_dec k' k then (k, v) :: d' else (k', v') :: dict_set k v d'
  end.

Fixpoint dict_get {V} (k : string) (d : list (string * V)) : option V :=
  match d with
  | [] => None
  | (k', v') :: d' => if string_dec k' k then Some v' else dict_get k d'
  end.

Definition dict_values {V} (d : list (string * V)) : list V := map snd d.

(** The select column of one instance: it reads the instance's column
    from [table_alias] and names it as the resolver names the spec; when
    the output name is a key of the output-to-input mapping, the mapped
    input column is read instead. *)
Definition make_sql_column_expression {Spec Origin}
    (table_alias : string) (output_to_input_column_mapping : list (string * string))
    (inj : Spec -> InstanceSpec) (i : Instance Spec Origin) : Conv SqlSelectColumn :=
  existing <- associated_column i ;;
  let output_column_name := resolved_name (inj (spec i)) in
  let input_column_name :=
    match dict_get output_column_name output_to_input_column_mapping with
    | Some mapped => mapped
    | None => column_name existing
    end in
  ret (mkSqlSelectColumn (column_reference table_alias input_column_name)
         output_column_name).

Definition measure_associated_column (m : MeasureInstance) : Conv ColumnAssociation :=
  match measure_associated_columns m with
  | [c] => ret c
  | _ => raise (AssertionError "expected exactly one associated column")
  end.

Definition make_sql_column_expression_for_measure
    (table_alias : string) (output_to_input_column_mapping : list (string * string))
    (m : MeasureInstance) : Conv SqlSelectColumn :=
  existing <- measure_associated_column m ;;
  let output_column_name := resolved_name (OfMeasure (measure_spec m)) in
  let input_column_name :=
    match dict_get output_column_name output_to_input_column_mapping with
    | Some mapped => mapped
    | None => column_name existing
    end in
  ret (mkSqlSelectColumn (column_reference table_alias input_column_name)
         output_column_name).

(** Modelled from the spec: [CreateSelectColumnsForInstances] (not under
    src/): yield one select column per instance, referencing
    [alias.column_name], optionally rewriting the output name. *)
Definition CreateSelectColumnsForInstances
    (table_alias : string) (output_to_input_column_mapping : list (string * string))
    (s : InstanceSet) : Conv SelectColumnSet :=
  metric_cols <- for_each
    (make_sql_column_expression table_alias output_to_input_column_mapping OfMetric)
    (metric_instances s) ;;
  measure_cols <- for_each
    (make_sql_column_expression_for_measure table_alias output_to_input_column_mapping)
    (measure_instances s) ;;
  dimension_cols <- for_each
    (make_sql_column_expression table_alias output_to_input_column_mapping OfDimension)
    (dimension_instances s) ;;
  time_dimension_cols <- for_each
    (make_sql_column_expression table_alias output_to_input_column_mapping OfTimeDimension)
    (time_dimension_instances s) ;;
  entity_cols <- for_each
    (make_sql_column_expression table_alias output_to_input_column_mapping OfEntity)
    (entity_instances s) ;;
  group_by_metric_cols <- for_each
    (make_sql_column_expression table_alias output_to_input_column_mapping OfGroupByMetric)
    (group_by_metric_instances s) ;;
  metadata_cols <- for_each
    (make_sql_column_expression table_alias output_to_input_column_mapping OfMetadata)
    (metadata_instances s) ;;
  ret (mkSelectColumnSet metric_cols measure_cols dimension_cols time_dimension_cols
         entity_cols group_by_metric_cols metadata_cols).

Definition output_measure_spec (specs : list MetricInputMeasureSpec) (m : MeasureSpec)
  : MeasureSpec :=
  match alias_of_measure specs m with
  | Some a => mkMeasureSpec a
  | None => m
  end.

(** The select column that aggregates one measure: the measure's column
    in the table read from, wrapped in the measure's aggregation
    function, under the name of the (possibly aliased) output spec. *)
Definition make_sql_column_expression_to_aggregate_measure
    (table_alias : string) (metric_input_measure_specs : list MetricInputMeasureSpec)
    (m : MeasureInstance) : Conv SqlSelectColumn :=
  column_in_table <- measure_associated_column m ;;
  ret (mkSqlSelectColumn
         (build_expression_from_aggregation_type
            (get_measure_agg (measure_reference (measure_spec m)))
            (column_reference table_alias (column_name column_in_table)))
         (resolved_name
            (OfMeasure (output_measure_spec metric_input_measure_specs (measure_spec m))))).

(** Modelled from the spec: [CreateSelectColumnsWithMeasuresAggregated]
    (not under src/): as [CreateSelectColumnsForInstances], but wraps
    each measure in its aggregation function; a measure whose input spec
    carries an alias is renamed in the SELECT. *)
Definition CreateSelectColumnsWithMeasuresAggregated
    (table_alias : string) (metric_input_measure_specs : list MetricInputMeasureSpec)
    (s : InstanceSet) : Conv SelectColumnSet :=
  metric_cols <- for_each (make_sql_column_expression table_alias [] OfMetric)
    (metric_instances s) ;;
  measure_cols <- for_each
    (make_sql_column_expression_to_aggregate_measure table_alias metric_input_measure_specs)
    (measure_instances s) ;;
  dimension_cols <- for_each (make_sql_column_expression table_alias [] OfDimension)
    (dimension_instances s) ;;
  time_dimension_cols <- for_each (make_sql_column_expression table_alias [] OfTimeDimension)
    (time_dimension_instances s) ;;
  entity_cols <- for_each (make_sql_column_expression table_alias [] OfEntity)
    (entity_instances s) ;;
  group_by_metric_cols <- for_each (make_sql_column_expression table_alias [] OfGroupByMetric)
    (group_by_metric_instances s) ;;
  metadata_cols <- for_each (make_sql_column_expression table_alias [] OfMetadata)
    (metadata_instances s) ;;
  ret (mkSelectColumnSet metric_cols measure_cols dimension_cols time_dimension_cols
         entity_cols group_by_metric_cols metadata_cols).

(** Modelled from the spec: [create_select_columns_for_instance_sets]
    (not under src/): the select columns of every instance set of the
    alias-to-instance-set mapping, each read from its own table alias. *)
Fixpoint select_column_set_for_instance_sets
    (table_alias_to_instance_set : list (string * InstanceSet)) (acc : SelectColumnSet)
  : Conv SelectColumnSet :=
  match table_alias_to_instance_set with
  | [] => ret acc
  | (table_alias, s) :: rest =>
      cols <- CreateSelectColumnsForInstances table_alias [] s ;;
      select_column_set_for_instance_sets rest (merge_columns acc cols)
  end.

Definition create_select_columns_for_instance_sets
    (table_alias_to_instance_set : list (string * InstanceSet))
  : Conv (list SqlSelectColumn) :=
  cols <- select_column_set_for_instance_sets table_alias_to_instance_set
            empty_select_column_set ;;
  ret (as_tuple cols).

(* ---------------------------------------------------------------- *)
(** *** Join descriptions built by [SqlQueryPlanJoinBuilder] *)

Record AnnotatedSqlDataSet : Type := mkAnnotatedSqlDataSet {
  data_set : SqlDataSet;
  alias : string;
  _metric_time_column_name : option string
}.

(** A join target of [JoinOnEntitiesNode] without its node: the entity
    to join on, if any, and the join type. *)
Record JoinDescription : Type := mkJoinDescription {
  join_on_entity : option EntityReference;
  join_type : SqlJoinType
}.

(** [SqlQueryPlanJoinBuilder.make_base_output_join_description] of
    metricflow.plan_conversion.sql_join_builder. *)
Variable make_base_output_join_description :
  AnnotatedSqlDataSet -> AnnotatedSqlDataSet -> JoinDescription -> SqlJoinDescription.

(* ---------------------------------------------------------------- *)
(** *** Handlers *)

(** [visit_source_node]. *)
Definition visit_source_node (node_data_set : SqlDataSet) : Conv SqlDataSet :=
  select <- checked_sql_select_node node_data_set ;;
  ret (mkSqlDataSet (instance_set node_data_set) (SqlSelectStatementNode select)).

(** The right data set's instance set after the join on one target. *)
Definition right_data_set_instance_set_after_join
    (join_on_entity : option EntityReference) (right_instance_set : InstanceSet)
  : InstanceSet :=
  match join_on_entity with
  | Some e =>
      let right_data_set_instance_set_filtered :=
        FilterLinkableInstancesWithLeadingLink e right_instance_set in
      AddLinkToLinkableElements e right_data_set_instance_set_filtered
  | None => right_instance_set
  end.

(** The body of [for join_description in node.join_targets]. *)
Fixpoint join_targets_loop
    (from_data_set : SqlDataSet) (from_data_set_alias : string)
    (join_targets : list (Conv SqlDataSet * JoinDescription))
    (table_alias_to_instance_set : list (string * InstanceSet))
    (sql_join_descs : list SqlJoinDescription)
  : Conv (list (string * InstanceSet) * list SqlJoinDescription) :=
  match join_targets with
  | [] => ret (table_alias_to_instance_set, sql_join_descs)
  | (right_node_to_join, join_description) :: rest =>
      right_data_set <- right_node_to_join ;;
      right_data_set_alias <- _next_unique_table_alias ;;
      let sql_join_desc :=
        make_base_output_join_description
          (mkAnnotatedSqlDataSet from_data_set from_data_set_alias None)
          (mkAnnotatedSqlDataSet right_data_set right_data_set_alias None)
          join_description in
      join_targets_loop from_data_set from_data_set_alias rest
        (dict_set right_data_set_alias
           (right_data_set_instance_set_after_join
              (join_on_entity join_description) (instance_set right_data_set))
           table_alias_to_instance_set)
        (sql_join_descs ++ [sql_join_desc])
  end.

(** The dictionary passed to [ChangeMeasureAggregationState] by
    [visit_join_on_entities_node]. *)
Definition join_state_changes : StateMap :=
  [ (NON_AGGREGATED, NON_AGGREGATED); (COMPLETE, PARTIAL); (PARTIAL, PARTIAL) ].

(** [visit_join_on_entities_node]. *)
Definition visit_join_on_entities_node
    (description : string) (left_node : Conv SqlDataSet)
    (join_targets : list (Conv SqlDataSet * JoinDescription)) : Conv SqlDataSet :=
  from_data_set <- left_node ;;
  from_data_set_alias <- _next_unique_table_alias ;;
  let table_alias_to_instance_set :=
    dict_set from_data_set_alias (instance_set from_data_set) [] in
  joined <- join_targets_loop from_data_set from_data_set_alias join_targets
              table_alias_to_instance_set [] ;;
  let '(table_alias_to_instance_set, sql_join_descs) := joined in
  let from_data_set_output_instance_set :=
    FilterElements_include (spec_set (instance_set from_data_set))
      (instance_set from_data_set) in
  from_data_set_output_instance_set <-
    ChangeMeasureAggregationState join_state_changes from_data_set_output_instance_set ;;
  let table_alias_to_instance_set :=
    dict_set from_data_set_alias from_data_set_output_instance_set
      table_alias_to_instance_set in
  select_columns <- create_select_columns_for_instance_sets table_alias_to_instance_set ;;
  from_source <- checked_sql_select_node from_data_set ;;
  ret (mkSqlDataSet
         (merge (dict_values table_alias_to_instance_set))
         (SqlSelectStatementNode
            (select_statement description select_columns
               (SqlSelectStatementNode from_source) from_data_set_alias
               sql_join_descs None []))).

(** The dictionary passed to [ChangeMeasureAggregationState] by
    [visit_aggregate_measures_node]. *)
Definition aggregate_state_changes : StateMap :=
  [ (NON_AGGREGATED, COMPLETE); (COMPLETE, COMPLETE); (PARTIAL, COMPLETE) ].

(** [any((spec.alias for spec in node.metric_input_measure_specs))]: an
    alias counts when it is a non-empty string. *)
Definition any_alias (specs : list MetricInputMeasureSpec) : bool :=
  existsb (fun i => match input_alias i with
                    | Some a => negb (String.eqb a EmptyString)
                    | None => false
                    end) specs.

(** [visit_aggregate_measures_node]. *)
Definition visit_aggregate_measures_node
    (description : string) (parent_node : Conv SqlDataSet)
    (metric_input_measure_specs : list MetricInputMeasureSpec) : Conv SqlDataSet :=
  from_data_set <- parent_node ;;
  aggregated_instance_set <-
    ChangeMeasureAggregationState aggregate_state_changes (instance_set from_data_set) ;;
  let aggregated_instance_set := ChangeAssociatedColumns aggregated_instance_set in
  let aggregated_instance_set :=
    UpdateMeasureFillNullsWith metric_input_measure_specs aggregated_instance_set in
  from_data_set_alias <- _next_unique_table_alias ;;
  select_column_set <-
    CreateSelectColumnsWithMeasuresAggregated from_data_set_alias
      metric_input_measure_specs aggregated_instance_set ;;
  let aggregated_instance_set :=
    if any_alias metric_input_measure_specs
    then ChangeAssociatedColumns
           (AliasAggregatedMeasures metric_input_measure_specs aggregated_instance_set)
    else aggregated_instance_set in
  from_source <- checked_sql_select_node from_data_set ;;
  ret (mkSqlDataSet
         aggregated_instance_set
         (SqlSelectStatementNode
            (select_statement description (as_tuple select_column_set)
               (SqlSelectStatementNode from_source) from_data_set_alias
               [] None (as_tuple (without_measure_columns select_column_set))))).

(** Python's [str] of an integer. *)
Definition str_of_int (v : Z) : string := NilEmpty.string_of_int (Z.to_int v).

(** [__make_col_reference_or_coalesce_expr]. *)
Definition __make_col_reference_or_coalesce_expr
    (column_name : string) (input_measure : option MetricInputMeasure)
    (from_data_set_alias : string) : SqlExpressionNode :=
  let metric_expr := column_reference from_data_set_alias column_name in
  match input_measure with
  | Some im =>
      match im_fill_nulls_with im with
      | Some v =>
          SqlAggregateFunctionExpression SQL_COALESCE
            [metric_expr; SqlStringExpression (str_of_int v) [] []]
      | None => metric_expr
      end
  | None => metric_expr
  end.

Definition measure_column_name (im : MetricInputMeasure) : string :=
  resolved_name (OfMeasure (mkMeasureSpec (post_aggregation_measure_reference im))).

(** The [metric_expr] computed in the loop of [visit_compute_metrics_node]
    for one metric, by metric type. *)
Definition compute_metric_expr (metric : Metric) (from_data_set_alias : string)
  : Conv SqlExpressionNode :=
  match type metric with
  | RATIO =>
      match numerator (type_params metric), denominator (type_params metric) with
      | Some num, Some den =>
          let numerator_column_name :=
            resolved_name (OfMetric (mkMetricSpec (post_aggregation_reference num))) in
          let denominator_column_name :=
            resolved_name (OfMetric (mkMetricSpec (post_aggregation_reference den))) in
          ret (SqlRatioComputationExpression
                 (column_reference from_data_set_alias numerator_column_name)
                 (column_reference from_data_set_alias denominator_column_name))
      | _, _ =>
          raise (AssertionError
            "Missing numerator or denominator for ratio metric, this should have been caught in validation!")
      end
  | SIMPLE =>
      match input_measures metric with
      | [] =>
          ret (__make_col_reference_or_coalesce_expr (name metric) None from_data_set_alias)
      | [input_measure] =>
          ret (__make_col_reference_or_coalesce_expr (measure_column_name input_measure)
                 (Some input_measure) from_data_set_alias)
      | _ =>
          raise (AssertionError "Simple metrics should always source from exactly 1 measure.")
      end
  | CUMULATIVE =>
      assert_that (length (measure_references metric) =? 1)%nat
        "Cumulative metrics should always source from exactly 1 measure." ;;;
      match input_measures metric with
      | input_measure :: _ =>
          ret (__make_col_reference_or_coalesce_expr (measure_column_name input_measure)
                 (Some input_measure) from_data_set_alias)
      | [] => raise (IndexError "list index out of range")
      end
  | DERIVED =>
      match type_expr (type_params metric) with
      | Some e =>
          assert_that (negb (String.eqb e EmptyString))
            "Derived metrics are required to have an `expr` in their YAML definition." ;;;
          ret (SqlStringExpression e [] [])
      | None =>
          raise (AssertionError
            "Derived metrics are required to have an `expr` in their YAML definition.")
      end
  | CONVERSION =>
      match conversion_type_params (type_params metric) with
      | Some params =>
          let conversion_column_reference :=
            column_reference from_data_set_alias
              (measure_column_name (conversion_measure params)) in
          let base_column_reference :=
            column_reference from_data_set_alias
              (measure_column_name (base_measure params)) in
          match calculation params with
          | CONVERSION_RATE =>
              ret (SqlRatioComputationExpression conversion_column_reference
                     base_column_reference)
          | CONVERSIONS => ret conversion_column_reference
          end
      | None =>
          raise (AssertionError
            "A conversion metric should have type_params.conversion_type_params defined.")
      end
  end.

(** What one iteration of the loop over [node.metric_specs] adds. *)
Inductive ComputedInstance : Type :=
| AsMetric (i : MetricInstance)
| AsGroupByMetric (i : GroupByMetricInstance).

Definition compute_metric
    (for_group_by_source_node : bool) (output_instance_set : InstanceSet)
    (from_data_set_alias : string) (metric_spec : MetricSpec)
  : Conv (SqlSelectColumn * ComputedInstance) :=
  let metric := get_metric (metric_element_name metric_spec) in
  metric_expr <- compute_metric_expr metric from_data_set_alias ;;
  let defined_from := mkMetricModelReference (metric_element_name metric_spec) in
  if for_group_by_source_node then
    match entity_instances output_instance_set with
    | entity_instance :: _ =>
        let entity_spec := spec entity_instance in
        let group_by_metric_spec :=
          mkGroupByMetricSpec (metric_element_name metric_spec) []
            (entity_entity_links entity_spec ++ [entity_element_name entity_spec]) in
        let output_column_association := resolve_spec (OfGroupByMetric group_by_metric_spec) in
        ret (mkSqlSelectColumn metric_expr (column_name output_column_association),
             AsGroupByMetric
               (mkInstance [output_column_association] group_by_metric_spec defined_from))
    | [] => raise (IndexError "tuple index out of range")
    end
  else
    let output_column_association := resolve_spec (OfMetric metric_spec) in
    ret (mkSqlSelectColumn metric_expr (column_name output_column_association),
         AsMetric (mkInstance [output_column_association] metric_spec defined_from)).

Definition computed_metric_instances (l : list ComputedInstance) : list MetricInstance :=
  flat_map (fun c => match c with AsMetric i => [i] | AsGroupByMetric _ => [] end) l.

(** The value of [group_by_metric_instance] after the loop: the last one
    assigned. *)
Definition last_group_by_metric_instance (l : list ComputedInstance)
  : option GroupByMetricInstance :=
  fold_left (fun acc c => match c with AsGroupByMetric i => Some i | AsMetric _ => acc end)
    l None.

(** [visit_compute_metrics_node]. *)
Definition visit_compute_metrics_node
    (description : string) (parent_node : Conv SqlDataSet)
    (node_metric_specs : list MetricSpec) (for_group_by_source_node : bool)
  : Conv SqlDataSet :=
  from_data_set <- parent_node ;;
  from_data_set_alias <- _next_unique_table_alias ;;
  let output_instance_set := RemoveMeasures (instance_set from_data_set) in
  let output_instance_set := ChangeAssociatedColumns output_instance_set in
  let output_instance_set := RemoveMetrics output_instance_set in
  assert_that
    (negb for_group_by_source_node
     || ((length node_metric_specs =? 1)%nat
         && (length (entity_instances output_instance_set) =? 1)%nat))
    "Group by metrics currently only support exactly one metric grouped by exactly one entity." ;;;
  non_metric_select_column_set <-
    CreateSelectColumnsForInstances from_data_set_alias [] output_instance_set ;;
  computed <- for_each
    (compute_metric for_group_by_source_node output_instance_set from_data_set_alias)
    node_metric_specs ;;
  let metric_select_columns := map fst computed in
  let output_instance_set :=
    match last_group_by_metric_instance (map snd computed) with
    | Some group_by_metric_instance =>
        AddGroupByMetric group_by_metric_instance output_instance_set
    | None => AddMetrics (computed_metric_instances (map snd computed)) output_instance_set
    end in
  let combined_select_column_set :=
    merge_columns non_metric_select_column_set
      (mkSelectColumnSet metric_select_columns [] [] [] [] [] []) in
  from_source <- checked_sql_select_node from_data_set ;;
  ret (mkSqlDataSet
         output_instance_set
         (SqlSelectStatementNode
            (select_statement description (as_tuple combined_select_column_set)
               (SqlSelectStatementNode from_source) from_data_set_alias [] None []))).

(* ---------------------------------------------------------------- *)
(** *** Time ranges and the time spine *)

(** [_make_time_range_comparison_expr]: an expression like
    [ds BETWEEN '2020-01-01' AND '2020-01-02']. *)
Definition _make_time_range_comparison_expr
    (table_alias column_alias : string) (time_range_constraint : TimeRangeConstraint)
  : SqlExpressionNode :=
  SqlBetweenExpression
    (SqlColumnReferenceExpression (mkSqlColumnReference table_alias column_alias))
    (SqlStringLiteralExpression (strftime_iso8601 (start_time time_range_constraint)))
    (SqlStringLiteralExpression (strftime_iso8601 (end_time time_range_constraint))).

(** [_make_time_spine_data_set]. *)
Definition _make_time_spine_data_set
    (agg_time_dimension_instance : TimeDimensionInstance)
    (time_spine_source : TimeSpineSource)
    (time_range_constraint : option TimeRangeConstraint) : Conv SqlDataSet :=
  let time_spine_instance_set :=
    mkInstanceSet [] [] [agg_time_dimension_instance] [] [] [] [] in
  time_spine_table_alias <- _next_unique_table_alias ;;
  let column_expr :=
    column_reference time_spine_table_alias (time_column_name time_spine_source) in
  let column_alias := resolved_name (OfTimeDimension (spec agg_time_dimension_instance)) in
  let direct :=
    if TimeGranularity_eq_dec (time_granularity (spec agg_time_dimension_instance))
         (time_column_granularity time_spine_source)
    then true else false in
  let select_columns :=
    if direct
    then [mkSqlSelectColumn column_expr column_alias]
    else [mkSqlSelectColumn
            (SqlDateTruncExpression
               (time_granularity (spec agg_time_dimension_instance)) column_expr)
            column_alias] in
  let apply_group_by := negb direct in
  ret (mkSqlDataSet
         time_spine_instance_set
         (SqlSelectStatementNode
            (select_statement TIME_SPINE_DATA_SET_DESCRIPTION select_columns
               (SqlTableFromClauseNode (spine_table time_spine_source))
               time_spine_table_alias []
               (match time_range_constraint with
                | Some c =>
                    Some (_make_time_range_comparison_expr time_spine_table_alias
                            (time_column_name time_spine_source) c)
                | None => None
                end)
               (if apply_group_by then select_columns else [])))).

(** Python's [sorted(xs, key=...)] and [list.sort(key=...)]: a stable
    sort on an integer key. *)
Fixpoint insert_by_key {A} (key : A -> Z) (x : A) (l : list A) : list A :=
  match l with
  | [] => [x]
  | y :: l' => if (key x <=? key y)%Z then x :: l else y :: insert_by_key key x l'
  end.

Definition sorted_by_key {A} (key : A -> Z) (l : list A) : list A :=
  fold_right (insert_by_key key) [] l.

Definition granularity_key (i : TimeDimensionInstance) : Z :=
  to_int (time_granularity (spec i)).

(** Modelled from the spec: [DataSet.metric_time_dimension_instances]
    (metricflow.dataset, not under src/): the time-dimension instances
    labelled with the reserved [metric_time] element name. *)
Definition metric_time_dimension_instances (d : SqlDataSet) : list TimeDimensionInstance :=
  filter (fun i => String.eqb (td_element_name (spec i)) METRIC_TIME_ELEMENT_NAME)
    (time_dimension_instances (instance_set d)).

(** Modelled from the spec: [DataSet.metric_time_dimension_spec]
    (metricflow.dataset, not under src/): the time-dimension spec with
    the reserved [metric_time] element name and no entity links, at the
    given granularity and date part. *)
Definition metric_time_dimension_spec
    (granularity : TimeGranularity) (part : option DatePart) : TimeDimensionSpec :=
  mkTimeDimensionSpec METRIC_TIME_ELEMENT_NAME [] granularity part None.

(** [visit_constrain_time_range_node]. *)
Definition visit_constrain_time_range_node
    (description : string) (parent_node : Conv SqlDataSet)
    (time_range_constraint : TimeRangeConstraint) : Conv SqlDataSet :=
  from_data_set <- parent_node ;;
  from_data_set_alias <- _next_unique_table_alias ;;
  let time_dimension_instances_for_metric_time :=
    sorted_by_key granularity_key (metric_time_dimension_instances from_data_set) in
  match time_dimension_instances_for_metric_time with
  | [] =>
      raise (AssertionError "No metric time dimensions found in the input data set for this node")
  | time_dimension_instance_for_metric_time :: _ =>
      column <- associated_column time_dimension_instance_for_metric_time ;;
      let constrain_metric_time_column_condition :=
        _make_time_range_comparison_expr from_data_set_alias (column_name column)
          time_range_constraint in
      let output_instance_set := ChangeAssociatedColumns (instance_set from_data_set) in
      select_column_set <-
        CreateSelectColumnsForInstances from_data_set_alias [] output_instance_set ;;
      from_source <- checked_sql_select_node from_data_set ;;
      ret (mkSqlDataSet
             output_instance_set
             (SqlSelectStatementNode
                (select_statement description (as_tuple select_column_set)
                   (SqlSelectStatementNode from_source) from_data_set_alias []
                   (Some constrain_metric_time_column_condition) [])))
  end.

(** The measures of [visit_metric_time_dimension_transform_node]'s first
    loop: those whose aggregation time dimension is the node's. *)
Fixpoint output_measure_instances_of
    (aggregation_time_dimension_reference : TimeDimensionReference)
    (measures : list MeasureInstance) : Conv (list MeasureInstance) :=
  match measures with
  | [] => ret []
  | measure_instance :: rest =>
      match get_by_reference
              (semantic_model_name (origin_semantic_model_reference measure_instance)) with
      | None =>
          raise (AssertionError "the semantic model that the measure was defined from can't be found")
      | Some semantic_model =>
          let aggregation_time_dimension_for_measure :=
            checked_agg_time_dimension_for_measure semantic_model
              (measure_reference (measure_spec measure_instance)) in
          kept <- output_measure_instances_of aggregation_time_dimension_reference rest ;;
          ret (if string_dec aggregation_time_dimension_for_measure
                    aggregation_time_dimension_reference
               then measure_instance :: kept else kept)
      end
  end.

(** The test of the second loop: a local time dimension (no entity links)
    that refers to the node's aggregation time dimension. *)
Definition is_matching_time_dimension
    (aggregation_time_dimension_reference : TimeDimensionReference)
    (time_dimension_instance : TimeDimensionInstance) : bool :=
  (length (td_entity_links (spec time_dimension_instance)) =? 0)%nat
  && (if string_dec (td_reference (spec time_dimension_instance))
           aggregation_time_dimension_reference then true else false).

(** The metric-time analog of a matching time-dimension instance. *)
Definition metric_time_analog (matching : TimeDimensionInstance) : TimeDimensionInstance :=
  let metric_time_spec :=
    metric_time_dimension_spec (time_granularity (spec matching)) (date_part (spec matching)) in
  mkInstance [resolve_spec (OfTimeDimension metric_time_spec)] metric_time_spec
    (defined_from matching).

(** The third loop: the analog instances and the output-column to
    input-column mapping. *)
Fixpoint metric_time_loop
    (matching_time_dimension_instances : list TimeDimensionInstance)
    (output_time_dimension_instances : list TimeDimensionInstance)
    (output_column_to_input_column : list (string * string))
  : Conv (list TimeDimensionInstance * list (string * string)) :=
  match matching_time_dimension_instances with
  | [] => ret (output_time_dimension_instances, output_column_to_input_column)
  | matching :: rest =>
      let analog := metric_time_analog matching in
      input_column <- associated_column matching ;;
      metric_time_loop rest
        (output_time_dimension_instances ++ [analog])
        (dict_set (resolved_name (OfTimeDimension (spec analog)))
           (column_name input_column) output_column_to_input_column)
  end.

(** [visit_metric_time_dimension_transform_node]. *)
Definition visit_metric_time_dimension_transform_node
    (description : string) (parent_node : Conv SqlDataSet)
    (aggregation_time_dimension_reference : TimeDimensionReference) : Conv SqlDataSet :=
  input_data_set <- parent_node ;;
  output_measure_instances <-
    output_measure_instances_of aggregation_time_dimension_reference
      (measure_instances (instance_set input_data_set)) ;;
  let matching_time_dimension_instances :=
    filter (is_matching_time_dimension aggregation_time_dimension_reference)
      (time_dimension_instances (instance_set input_data_set)) in
  looped <- metric_time_loop matching_time_dimension_instances
              (time_dimension_instances (instance_set input_data_set)) [] ;;
  let '(output_time_dimension_instances, output_column_to_input_column) := looped in
  let output_instance_set :=
    mkInstanceSet output_measure_instances
      (dimension_instances (instance_set input_data_set))
      output_time_dimension_instances
      (entity_instances (instance_set input_data_set))
      []
      (metric_instances (instance_set input_data_set))
      [] in
  let output_instance_set := ChangeAssociatedColumns output_instance_set in
  from_data_set_alias <- _next_unique_table_alias ;;
  select_column_set <-
    CreateSelectColumnsForInstances from_data_set_alias output_column_to_input_column
      output_instance_set ;;
  from_source <- checked_sql_select_node input_data_set ;;
  ret (mkSqlDataSet
         output_instance_set
         (SqlSelectStatementNode
            (select_statement description (as_tuple select_column_set)
               (SqlSelectStatementNode from_source) from_data_set_alias [] None []))).

(* ---------------------------------------------------------------- *)
(** *** Join to time spine *)

(** The fields of [JoinToTimeSpineNode] read by the converter and by the
    join builder. *)
Record JoinToTimeSpineNodeFields : Type := mkJoinToTimeSpineNodeFields {
  requested_agg_time_dimension_specs : list TimeDimensionSpec;
  use_custom_agg_time_dimension : bool;
  spine_time_range_constraint : option TimeRangeConstraint;
  offset_to_grain : option TimeGranularity;
  spine_join_type : SqlJoinType;
  spine_description : string
}.

(** [SqlQueryPlanJoinBuilder.make_join_to_time_spine_join_description]. *)
Variable make_join_to_time_spine_join_description :
  JoinToTimeSpineNodeFields -> string -> string -> SqlSelectStatement -> string ->
  SqlJoinDescription.

(** [spec.qualified_name]: the canonical qualified name of a spec. *)
Variable qualified_name : InstanceSpec -> string.

Definition granularity_repr (g : TimeGranularity) : string :=
  match g with
  | DAY => "TimeGranularity.DAY"
  | WEEK => "TimeGranularity.WEEK"
  | MONTH => "TimeGranularity.MONTH"
  | QUARTER => "TimeGranularity.QUARTER"
  | YEAR => "TimeGranularity.YEAR"
  end.

Definition smaller_granularity_message (got spine : TimeGranularity) : string :=
  ("Can't join to time spine for a time dimension with a smaller granularity than that of the time spine column. Got "
     ++ granularity_repr got ++ " for time dimension, "
     ++ granularity_repr spine ++ " for time spine.")%string.

(** The test shared by the loops over the parent's time dimensions: the
    instance is one of the aggregation time dimension. *)
Definition is_agg_time_dimension
    (agg_time_element_name : string) (agg_time_entity_links : list EntityReference)
    (i : TimeDimensionInstance) : bool :=
  String.eqb (td_element_name (spec i)) agg_time_element_name
  && (if links_eq_dec (td_entity_links (spec i)) agg_time_entity_links then true else false).

Definition is_some {A} (o : option A) : bool :=
  match o with Some _ => true | None => false end.

(** The loop over [time_dimensions_to_select_from_time_spine]. *)
Fixpoint time_spine_loop
    (node : JoinToTimeSpineNodeFields) (time_spine_alias : string)
    (original_time_spine_dim_instance : TimeDimensionInstance)
    (need_where_filter : bool)
    (to_select : list TimeDimensionInstance)
    (time_spine_select_columns : list SqlSelectColumn)
    (time_spine_dim_instances : list TimeDimensionInstance)
    (where_filter : option SqlExpressionNode)
  : Conv (list SqlSelectColumn * list TimeDimensionInstance * option SqlExpressionNode) :=
  match to_select with
  | [] => ret (time_spine_select_columns, time_spine_dim_instances, where_filter)
  | time_dimension_instance :: rest =>
      let time_dimension_spec := spec time_dimension_instance in
      let original_spec := spec original_time_spine_dim_instance in
      let time_spine_column_select_expr :=
        column_reference time_spine_alias (qualified_name (OfTimeDimension original_spec)) in
      if (to_int (time_granularity time_dimension_spec)
          <? to_int (time_granularity original_spec))%Z
      then
        raise (RuntimeError
                 (smaller_granularity_message (time_granularity time_dimension_spec)
                    (time_granularity original_spec)))
      else
        let select_expr :=
          if TimeGranularity_eq_dec (time_granularity time_dimension_spec)
               (time_granularity original_spec)
          then time_spine_column_select_expr
          else SqlDateTruncExpression (time_granularity time_dimension_spec)
                 time_spine_column_select_expr in
        let where_filter :=
          if need_where_filter
             && mem TimeDimensionSpec_eq_dec time_dimension_spec
                  (requested_agg_time_dimension_specs node)
          then
            let new_where_filter :=
              SqlComparisonExpression select_expr EQUALS time_spine_column_select_expr in
            match where_filter with
            | Some previous => Some (SqlLogicalExpression SQL_OR [previous; new_where_filter])
            | None => Some new_where_filter
            end
          else where_filter in
        let select_expr :=
          match date_part time_dimension_spec with
          | Some part => SqlExtractExpression part select_expr
          | None => select_expr
          end in
        let time_dim_spec :=
          mkTimeDimensionSpec (td_element_name original_spec) (td_entity_links original_spec)
            (time_granularity time_dimension_spec) (date_part time_dimension_spec)
            (td_aggregation_state original_spec) in
        let time_spine_dim_instance : TimeDimensionInstance :=
          mkInstance [resolve_spec (OfTimeDimension time_dim_spec)] time_dim_spec
            (defined_from original_time_spine_dim_instance) in
        column <- associated_column time_spine_dim_instance ;;
        time_spine_loop node time_spine_alias original_time_spine_dim_instance
          need_where_filter rest
          (time_spine_select_columns ++ [mkSqlSelectColumn select_expr (column_name column)])
          (time_spine_dim_instances ++ [time_spine_dim_instance])
          where_filter
  end.

(** The element name and entity links of the aggregation time dimension
    to join on: the first requested spec when the node uses a custom one,
    metric time otherwise. *)
Definition agg_time_dimension_of (node : JoinToTimeSpineNodeFields)
  : Conv (string * list EntityReference) :=
  if use_custom_agg_time_dimension node then
    match requested_agg_time_dimension_specs node with
    | agg_time_dimension :: _ =>
        ret (td_element_name agg_time_dimension, td_entity_links agg_time_dimension)
    | [] => raise (IndexError "tuple index out of range")
    end
  else ret (METRIC_TIME_ELEMENT_NAME, []).

(** The parent's instances of the aggregation time dimension without date
    part, smallest granularity first. *)
Definition agg_time_dimension_instances_for_join
    (agg_time_element_name : string) (agg_time_entity_links : list EntityReference)
    (parent_time_dimension_instances : list TimeDimensionInstance)
  : list TimeDimensionInstance :=
  sorted_by_key granularity_key
    (filter (fun i =>
               negb (is_some (date_part (spec i)))
               && is_agg_time_dimension agg_time_element_name agg_time_entity_links i)
       parent_time_dimension_instances).

(** [visit_join_to_time_spine_node]. *)
Definition visit_join_to_time_spine_node
    (node : JoinToTimeSpineNodeFields) (parent_node : Conv SqlDataSet) : Conv SqlDataSet :=
  parent_data_set <- parent_node ;;
  parent_alias <- _next_unique_table_alias ;;
  agg_time <- agg_time_dimension_of node ;;
  let '(agg_time_element_name, agg_time_entity_links) := agg_time in
  let parent_time_dimension_instances :=
    time_dimension_instances (instance_set parent_data_set) in
  let agg_time_dimension_instances :=
    agg_time_dimension_instances_for_join agg_time_element_name agg_time_entity_links
      parent_time_dimension_instances in
  match agg_time_dimension_instances with
  | [] =>
      raise (AssertionError
        "Couldn't find requested agg_time_dimension in parent data set. The dataflow plan may have been configured incorrectly.")
  | agg_time_dimension_instance_for_join :: _ =>
      time_spine_alias <- _next_unique_table_alias ;;
      time_spine_dataset <-
        _make_time_spine_data_set agg_time_dimension_instance_for_join
          _time_spine_source (spine_time_range_constraint node) ;;
      parent_sql_select_node <- checked_sql_select_node parent_data_set ;;
      let join_description :=
        make_join_to_time_spine_join_description node time_spine_alias
          (resolved_name (OfTimeDimension (spec agg_time_dimension_instance_for_join)))
          parent_sql_select_node parent_alias in
      let time_dimensions_to_select_from_time_spine :=
        filter (is_agg_time_dimension agg_time_element_name agg_time_entity_links)
          parent_time_dimension_instances in
      let parent_instance_set :=
        mkInstanceSet
          (measure_instances (instance_set parent_data_set))
          (dimension_instances (instance_set parent_data_set))
          (filter (fun i =>
                     negb (is_agg_time_dimension agg_time_element_name
                             agg_time_entity_links i))
             parent_time_dimension_instances)
          (entity_instances (instance_set parent_data_set))
          []
          (metric_instances (instance_set parent_data_set))
          (metadata_instances (instance_set parent_data_set)) in
      parent_select_columns <-
        create_select_columns_for_instance_sets [(parent_alias, parent_instance_set)] ;;
      time_spine_select_node <- checked_sql_select_node time_spine_dataset ;;
      assert_that
        ((length (time_dimension_instances (instance_set time_spine_dataset)) =? 1)%nat
         && (length (select_columns time_spine_select_node) =? 1)%nat)
        "Time spine dataset not configured properly. Expected exactly one column." ;;;
      match time_dimension_instances (instance_set time_spine_dataset) with
      | [] => raise (IndexError "tuple index out of range")
      | original_time_spine_dim_instance :: _ =>
          let need_where_filter :=
            is_some (offset_to_grain node)
            && negb (mem TimeDimensionSpec_eq_dec (spec original_time_spine_dim_instance)
                       (requested_agg_time_dimension_specs node)) in
          looped <- time_spine_loop node time_spine_alias original_time_spine_dim_instance
                      need_where_filter time_dimensions_to_select_from_time_spine
                      [] [] None ;;
          let '(time_spine_select_columns, time_spine_dim_instances, where_filter) :=
            looped in
          let time_spine_instance_set :=
            mkInstanceSet [] [] time_spine_dim_instances [] [] [] [] in
          ret (mkSqlDataSet
                 (merge [time_spine_instance_set; parent_instance_set])
                 (SqlSelectStatementNode
                    (select_statement (spine_description node)
                       (time_spine_select_columns ++ parent_select_columns)
                       (SqlSelectStatementNode time_spine_select_node) time_spine_alias
                       [join_description] where_filter [])))
      end
  end.

(** [visit_write_to_result_data_table_node]: the parent's data set. *)
Definition visit_write_to_result_data_table_node (parent_node : Conv SqlDataSet)
  : Conv SqlDataSet := parent_node.

(** [visit_write_to_result_table_node]. *)
Definition visit_write_to_result_table_node
    (parent_node : Conv SqlDataSet) (output_sql_table : SqlTable) : Conv SqlDataSet :=
  input_data_set <- parent_node ;;
  parent_select <- checked_sql_select_node input_data_set ;;
  ret (mkSqlDataSet (instance_set input_data_set)
         (SqlCreateTableAsNode output_sql_table (SqlSelectStatementNode parent_select))).

(* ---------------------------------------------------------------- *)
(** *** Handlers for time-range joins, ordering, filtering, combining and conversions *)

(** [InstanceSpecSet.all_specs]: the specs of every category, in the order
    the categories are declared. *)
Definition all_specs (s : InstanceSpecSet) : list InstanceSpec :=
  map OfMeasure (measure_specs s)
  ++ map OfDimension (dimension_specs s)
  ++ map OfTimeDimension (time_dimension_specs s)
  ++ map OfEntity (entity_specs s)
  ++ map OfGroupByMetric (group_by_metric_specs s)
  ++ map OfMetric (metric_specs s)
  ++ map OfMetadata (metadata_specs s).

(** Modelled from the spec: [SelectOnlyLinkableSpecs]
    (metricflow.plan_conversion.spec_transforms, not under src/): the
    linkable specs of a spec set, that is its dimension, time-dimension,
    entity and group-by-metric specs. *)
Definition SelectOnlyLinkableSpecs (s : InstanceSpecSet) : InstanceSpecSet :=
  mkInstanceSpecSet [] (dimension_specs s) (time_dimension_specs s) (entity_specs s)
    (group_by_metric_specs s) [] [].

(** [InstanceSpecSet.linkable_specs]. *)
Definition linkable_specs (s : InstanceSpecSet) : list InstanceSpec :=
  all_specs (SelectOnlyLinkableSpecs s).

(** [InstanceSpecSet.create_from_specs]: the specs sorted into their
    categories. *)
Definition create_from_specs (specs : list InstanceSpec) : InstanceSpecSet :=
  mkInstanceSpecSet
    (flat_map (fun s => match s with OfMeasure x => [x] | _ => [] end) specs)
    (flat_map (fun s => match s with OfDimension x => [x] | _ => [] end) specs)
    (flat_map (fun s => match s with OfTimeDimension x => [x] | _ => [] end) specs)
    (flat_map (fun s => match s with OfEntity x => [x] | _ => [] end) specs)
    (flat_map (fun s => match s with OfGroupByMetric x => [x] | _ => [] end) specs)
    (flat_map (fun s => match s with OfMetric x => [x] | _ => [] end) specs)
    (flat_map (fun s => match s with OfMetadata x => [x] | _ => [] end) specs).

(** Modelled from the spec: [CreateColumnAssociations]
    (metricflow.plan_conversion.spec_transforms, not under src/): the
    column associations of the specs of a spec set, through the resolver. *)
Definition CreateColumnAssociations (s : InstanceSpecSet) : list ColumnAssociation :=
  map resolve_spec (all_specs s).

(** Modelled from the spec: [DataSet.column_association_for_time_dimension]
    (metricflow.dataset, not under src/): the column of the data set's
    instance of the given time-dimension spec; an error when the data set
    has no such instance. *)
Definition column_association_for_time_dimension
    (d : SqlDataSet) (time_dimension_spec : TimeDimensionSpec) : Conv ColumnAssociation :=
  match find (fun i => if TimeDimensionSpec_eq_dec (spec i) time_dimension_spec
                       then true else false)
          (time_dimension_instances (instance_set d)) with
  | Some i => associated_column i
  | None => raise (RuntimeError "no instance of the time dimension spec in the data set")
  end.

(** [MetricTimeWindow] of the metric protocol. *)
Record MetricTimeWindow : Type := mkMetricTimeWindow {
  window_count : Z;
  window_granularity : TimeGranularity
}.

(** The fields of [JoinOverTimeRangeNode] read by the converter and by the
    join builder. *)
Record JoinOverTimeRangeNodeFields : Type := mkJoinOverTimeRangeNodeFields {
  time_dimension_spec_for_join : TimeDimensionSpec;
  over_time_range_constraint : option TimeRangeConstraint;
  window : option MetricTimeWindow;
  grain_to_date : option TimeGranularity;
  over_time_description : string
}.

(** [SqlQueryPlanJoinBuilder.make_cumulative_metric_time_range_join_description]. *)
Variable make_cumulative_metric_time_range_join_description :
  JoinOverTimeRangeNodeFields -> AnnotatedSqlDataSet -> AnnotatedSqlDataSet ->
  SqlJoinDescription.

(** [visit_join_over_time_range_node]. *)
Definition visit_join_over_time_range_node
    (node : JoinOverTimeRangeNodeFields) (parent_node : Conv SqlDataSet) : Conv SqlDataSet :=
  input_data_set <- parent_node ;;
  input_data_set_alias <- _next_unique_table_alias ;;
  match find (fun instance =>
                if TimeDimensionSpec_eq_dec (spec instance) (time_dimension_spec_for_join node)
                then true else false)
          (time_dimension_instances (instance_set input_data_set)) with
  | None =>
      raise (AssertionError
        "Specified metric time spec not found in parent data set. This should have been caught by validations.")
  | Some agg_time_dimension_instance =>
      time_spine_data_set_alias <- _next_unique_table_alias ;;
      time_spine_data_set <-
        _make_time_spine_data_set agg_time_dimension_instance _time_spine_source
          (over_time_range_constraint node) ;;
      let table_alias_to_instance_set :=
        dict_set time_spine_data_set_alias (instance_set time_spine_data_set) [] in
      metric_time_column <-
        column_association_for_time_dimension input_data_set
          (spec agg_time_dimension_instance) ;;
      spine_time_column <-
        column_association_for_time_dimension time_spine_data_set
          (spec agg_time_dimension_instance) ;;
      let join_desc :=
        make_cumulative_metric_time_range_join_description node
          (mkAnnotatedSqlDataSet input_data_set input_data_set_alias
             (Some (column_name metric_time_column)))
          (mkAnnotatedSqlDataSet time_spine_data_set time_spine_data_set_alias
             (Some (column_name spine_time_column))) in
      let modified_input_instance_set :=
        FilterElements_exclude
          (mkInstanceSpecSet [] [] [spec agg_time_dimension_instance] [] [] [] [])
          (instance_set input_data_set) in
      let table_alias_to_instance_set :=
        dict_set input_data_set_alias modified_input_instance_set
          table_alias_to_instance_set in
      let output_instance_set := ChangeAssociatedColumns (instance_set input_data_set) in
      select_columns <- create_select_columns_for_instance_sets table_alias_to_instance_set ;;
      from_source <- checked_sql_select_node time_spine_data_set ;;
      ret (mkSqlDataSet
             output_instance_set
             (SqlSelectStatementNode
                (select_statement (over_time_description node) select_columns
                   (SqlSelectStatementNode from_source) time_spine_data_set_alias
                   [join_desc] None [])))
  end.

Record OrderBySpec : Type := mkOrderBySpec {
  instance_spec : InstanceSpec;
  descending : bool
}.

(** [visit_order_by_limit_node]. *)
Definition visit_order_by_limit_node
    (description : string) (parent_node : Conv SqlDataSet)
    (order_by_specs : list OrderBySpec) (limit : option Z) : Conv SqlDataSet :=
  from_data_set <- parent_node ;;
  let output_instance_set := instance_set from_data_set in
  from_data_set_alias <- _next_unique_table_alias ;;
  let output_instance_set := ChangeAssociatedColumns output_instance_set in
  let order_by_descriptions :=
    map (fun order_by_spec =>
           mkSqlOrderByDescription
             (column_reference from_data_set_alias
                (resolved_name (instance_spec order_by_spec)))
             (descending order_by_spec))
      order_by_specs in
  select_column_set <-
    CreateSelectColumnsForInstances from_data_set_alias [] output_instance_set ;;
  from_source <- checked_sql_select_node from_data_set ;;
  ret (mkSqlDataSet
         output_instance_set
         (SqlSelectStatementNode
            (mkSqlSelectStatement description (as_tuple select_column_set)
               (SqlSelectStatementNode from_source) from_data_set_alias
               [] None [] order_by_descriptions limit false))).

(** [visit_filter_elements_node]. *)
Definition visit_filter_elements_node
    (description : string) (parent_node : Conv SqlDataSet)
    (include_specs : InstanceSpecSet) (distinct : bool) : Conv SqlDataSet :=
  from_data_set <- parent_node ;;
  let output_instance_set :=
    FilterElements_include include_specs (instance_set from_data_set) in
  from_data_set_alias <- _next_unique_table_alias ;;
  let output_instance_set := ChangeAssociatedColumns output_instance_set in
  select_column_set <-
    CreateSelectColumnsForInstances from_data_set_alias [] output_instance_set ;;
  let select_columns := as_tuple select_column_set in
  let group_bys := if distinct then select_columns else [] in
  from_source <- checked_sql_select_node from_data_set ;;
  ret (mkSqlDataSet
         output_instance_set
         (SqlSelectStatementNode
            (select_statement description select_columns
               (SqlSelectStatementNode from_source) from_data_set_alias
               [] None group_bys))).

(** The [where] of a [WhereConstraintNode]. *)
Record WhereFilterSpec : Type := mkWhereFilterSpec {
  where_sql : string;
  where_bind_parameters : SqlBindParameters;
  where_linkable_specs : list InstanceSpec
}.

(** [visit_where_constraint_node]. *)
Definition visit_where_constraint_node
    (description : string) (parent_node : Conv SqlDataSet) (node_where : WhereFilterSpec)
  : Conv SqlDataSet :=
  parent_data_set <- parent_node ;;
  let output_instance_set := ChangeAssociatedColumns (instance_set parent_data_set) in
  from_data_set_alias <- _next_unique_table_alias ;;
  let column_associations_in_where_sql :=
    CreateColumnAssociations (create_from_specs (where_linkable_specs node_where)) in
  select_column_set <-
    CreateSelectColumnsForInstances from_data_set_alias [] output_instance_set ;;
  from_source <- checked_sql_select_node parent_data_set ;;
  ret (mkSqlDataSet
         output_instance_set
         (SqlSelectStatementNode
            (select_statement description (as_tuple select_column_set)
               (SqlSelectStatementNode from_source) from_data_set_alias []
               (Some (SqlStringExpression (where_sql node_where)
                        (map column_name column_associations_in_where_sql)
                        (where_bind_parameters node_where)))
               []))).

(** [SqlQueryPlanJoinBuilder.make_join_description_for_combining_datasets]:
    from data set, joined data set, join type, column names and the table
    aliases seen so far. *)
Variable make_join_description_for_combining_datasets :
  AnnotatedSqlDataSet -> AnnotatedSqlDataSet -> SqlJoinType -> list string -> list string ->
  SqlJoinDescription.

(** [CreateSelectColumnForCombineOutputNode(table_alias, column_resolver,
    metric_lookup)] applied to an instance set: the select columns that
    carry a parent's measures and metrics into the combined output. *)
Variable CreateSelectColumnForCombineOutputNode : string -> InstanceSet -> SelectColumnSet.

(** The column of a linkable spec coalesced across the table aliases. *)
Definition coalesced_column (table_aliases : list string) (s : InstanceSpec)
  : SqlSelectColumn :=
  let c := resolved_name s in
  mkSqlSelectColumn
    (SqlAggregateFunctionExpression SQL_COALESCE
       (map (fun table_alias => column_reference table_alias c) table_aliases))
    c.

(** Modelled from the spec: [CreateSelectCoalescedColumnsForLinkableSpecs]
    (metricflow.plan_conversion.spec_transforms, not under src/):
    COALESCE of each linkable column across all aliases. *)
Definition CreateSelectCoalescedColumnsForLinkableSpecs
    (table_aliases : list string) (s : InstanceSpecSet) : SelectColumnSet :=
  mkSelectColumnSet [] []
    (map (fun x => coalesced_column table_aliases (OfDimension x)) (dimension_specs s))
    (map (fun x => coalesced_column table_aliases (OfTimeDimension x))
       (time_dimension_specs s))
    (map (fun x => coalesced_column table_aliases (OfEntity x)) (entity_specs s))
    (map (fun x => coalesced_column table_aliases (OfGroupByMetric x))
       (group_by_metric_specs s))
    [].

Definition InstanceSpec_eq_dec (a b : InstanceSpec) : {a = b} + {a <> b}.
Proof.
  decide equality;
    [ apply MeasureSpec_eq_dec | apply DimensionSpec_eq_dec
    | apply TimeDimensionSpec_eq_dec | apply EntitySpec_eq_dec
    | apply GroupByMetricSpec_eq_dec | apply MetricSpec_eq_dec
    | apply MetadataSpec_eq_dec ].
Defined.

(** [set(a) == set(b)] on spec lists. *)
Definition same_spec_set (a b : list InstanceSpec) : bool :=
  forallb (fun x => mem InstanceSpec_eq_dec x b) a
  && forallb (fun x => mem InstanceSpec_eq_dec x a) b.

(** The loop that builds the join descriptions of the combine node; the
    aliases seen grow by one per joined data set. *)
Fixpoint combine_joins
    (from_data_set : AnnotatedSqlDataSet) (join_type : SqlJoinType)
    (column_names : list string) (join_data_sets : list AnnotatedSqlDataSet)
    (aliases_seen : list string) : list SqlJoinDescription :=
  match join_data_sets with
  | [] => []
  | join_data_set :: rest =>
      make_join_description_for_combining_datasets from_data_set join_data_set join_type
        column_names aliases_seen
      :: combine_joins from_data_set join_type column_names rest
           (aliases_seen ++ [alias join_data_set])
  end.

(** [visit_combine_aggregated_outputs_node]. *)
Definition visit_combine_aggregated_outputs_node
    (description : string) (parent_nodes : list (Conv SqlDataSet)) : Conv SqlDataSet :=
  assert_that (1 <? length parent_nodes)%nat
    "Shouldn't have a CombineAggregatedOutputsNode in the dataflow plan if there's only 1 parent." ;;;
  parent_data_sets <- for_each
    (fun parent_node =>
       parent_sql_data_set <- parent_node ;;
       table_alias <- _next_unique_table_alias ;;
       ret (mkAnnotatedSqlDataSet parent_sql_data_set table_alias None))
    parent_nodes ;;
  let table_alias_to_instance_set :=
    fold_left (fun table x => dict_set (alias x) (instance_set (data_set x)) table)
      parent_data_sets [] in
  match parent_data_sets with
  | [] => raise (IndexError "list index out of range")
  | from_data_set :: join_data_sets =>
      let from_linkable_specs :=
        linkable_specs (spec_set (instance_set (data_set from_data_set))) in
      assert_that
        (forallb (fun x =>
                    same_spec_set
                      (linkable_specs (spec_set (instance_set (data_set x))))
                      from_linkable_specs)
           join_data_sets)
        "All parent nodes should have the same set of linkable instances since all values are coalesced." ;;;
      let linkable_spec_set :=
        SelectOnlyLinkableSpecs (spec_set (instance_set (data_set from_data_set))) in
      let join_type :=
        if (length (all_specs linkable_spec_set) =? 0)%nat then CROSS_JOIN else FULL_OUTER in
      let column_names := map resolved_name (all_specs linkable_spec_set) in
      let joins_descriptions :=
        combine_joins from_data_set join_type column_names join_data_sets
          [alias from_data_set] in
      let output_instance_set :=
        ChangeAssociatedColumns
          (merge (map (fun x => instance_set (data_set x)) parent_data_sets)) in
      let aggregated_select_columns :=
        fold_left
          (fun columns entry =>
             merge_columns columns
               (CreateSelectColumnForCombineOutputNode (fst entry) (snd entry)))
          table_alias_to_instance_set empty_select_column_set in
      let linkable_select_column_set :=
        CreateSelectCoalescedColumnsForLinkableSpecs (map alias parent_data_sets)
          linkable_spec_set in
      let combined_select_column_set :=
        merge_columns linkable_select_column_set aggregated_select_columns in
      from_source <- checked_sql_select_node (data_set from_data_set) ;;
      ret (mkSqlDataSet
             output_instance_set
             (SqlSelectStatementNode
                (select_statement description (as_tuple combined_select_column_set)
                   (SqlSelectStatementNode from_source) (alias from_data_set)
                   joins_descriptions None (as_tuple linkable_select_column_set))))
  end.

(** [ColumnEqualityDescription] of the join builder. *)
Record ColumnEqualityDescription : Type := mkColumnEqualityDescription {
  left_column_alias : string;
  right_column_alias : string
}.

(** [SqlQueryPlanJoinBuilder.make_column_equality_sql_join_description]:
    right source node, left and right source aliases, column equalities
    and join type. *)
Variable make_column_equality_sql_join_description :
  SqlQueryPlanNode -> string -> string -> list ColumnEqualityDescription -> SqlJoinType ->
  SqlJoinDescription.

(** The fields of [SemiAdditiveJoinNode]. *)
Record SemiAdditiveJoinNodeFields : Type := mkSemiAdditiveJoinNodeFields {
  semi_time_dimension_spec : TimeDimensionSpec;
  agg_by_function : AggregationType;
  semi_entity_specs : list EntitySpec;
  queried_time_dimension_spec : option TimeDimensionSpec;
  semi_description : string
}.

(** [AggregationType.name]. *)
Definition aggregation_type_name (a : AggregationType) : string :=
  match a with
  | AGG_SUM => "SUM" | AGG_MIN => "MIN" | AGG_MAX => "MAX"
  | AGG_COUNT_DISTINCT => "COUNT_DISTINCT" | AGG_SUM_BOOLEAN => "SUM_BOOLEAN"
  | AGG_AVERAGE => "AVERAGE" | AGG_PERCENTILE => "PERCENTILE" | AGG_MEDIAN => "MEDIAN"
  | AGG_COUNT => "COUNT"
  end.

(** [TimeDimensionSpec.with_aggregation_state]. *)
Definition with_aggregation_state (st : AggregationState) (s : TimeDimensionSpec)
  : TimeDimensionSpec :=
  mkTimeDimensionSpec (td_element_name s) (td_entity_links s) (time_granularity s)
    (date_part s) (Some st).

(** [visit_semi_additive_join_node]. *)
Definition visit_semi_additive_join_node
    (node : SemiAdditiveJoinNodeFields) (parent_node : Conv SqlDataSet) : Conv SqlDataSet :=
  from_data_set <- parent_node ;;
  from_data_set_alias <- _next_unique_table_alias ;;
  let output_instance_set := ChangeAssociatedColumns (instance_set from_data_set) in
  inner_join_data_set_alias <- _next_unique_table_alias ;;
  let time_dimension_column_name :=
    resolved_name (OfTimeDimension (semi_time_dimension_spec node)) in
  let join_time_dimension_column_name :=
    resolved_name
      (OfTimeDimension (with_aggregation_state COMPLETE (semi_time_dimension_spec node))) in
  let time_dimension_select_column :=
    mkSqlSelectColumn
      (build_expression_from_aggregation_type (agg_by_function node)
         (column_reference inner_join_data_set_alias time_dimension_column_name))
      join_time_dimension_column_name in
  let entity_column_names :=
    map (fun entity_spec => resolved_name (OfEntity entity_spec)) (semi_entity_specs node) in
  let entity_select_columns :=
    map (fun entity_column_name =>
           mkSqlSelectColumn
             (column_reference inner_join_data_set_alias entity_column_name)
             entity_column_name)
      entity_column_names in
  let column_equality_descriptions :=
    mkColumnEqualityDescription time_dimension_column_name join_time_dimension_column_name
    :: map (fun entity_column_name =>
              mkColumnEqualityDescription entity_column_name entity_column_name)
         entity_column_names in
  let queried_time_dimension_select_column :=
    match queried_time_dimension_spec node with
    | Some queried =>
        let query_time_dimension_column_name := resolved_name (OfTimeDimension queried) in
        [mkSqlSelectColumn
           (column_reference inner_join_data_set_alias query_time_dimension_column_name)
           query_time_dimension_column_name]
    | None => []
    end in
  let row_filter_group_bys := entity_select_columns ++ queried_time_dimension_select_column in
  from_source <- checked_sql_select_node from_data_set ;;
  let row_filter_sql_select_node :=
    SqlSelectStatementNode
      (select_statement
         ("Filter row on " ++ aggregation_type_name (agg_by_function node)
            ++ "(" ++ time_dimension_column_name ++ ")")%string
         (row_filter_group_bys ++ [time_dimension_select_column])
         (SqlSelectStatementNode from_source) inner_join_data_set_alias
         [] None row_filter_group_bys) in
  join_data_set_alias <- _next_unique_table_alias ;;
  let sql_join_desc :=
    make_column_equality_sql_join_description row_filter_sql_select_node
      from_data_set_alias join_data_set_alias column_equality_descriptions INNER in
  select_column_set <-
    CreateSelectColumnsForInstances from_data_set_alias [] output_instance_set ;;
  ret (mkSqlDataSet
         output_instance_set
         (SqlSelectStatementNode
            (select_statement (semi_description node) (as_tuple select_column_set)
               (SqlSelectStatementNode from_source) from_data_set_alias
               [sql_join_desc] None []))).

(** Modelled from the spec: [MetadataSpec.from_name]
    (metricflow_semantics.specs, not under src/): the metadata spec of a
    column name and an optional aggregation, whose columns the resolver
    names [col__min], [col__max]. *)
Definition MetadataSpec_from_name (column : string) (agg_type : option AggregationType)
  : MetadataSpec := mkMetadataSpec column agg_type.

(** Modelled from the spec: [ConvertToMetadata] and [AddMetadata] (not
    under src/): the instance set of the given metadata instances alone,
    and the instance set with the given metadata instances appended. *)
Definition ConvertToMetadata (new_instances : list MetadataInstance) (s : InstanceSet)
  : InstanceSet := mkInstanceSet [] [] [] [] [] [] new_instances.

Definition AddMetadata (new_instances : list MetadataInstance) (s : InstanceSet)
  : InstanceSet :=
  mkInstanceSet (measure_instances s) (dimension_instances s) (time_dimension_instances s)
    (entity_instances s) (group_by_metric_instances s) (metric_instances s)
    (metadata_instances s ++ new_instances).

(** [visit_min_max_node]. *)
Definition visit_min_max_node
    (description : string) (parent_node : Conv SqlDataSet) : Conv SqlDataSet :=
  parent_data_set <- parent_node ;;
  parent_table_alias <- _next_unique_table_alias ;;
  parent_select <- checked_sql_select_node parent_data_set ;;
  match select_columns parent_select with
  | [parent_column] =>
      let parent_column_alias := column_alias parent_column in
      let per_agg_type :=
        map (fun agg_type =>
               let metadata_spec :=
                 MetadataSpec_from_name parent_column_alias (Some agg_type) in
               let output_column_association := resolve_spec (OfMetadata metadata_spec) in
               (mkSqlSelectColumn
                  (build_expression_from_aggregation_type agg_type
                     (column_reference parent_table_alias parent_column_alias))
                  (column_name output_column_association),
                (mkInstance [output_column_association] metadata_spec tt : MetadataInstance)))
          [AGG_MIN; AGG_MAX] in
      ret (mkSqlDataSet
             (ConvertToMetadata (map snd per_agg_type) (instance_set parent_data_set))
             (SqlSelectStatementNode
                (select_statement description (map fst per_agg_type)
                   (SqlSelectStatementNode parent_select) parent_table_alias [] None [])))
  | _ => raise (AssertionError "MinMaxNode supports exactly one parent select column.")
  end.

(** [MetricFlowReservedKeywords.MF_INTERNAL_UUID.value]. *)
Definition MF_INTERNAL_UUID : string := "mf_internal_uuid".

(** [visit_add_generated_uuid_column_node]. *)
Definition visit_add_generated_uuid_column_node (parent_node : Conv SqlDataSet)
  : Conv SqlDataSet :=
  input_data_set <- parent_node ;;
  input_data_set_alias <- _next_unique_table_alias ;;
  let gen_uuid_spec := MetadataSpec_from_name MF_INTERNAL_UUID None in
  let output_column_association := resolve_spec (OfMetadata gen_uuid_spec) in
  let output_instance_set :=
    AddMetadata [mkInstance [output_column_association] gen_uuid_spec tt]
      (instance_set input_data_set) in
  let gen_uuid_sql_select_column :=
    mkSqlSelectColumn SqlGenerateUuidExpression (column_name output_column_association) in
  select_column_set <-
    CreateSelectColumnsForInstances input_data_set_alias [] (instance_set input_data_set) ;;
  from_source <- checked_sql_select_node input_data_set ;;
  ret (mkSqlDataSet
         output_instance_set
         (SqlSelectStatementNode
            (select_statement "Add column with generated UUID"
               (as_tuple select_column_set ++ [gen_uuid_sql_select_column])
               (SqlSelectStatementNode from_source) input_data_set_alias [] None []))).

(** A constant property of a conversion: the spec on the base side and the
    spec on the conversion side. *)
Record ConstantPropertySpec : Type := mkConstantPropertySpec {
  base_spec : InstanceSpec;
  conversion_spec : InstanceSpec
}.

(** The fields of [JoinConversionEventsNode] read by the converter and by
    the join builder. *)
Record JoinConversionEventsNodeFields : Type := mkJoinConversionEventsNodeFields {
  base_time_dimension_spec : TimeDimensionSpec;
  conversion_time_dimension_spec : TimeDimensionSpec;
  entity_spec : EntitySpec;
  constant_properties : option (list ConstantPropertySpec);
  unique_identifier_keys : list InstanceSpec;
  conversion_measure_spec : MeasureSpec;
  conversion_window : option MetricTimeWindow;
  conversion_description : string
}.

(** [SqlQueryPlanJoinBuilder.make_join_conversion_join_description]. *)
Variable make_join_conversion_join_description :
  JoinConversionEventsNodeFields -> AnnotatedSqlDataSet -> AnnotatedSqlDataSet ->
  list ColumnEqualityDescription -> SqlJoinDescription.

(** Modelled from the spec: [CreateSqlColumnReferencesForInstances] (not
    under src/): one column reference per instance, to the resolver's
    column in the given table alias; the column names are kept here. *)
Definition CreateSqlColumnReferencesForInstances (s : InstanceSet) : list string :=
  map resolved_name (all_specs (spec_set s)).

(** [visit_join_conversion_events_node]. *)
Definition visit_join_conversion_events_node
    (node : JoinConversionEventsNodeFields)
    (base_node conversion_node : Conv SqlDataSet) : Conv SqlDataSet :=
  base_data_set <- base_node ;;
  base_data_set_alias <- _next_unique_table_alias ;;
  conversion_data_set <- conversion_node ;;
  conversion_data_set_alias <- _next_unique_table_alias ;;
  let base_time_dimension_column_name :=
    resolved_name (OfTimeDimension (base_time_dimension_spec node)) in
  let conversion_time_dimension_column_name :=
    resolved_name (OfTimeDimension (conversion_time_dimension_spec node)) in
  let entity_column_name := resolved_name (OfEntity (entity_spec node)) in
  let constant_property_column_names :=
    map (fun constant_property =>
           (resolved_name (base_spec constant_property),
            resolved_name (conversion_spec constant_property)))
      (match constant_properties node with Some l => l | None => [] end) in
  let sql_join_description :=
    make_join_conversion_join_description node
      (mkAnnotatedSqlDataSet base_data_set base_data_set_alias
         (Some base_time_dimension_column_name))
      (mkAnnotatedSqlDataSet conversion_data_set conversion_data_set_alias
         (Some conversion_time_dimension_column_name))
      (mkColumnEqualityDescription entity_column_name entity_column_name
       :: map (fun names => mkColumnEqualityDescription (fst names) (snd names))
            constant_property_column_names) in
  let base_sql_column_references :=
    CreateSqlColumnReferencesForInstances (instance_set base_data_set) in
  let unique_conversion_col_names := map resolved_name (unique_identifier_keys node) in
  let partition_by_columns :=
    [entity_column_name; conversion_time_dimension_column_name]
    ++ unique_conversion_col_names
    ++ match constant_properties node with
       | Some (_ :: _) => map snd constant_property_column_names
       | _ => []
       end in
  let base_sql_select_columns :=
    map (fun base_column_name =>
           mkSqlSelectColumn
             (SqlWindowFunctionExpression FIRST_VALUE
                [column_reference base_data_set_alias base_column_name]
                (map (fun column => column_reference conversion_data_set_alias column)
                   partition_by_columns)
                [(column_reference base_data_set_alias base_time_dimension_column_name,
                  true)])
             base_column_name)
      base_sql_column_references in
  let conversion_data_set_output_instance_set :=
    FilterElements_include
      (mkInstanceSpecSet [conversion_measure_spec node] [] [] [] [] [] [])
      (instance_set conversion_data_set) in
  let conversion_unique_key_select_columns :=
    map (fun column => mkSqlSelectColumn
                         (column_reference conversion_data_set_alias column) column)
      unique_conversion_col_names in
  additional_conversion_select_columns <-
    CreateSelectColumnsForInstances conversion_data_set_alias []
      conversion_data_set_output_instance_set ;;
  base_select <- checked_sql_select_node base_data_set ;;
  let deduped_sql_select_node :=
    SqlSelectStatementNode
      (mkSqlSelectStatement
         ("Dedupe the fanout with "
            ++ String.concat "," (map qualified_name (unique_identifier_keys node))
            ++ " in the conversion data set")%string
         (base_sql_select_columns ++ conversion_unique_key_select_columns
            ++ as_tuple additional_conversion_select_columns)
         (SqlSelectStatementNode base_select) base_data_set_alias
         [sql_join_description] None [] [] None true) in
  output_data_set_alias <- _next_unique_table_alias ;;
  let output_instance_set :=
    ChangeAssociatedColumns
      (merge [conversion_data_set_output_instance_set; instance_set base_data_set]) in
  select_column_set <-
    CreateSelectColumnsForInstances output_data_set_alias [] output_instance_set ;;
  ret (mkSqlDataSet
         output_instance_set
         (SqlSelectStatementNode
            (select_statement (conversion_description node) (as_tuple select_column_set)
               deduped_sql_select_node output_data_set_alias [] None []))).

(* ---------------------------------------------------------------- *)
(** *** The plan walker and the entry point *)

(** The dataflow node variants, one per handler of the converter. *)
Inductive DataflowPlanNode : Type :=
| ReadSqlSourceNode (source_data_set : SqlDataSet)
| JoinOnEntitiesNode (description : string) (left_node : DataflowPlanNode)
    (join_targets : list (DataflowPlanNode * JoinDescription))
| AggregateMeasuresNode (description : string) (parent_node : DataflowPlanNode)
    (metric_input_measure_specs : list MetricInputMeasureSpec)
| ComputeMetricsNode (description : string) (parent_node : DataflowPlanNode)
    (node_metric_specs : list MetricSpec) (for_group_by_source_node : bool)
| ConstrainTimeRangeNode (description : string) (parent_node : DataflowPlanNode)
    (time_range_constraint : TimeRangeConstraint)
| MetricTimeDimensionTransformNode (description : string) (parent_node : DataflowPlanNode)
    (aggregation_time_dimension_reference : TimeDimensionReference)
| JoinToTimeSpineNode (fields : JoinToTimeSpineNodeFields) (parent_node : DataflowPlanNode)
| WriteToResultDataTableNode (parent_node : DataflowPlanNode)
| WriteToResultTableNode (parent_node : DataflowPlanNode) (output_sql_table : SqlTable)
| JoinOverTimeRangeNode (over_fields : JoinOverTimeRangeNodeFields)
    (parent_node : DataflowPlanNode)
| OrderByLimitNode (description : string) (parent_node : DataflowPlanNode)
    (order_by_specs : list OrderBySpec) (limit : option Z)
| FilterElementsNode (description : string) (parent_node : DataflowPlanNode)
    (include_specs : InstanceSpecSet) (distinct : bool)
| WhereConstraintNode (description : string) (parent_node : DataflowPlanNode)
    (node_where : WhereFilterSpec)
| CombineAggregatedOutputsNode (description : string) (parent_nodes : list DataflowPlanNode)
| SemiAdditiveJoinNode (semi_fields : SemiAdditiveJoinNodeFields)
    (parent_node : DataflowPlanNode)
| MinMaxNode (description : string) (parent_node : DataflowPlanNode)
| AddGeneratedUuidColumnNode (parent_node : DataflowPlanNode)
| JoinConversionEventsNode (conversion_fields : JoinConversionEventsNodeFields)
    (base_node conversion_node : DataflowPlanNode).

(** [node.accept(self)]: dispatch on the node variant; parents are
    converted first, in the order the handler asks for them. *)
Fixpoint accept (node : DataflowPlanNode) : Conv SqlDataSet :=
  match node with
  | ReadSqlSourceNode d => visit_source_node d
  | JoinOnEntitiesNode description left_node join_targets =>
      visit_join_on_entities_node description (accept left_node)
        (map (fun target => let '(join_node, join_description) := target in
                            (accept join_node, join_description))
           join_targets)
  | AggregateMeasuresNode description parent_node specs =>
      visit_aggregate_measures_node description (accept parent_node) specs
  | ComputeMetricsNode description parent_node specs for_group_by =>
      visit_compute_metrics_node description (accept parent_node) specs for_group_by
  | ConstrainTimeRangeNode description parent_node constraint =>
      visit_constrain_time_range_node description (accept parent_node) constraint
  | MetricTimeDimensionTransformNode description parent_node reference =>
      visit_metric_time_dimension_transform_node description (accept parent_node) reference
  | JoinToTimeSpineNode fields parent_node =>
      visit_join_to_time_spine_node fields (accept parent_node)
  | WriteToResultDataTableNode parent_node =>
      visit_write_to_result_data_table_node (accept parent_node)
  | WriteToResultTableNode parent_node output_sql_table =>
      visit_write_to_result_table_node (accept parent_node) output_sql_table
  | JoinOverTimeRangeNode fields parent_node =>
      visit_join_over_time_range_node fields (accept parent_node)
  | OrderByLimitNode description parent_node order_by_specs limit =>
      visit_order_by_limit_node description (accept parent_node) order_by_specs limit
  | FilterElementsNode description parent_node include_specs distinct =>
      visit_filter_elements_node description (accept parent_node) include_specs distinct
  | WhereConstraintNode description parent_node node_where =>
      visit_where_constraint_node description (accept parent_node) node_where
  | CombineAggregatedOutputsNode description parent_nodes =>
      visit_combine_aggregated_outputs_node description (map accept parent_nodes)
  | SemiAdditiveJoinNode fields parent_node =>
      visit_semi_additive_join_node fields (accept parent_node)
  | MinMaxNode description parent_node =>
      visit_min_max_node description (accept parent_node)
  | AddGeneratedUuidColumnNode parent_node =>
      visit_add_generated_uuid_column_node (accept parent_node)
  | JoinConversionEventsNode fields base_node conversion_node =>
      visit_join_conversion_events_node fields (accept base_node) (accept conversion_node)
  end.

Definition DagId : Type := string.

Record SqlQueryPlan : Type := mkSqlQueryPlan {
  render_node : SqlQueryPlanNode;
  plan_id : option DagId
}.

Record ConvertToSqlPlanResult : Type := mkConvertToSqlPlanResult {
  result_instance_set : InstanceSet;
  sql_plan : SqlQueryPlan
}.

(** [SqlQueryOptimizerConfiguration.optimizers_for_level]: the optimizer
    passes for a level, each a function from SQL node to SQL node. *)
Variable optimizers_for_level :
  SqlQueryOptimizationLevel -> bool -> list (SqlQueryPlanNode -> SqlQueryPlanNode).

(** [sql_engine_type is SqlEngine.BIGQUERY]. *)
Definition use_column_alias_in_group_by (sql_engine_type : SqlEngine) : bool :=
  match sql_engine_type with BIGQUERY => true | _ => false end.

(** [convert_to_sql_query_plan].  The log lines written around each
    optimizer are not part of the result. *)
Definition convert_to_sql_query_plan
    (sql_engine_type : SqlEngine) (dataflow_plan_node : DataflowPlanNode)
    (optimization_level : SqlQueryOptimizationLevel)
    (sql_query_plan_id : option DagId) : Conv ConvertToSqlPlanResult :=
  data_set <- accept dataflow_plan_node ;;
  let sql_node := sql_node data_set in
  let sql_node :=
    fold_left (fun node optimizer => optimizer node)
      (optimizers_for_level optimization_level
         (use_column_alias_in_group_by sql_engine_type))
      sql_node in
  ret (mkConvertToSqlPlanResult (instance_set data_set)
         (mkSqlQueryPlan sql_node sql_query_plan_id)).

(* ================================================================== *)
(** ** What a handler returns when every instance has one column *)

(** The select column [make_sql_column_expression] returns for columns
    [cols] of an instance. *)
Definition select_column_of
    (table_alias : string) (output_to_input_column_mapping : list (string * string))
    (output_column_name : string) (cols : list ColumnAssociation) : SqlSelectColumn :=
  mkSqlSelectColumn
    (column_reference table_alias
       match dict_get output_column_name output_to_input_column_mapping with
       | Some mapped => mapped
       | None => match cols with c :: _ => column_name c | [] => EmptyString end
       end)
    output_column_name.

Definition instance_select_column {Spec Origin}
    (table_alias : string) (mapping : list (string * string))
    (inj : Spec -> InstanceSpec) (i : Instance Spec Origin) : SqlSelectColumn :=
  select_column_of table_alias mapping (resolved_name (inj (spec i))) (associated_columns i).

Definition measure_select_column
    (table_alias : string) (mapping : list (string * string)) (m : MeasureInstance)
  : SqlSelectColumn :=
  select_column_of table_alias mapping (resolved_name (OfMeasure (measure_spec m)))
    (measure_associated_columns m).

(** The aggregated select column of a measure whose column follows the
    resolver. *)
Definition aggregated_measure_column
    (table_alias : string) (metric_input_measure_specs : list MetricInputMeasureSpec)
    (m : MeasureInstance) : SqlSelectColumn :=
  mkSqlSelectColumn
    (build_expression_from_aggregation_type
       (get_measure_agg (measure_reference (measure_spec m)))
       (column_reference table_alias (resolved_name (OfMeasure (measure_spec m)))))
    (resolved_name (OfMeasure (output_measure_spec metric_input_measure_specs (measure_spec m)))).

Definition one_column (cols : list ColumnAssociation) : Prop := exists c, cols = [c].

(** Every instance of the set is bound to exactly one column. *)
Definition single_columns (s : InstanceSet) : Prop :=
  Forall (fun m => one_column (measure_associated_columns m)) (measure_instances s)
  /\ Forall (fun i => one_column (associated_columns i)) (dimension_instances s)
  /\ Forall (fun i => one_column (associated_columns i)) (time_dimension_instances s)
  /\ Forall (fun i => one_column (associated_columns i)) (entity_instances s)
  /\ Forall (fun i => one_column (associated_columns i)) (group_by_metric_instances s)
  /\ Forall (fun i => one_column (associated_columns i)) (metric_instances s)
  /\ Forall (fun i => one_column (associated_columns i)) (metadata_instances s).

(** The state a left-side measure has after [visit_join_on_entities_node]. *)
Definition state_after_join (st : AggregationState) : AggregationState :=
  match st with
  | NON_AGGREGATED => NON_AGGREGATED
  | PARTIAL => PARTIAL
  | COMPLETE => PARTIAL
  end.

(* ================================================================== *)
(** ** Properties *)

Unset Implicit Arguments.
Set Default Proof Using "Type".

Lemma bind_returned {A B} (c : Conv A) (k : A -> Conv B) s b s' :
  bind c k s = Returned b s' ->
  exists a s1, c s = Returned a s1 /\ k a s1 = Returned b s'.
Proof.
  unfold bind. destruct (c s) as [a s1 | e]; intro H; [eauto | discriminate].
Qed.

Lemma bind_step {A B} {c : Conv A} {s a s1} (k : A -> Conv B) :
  c s = Returned a s1 -> bind c k s = k a s1.
Proof. unfold bind. intros ->. reflexivity. Qed.

Lemma bind_raised {A B} {c : Conv A} {s e} (k : A -> Conv B) :
  c s = Raised e -> bind c k s = Raised e.
Proof. unfold bind. intros ->. reflexivity. Qed.

Lemma next_alias_step {B} (k : string -> Conv B) s :
  bind _next_unique_table_alias k s = k (alias_of_index s) (S s).
Proof. reflexivity. Qed.

Lemma ret_step {A B} (a : A) (k : A -> Conv B) s : bind (ret a) k s = k a s.
Proof. reflexivity. Qed.

Ltac bind_inv H :=
  let a := fresh "a" in
  let s1 := fresh "s" in
  let E := fresh "E" in
  apply bind_returned in H; destruct H as (a & s1 & E & H).

Tactic Notation "bind_inv_as" hyp(H) ident(a) ident(s) ident(E) :=
  apply bind_returned in H; destruct H as (a & s & E & H).

(** A loop whose body returns without touching the counter is a [map]. *)
Lemma for_each_map {A B} (f : A -> Conv B) (g : A -> B) xs s :
  Forall (fun x => forall s0, f x s0 = Returned (g x) s0) xs ->
  for_each f xs s = Returned (map g xs) s.
Proof.
  induction 1 as [| x xs Hx _ IH]; simpl; [reflexivity |].
  rewrite (bind_step _ (Hx s)), (bind_step _ IH). reflexivity.
Qed.

Lemma make_sql_column_expression_one {Spec Origin} alias mapping
    (inj : Spec -> InstanceSpec) (i : Instance Spec Origin) s :
  one_column (associated_columns i) ->
  make_sql_column_expression alias mapping inj i s
  = Returned (instance_select_column alias mapping inj i) s.
Proof.
  intros [c Hc]. unfold make_sql_column_expression, associated_column,
    instance_select_column, select_column_of.
  rewrite Hc. reflexivity.
Qed.

Lemma make_sql_column_expression_for_measure_one alias mapping m s :
  one_column (measure_associated_columns m) ->
  make_sql_column_expression_for_measure alias mapping m s
  = Returned (measure_select_column alias mapping m) s.
Proof.
  intros [c Hc]. unfold make_sql_column_expression_for_measure,
    measure_associated_column, measure_select_column, select_column_of.
  rewrite Hc. reflexivity.
Qed.

Lemma for_each_instance_columns {Spec Origin} alias mapping
    (inj : Spec -> InstanceSpec) (l : list (Instance Spec Origin)) s :
  Forall (fun i => one_column (associated_columns i)) l ->
  for_each (make_sql_column_expression alias mapping inj) l s
  = Returned (map (instance_select_column alias mapping inj) l) s.
Proof.
  intro H. apply for_each_map.
  eapply Forall_impl; [| exact H]. intros i Hi s0.
  now apply make_sql_column_expression_one.
Qed.

(** [CreateSelectColumnsForInstances] returns, column for column, when
    every instance has one column. *)
Lemma CreateSelectColumnsForInstances_returns alias mapping set s :
  single_columns set ->
  CreateSelectColumnsForInstances alias mapping set s
  = Returned
      (mkSelectColumnSet
         (map (instance_select_column alias mapping OfMetric) (metric_instances set))
         (map (measure_select_column alias mapping) (measure_instances set))
         (map (instance_select_column alias mapping OfDimension) (dimension_instances set))
         (map (instance_select_column alias mapping OfTimeDimension)
            (time_dimension_instances set))
         (map (instance_select_column alias mapping OfEntity) (entity_instances set))
         (map (instance_select_column alias mapping OfGroupByMetric)
            (group_by_metric_instances set))
         (map (instance_select_column alias mapping OfMetadata) (metadata_instances set)))
      s.
Proof.
  intros (Hm & Hd & Ht & He & Hg & Hk & Hx).
  unfold CreateSelectColumnsForInstances.
  rewrite (bind_step _ (for_each_instance_columns alias mapping OfMetric _ s Hk)).
  assert (Hmeasures :
    for_each (make_sql_column_expression_for_measure alias mapping) (measure_instances set) s
    = Returned (map (measure_select_column alias mapping) (measure_instances set)) s).
  { apply for_each_map. eapply Forall_impl; [| exact Hm]. intros m Hone s0.
    now apply make_sql_column_expression_for_measure_one. }
  rewrite (bind_step _ Hmeasures).
  rewrite (bind_step _ (for_each_instance_columns alias mapping OfDimension _ s Hd)).
  rewrite (bind_step _ (for_each_instance_columns alias mapping OfTimeDimension _ s Ht)).
  rewrite (bind_step _ (for_each_instance_columns alias mapping OfEntity _ s He)).
  rewrite (bind_step _ (for_each_instance_columns alias mapping OfGroupByMetric _ s Hg)).
  rewrite (bind_step _ (for_each_instance_columns alias mapping OfMetadata _ s Hx)).
  reflexivity.
Qed.

Lemma Forall_map_intro {A B} (P : B -> Prop) (f : A -> B) (l : list A) :
  (forall x, P (f x)) -> Forall P (map f l).
Proof. intro H. induction l; simpl; constructor; auto. Qed.

(** After [ChangeAssociatedColumns] every instance has one column. *)
Lemma ChangeAssociatedColumns_single_columns set :
  single_columns (ChangeAssociatedColumns set).
Proof.
  unfold single_columns, ChangeAssociatedColumns; simpl.
  repeat split; apply Forall_map_intro; intro x; eexists; reflexivity.
Qed.

Lemma ChangeMeasureAggregationState_returns changes (f : AggregationState -> AggregationState)
    set s :
  (forall st, state_lookup changes st = Some (f st)) ->
  ChangeMeasureAggregationState changes set s
  = Returned
      (mkInstanceSet
         (map (fun m => with_state (f (aggregation_state m)) m) (measure_instances set))
         (dimension_instances set) (time_dimension_instances set) (entity_instances set)
         (group_by_metric_instances set) (metric_instances set) (metadata_instances set))
      s.
Proof.
  intro Hf. unfold ChangeMeasureAggregationState.
  erewrite bind_step; [reflexivity |].
  apply for_each_map. apply Forall_forall. intros m _ s0. now rewrite Hf.
Qed.

Lemma aggregate_state_changes_total st :
  state_lookup aggregate_state_changes st = Some COMPLETE.
Proof. destruct st; reflexivity. Qed.

Lemma join_state_changes_total st :
  state_lookup join_state_changes st = Some (state_after_join st).
Proof. destruct st; reflexivity. Qed.

(** The instance set that [visit_aggregate_measures_node] hands to the
    select-column transform. *)
Definition aggregated_instance_set
    (metric_input_measure_specs : list MetricInputMeasureSpec) (set : InstanceSet)
  : InstanceSet :=
  UpdateMeasureFillNullsWith metric_input_measure_specs
    (ChangeAssociatedColumns
       (mkInstanceSet
          (map (fun m => with_state COMPLETE m) (measure_instances set))
          (dimension_instances set) (time_dimension_instances set)
          (entity_instances set) (group_by_metric_instances set)
          (metric_instances set) (metadata_instances set))).

Definition aggregated_measures
    (metric_input_measure_specs : list MetricInputMeasureSpec) (set : InstanceSet)
  : list MeasureInstance :=
  measure_instances (aggregated_instance_set metric_input_measure_specs set).

Lemma UpdateMeasureFillNullsWith_single_columns specs set :
  single_columns set -> single_columns (UpdateMeasureFillNullsWith specs set).
Proof.
  intros (Hm & H). split; [| exact H]. simpl.
  apply Forall_forall. intros m' Hin. apply in_map_iff in Hin as (m & <- & Hin).
  rewrite Forall_forall in Hm. specialize (Hm m Hin).
  destruct (find_input_spec specs (measure_spec m)); exact Hm.
Qed.

Ltac case_input_spec :=
  match goal with
  | |- context [find_input_spec ?specs ?m] => destruct (find_input_spec specs m)
  end.

Lemma aggregated_measure_columns alias specs set s :
  for_each (make_sql_column_expression_to_aggregate_measure alias specs)
    (aggregated_measures specs set) s
  = Returned (map (aggregated_measure_column alias specs) (measure_instances set)) s.
Proof.
  unfold aggregated_measures. simpl. rewrite !map_map.
  induction (measure_instances set) as [| m l IH]; simpl; [reflexivity |].
  erewrite bind_step.
  2:{ unfold make_sql_column_expression_to_aggregate_measure, measure_associated_column.
      case_input_spec; simpl; reflexivity. }
  rewrite (bind_step _ IH). reflexivity.
Qed.

Lemma aggregated_states specs set m :
  In m (aggregated_measures specs set) -> aggregation_state m = COMPLETE.
Proof.
  unfold aggregated_measures. simpl. rewrite !map_map. intro H.
  apply in_map_iff in H as (m0 & <- & _).
  case_input_spec; reflexivity.
Qed.

Lemma CreateSelectColumnsWithMeasuresAggregated_returns alias specs set s :
  let agg := aggregated_instance_set specs set in
  CreateSelectColumnsWithMeasuresAggregated alias specs agg s
  = Returned
      (mkSelectColumnSet
         (map (instance_select_column alias [] OfMetric) (metric_instances agg))
         (map (aggregated_measure_column alias specs) (measure_instances set))
         (map (instance_select_column alias [] OfDimension) (dimension_instances agg))
         (map (instance_select_column alias [] OfTimeDimension)
            (time_dimension_instances agg))
         (map (instance_select_column alias [] OfEntity) (entity_instances agg))
         (map (instance_select_column alias [] OfGroupByMetric)
            (group_by_metric_instances agg))
         (map (instance_select_column alias [] OfMetadata) (metadata_instances agg)))
      s.
Proof.
  intro agg.
  assert (Hsingle : single_columns agg).
  { apply UpdateMeasureFillNullsWith_single_columns, ChangeAssociatedColumns_single_columns. }
  destruct Hsingle as (_ & Hd & Ht & He & Hg & Hk & Hx).
  unfold CreateSelectColumnsWithMeasuresAggregated.
  rewrite (bind_step _ (for_each_instance_columns _ [] OfMetric _ s Hk)).
  rewrite (bind_step _ (aggregated_measure_columns alias specs set s)).
  rewrite (bind_step _ (for_each_instance_columns _ [] OfDimension _ s Hd)).
  rewrite (bind_step _ (for_each_instance_columns _ [] OfTimeDimension _ s Ht)).
  rewrite (bind_step _ (for_each_instance_columns _ [] OfEntity _ s He)).
  rewrite (bind_step _ (for_each_instance_columns _ [] OfGroupByMetric _ s Hg)).
  rewrite (bind_step _ (for_each_instance_columns _ [] OfMetadata _ s Hx)).
  reflexivity.
Qed.

(** C6. The aggregate-measures handler, run on a parent that returns a
    SELECT data set, returns; every measure instance of its output is
    COMPLETE and no measure is lost; its SELECT has one column per measure,
    the measure's column wrapped in the measure's aggregation function, and
    the GROUP BY list is the select list with exactly those measure columns
    taken out. *)
Theorem aggregate_measures_complete_and_grouped
    description parent_node metric_input_measure_specs s from_data_set s1 parent_select :
  parent_node s = Returned from_data_set s1 ->
  sql_node from_data_set = SqlSelectStatementNode parent_select ->
  exists out select before after,
    visit_aggregate_measures_node description parent_node metric_input_measure_specs s
    = Returned out (S s1)
    /\ sql_node out = SqlSelectStatementNode select
    /\ (forall m, In m (measure_instances (instance_set out)) ->
                  aggregation_state m = COMPLETE)
    /\ length (measure_instances (instance_set out))
       = length (measure_instances (instance_set from_data_set))
    /\ select_columns select
       = before
           ++ map (aggregated_measure_column (alias_of_index s1) metric_input_measure_specs)
                (measure_instances (instance_set from_data_set))
           ++ after
    /\ group_bys select = before ++ after.
Proof.
  intros Hparent Hselect.
  unfold visit_aggregate_measures_node.
  rewrite (bind_step _ Hparent).
  rewrite (bind_step _
    (ChangeMeasureAggregationState_returns _ (fun _ => COMPLETE) _ s1
       aggregate_state_changes_total)).
  rewrite next_alias_step.
  fold (aggregated_instance_set metric_input_measure_specs (instance_set from_data_set)).
  set (agg := aggregated_instance_set metric_input_measure_specs (instance_set from_data_set)).
  rewrite (bind_step _
    (CreateSelectColumnsWithMeasuresAggregated_returns (alias_of_index s1)
       metric_input_measure_specs (instance_set from_data_set) (S s1))).
  fold agg.
  unfold checked_sql_select_node. rewrite Hselect. rewrite ret_step. unfold ret.
  eexists. eexists.
  exists (map (instance_select_column (alias_of_index s1) [] OfTimeDimension)
            (time_dimension_instances agg)
          ++ map (instance_select_column (alias_of_index s1) [] OfEntity)
               (entity_instances agg)
          ++ map (instance_select_column (alias_of_index s1) [] OfDimension)
               (dimension_instances agg)
          ++ map (instance_select_column (alias_of_index s1) [] OfGroupByMetric)
               (group_by_metric_instances agg)
          ++ map (instance_select_column (alias_of_index s1) [] OfMetric)
               (metric_instances agg)).
  exists (map (instance_select_column (alias_of_index s1) [] OfMetadata)
            (metadata_instances agg)).
  split; [reflexivity |]. split; [reflexivity |].
  assert (Hstates : forall m, In m (measure_instances agg) -> aggregation_state m = COMPLETE).
  { intros m Hin. eapply aggregated_states. exact Hin. }
  assert (Hlen : length (measure_instances agg)
                 = length (measure_instances (instance_set from_data_set))).
  { subst agg. simpl. now rewrite !length_map. }
  split; [| split; [| split]].
  - simpl. destruct (any_alias metric_input_measure_specs); [| exact Hstates].
    simpl. rewrite map_map. intros m Hin.
    apply in_map_iff in Hin as (m0 & <- & Hin). simpl.
    specialize (Hstates m0 Hin).
    destruct (alias_of_measure metric_input_measure_specs (measure_spec m0)); exact Hstates.
  - simpl. destruct (any_alias metric_input_measure_specs); [| exact Hlen].
    simpl. now rewrite !length_map.
  - simpl. unfold as_tuple. simpl. now rewrite <- !app_assoc.
  - simpl. unfold as_tuple, without_measure_columns. simpl. now rewrite <- !app_assoc.
Qed.

(* ------------------------------------------------------------------ *)
(** *** Merging instance sets *)

Section MergeFacts.
Variables (I S : Type) (spec_of : I -> S).
Variable S_eq_dec : forall a b : S, {a = b} + {a <> b}.

Lemma has_spec_false x acc :
  has_spec spec_of S_eq_dec x acc = false <-> forall y, In y acc -> spec_of y <> x.
Proof.
  unfold has_spec. induction acc as [| a acc IH]; simpl.
  - split; [intros _ y [] | reflexivity].
  - destruct (S_eq_dec (spec_of a) x) as [E | N]; simpl.
    + split; [discriminate | intro H; exfalso; exact (H a (or_introl eq_refl) E)].
    + rewrite IH. split.
      * intros H y [<- | Hy]; auto.
      * intros H y Hy. apply H. now right.
Qed.

Lemma merge_instances_keeps acc xs x :
  In x acc -> In x (merge_instances spec_of S_eq_dec acc xs).
Proof.
  revert acc. induction xs as [| a xs IH]; intros acc Hin; simpl; [exact Hin |].
  destruct (has_spec spec_of S_eq_dec (spec_of a) acc); apply IH; [exact Hin |].
  apply in_or_app. now left.
Qed.

Lemma merge_instances_from acc xs x :
  In x (merge_instances spec_of S_eq_dec acc xs) -> In x acc \/ In x xs.
Proof.
  revert acc. induction xs as [| a xs IH]; intros acc Hin; simpl in *; [now left |].
  destruct (has_spec spec_of S_eq_dec (spec_of a) acc).
  - destruct (IH _ Hin); auto.
  - destruct (IH _ Hin) as [H | H]; auto.
    apply in_app_or in H as [H | [<- | []]]; auto.
Qed.

Definition unique_specs (l : list I) : Prop :=
  forall x y, In x l -> In y l -> spec_of x = spec_of y -> x = y.

(** Merging never yields two instances of one spec. *)
Lemma merge_instances_unique acc xs :
  unique_specs acc -> unique_specs (merge_instances spec_of S_eq_dec acc xs).
Proof.
  revert acc. induction xs as [| a xs IH]; intros acc Hu; simpl; [exact Hu |].
  destruct (has_spec spec_of S_eq_dec (spec_of a) acc) eqn:Hhas; apply IH; [exact Hu |].
  rewrite has_spec_false in Hhas.
  intros x y Hx Hy E.
  apply in_app_or in Hx as [Hx | [<- | []]]; apply in_app_or in Hy as [Hy | [<- | []]].
  - now apply Hu.
  - exfalso. exact (Hhas x Hx E).
  - exfalso. exact (Hhas y Hy (eq_sym E)).
  - reflexivity.
Qed.

End MergeFacts.

Arguments unique_specs {I S} spec_of l.

(** One step of [merge]: the accumulated set extended by one instance set. *)
Definition merge_step (acc s : InstanceSet) : InstanceSet :=
  mkInstanceSet
    (merge_instances measure_spec MeasureSpec_eq_dec
       (measure_instances acc) (measure_instances s))
    (merge_instances (@spec _ _) DimensionSpec_eq_dec
       (dimension_instances acc) (dimension_instances s))
    (merge_instances (@spec _ _) TimeDimensionSpec_eq_dec
       (time_dimension_instances acc) (time_dimension_instances s))
    (merge_instances (@spec _ _) EntitySpec_eq_dec
       (entity_instances acc) (entity_instances s))
    (merge_instances (@spec _ _) GroupByMetricSpec_eq_dec
       (group_by_metric_instances acc) (group_by_metric_instances s))
    (merge_instances (@spec _ _) MetricSpec_eq_dec
       (metric_instances acc) (metric_instances s))
    (merge_instances (@spec _ _) MetadataSpec_eq_dec
       (metadata_instances acc) (metadata_instances s)).

Lemma merge_fold sets : merge sets = fold_left merge_step sets empty_instance_set.
Proof. reflexivity. Qed.

Lemma fold_merge_keeps_measures sets acc m :
  In m (measure_instances acc) ->
  In m (measure_instances (fold_left merge_step sets acc)).
Proof.
  revert acc. induction sets as [| a sets IH]; intros acc Hin; simpl; [exact Hin |].
  apply IH. simpl. now apply merge_instances_keeps.
Qed.

Lemma fold_merge_unique_measures sets acc :
  unique_specs measure_spec (measure_instances acc) ->
  unique_specs measure_spec (measure_instances (fold_left merge_step sets acc)).
Proof.
  revert acc. induction sets as [| a sets IH]; intros acc Hu; simpl; [exact Hu |].
  apply IH. simpl. now apply merge_instances_unique.
Qed.

Lemma merge_unique_measures sets :
  unique_specs measure_spec (measure_instances (merge sets)).
Proof.
  rewrite merge_fold. apply fold_merge_unique_measures. intros x y [].
Qed.

(* ------------------------------------------------------------------ *)
(** *** Join on entities *)

Lemma dict_set_head {V} k (v v' : V) rest :
  dict_set k v ((k, v') :: rest) = (k, v) :: rest.
Proof. simpl. destruct (string_dec k k); congruence. Qed.

Lemma dict_set_keeps_head {V} k k' (v v' : V) rest :
  exists v'' rest', dict_set k' v ((k, v') :: rest) = (k, v'') :: rest'.
Proof. simpl. destruct (string_dec k k'); subst; eauto. Qed.

(** The entry of the FROM data set stays first in the alias-to-instance-set
    mapping throughout the loop over the join targets. *)
Lemma join_targets_loop_head from_data_set from_alias targets :
  forall table descs s table' descs' s' v rest,
    table = (from_alias, v) :: rest ->
    join_targets_loop from_data_set from_alias targets table descs s
    = Returned (table', descs') s' ->
    exists v' rest', table' = (from_alias, v') :: rest'.
Proof.
  induction targets as [| [right_node jd] targets IH];
    intros table descs s table' descs' s' v rest Htable H; simpl in H.
  - inversion H; subst. eauto.
  - bind_inv H. rewrite next_alias_step in H.
    subst table.
    match type of H with
    | join_targets_loop _ _ _ (dict_set ?k ?x _) _ _ = _ =>
        destruct (dict_set_keeps_head from_alias k x v rest) as (v2 & rest2 & E2)
    end.
    eapply IH; [exact E2 | exact H].
Qed.

Lemma filter_all {A} (f : A -> bool) (l : list A) :
  (forall x, In x l -> f x = true) -> filter f l = l.
Proof.
  induction l as [| a l IH]; intro H; simpl; [reflexivity |].
  rewrite (H a (or_introl eq_refl)), IH; [reflexivity |].
  intros x Hx. apply H. now right.
Qed.

Lemma mem_in {A} (A_eq_dec : forall a b : A, {a = b} + {a <> b}) x l :
  In x l -> mem A_eq_dec x l = true.
Proof. intro H. unfold mem. destruct (in_dec A_eq_dec x l); [reflexivity | contradiction]. Qed.

(** Filtering an instance set by its own spec set keeps every measure. *)
Lemma FilterElements_include_own_measures set :
  measure_instances (FilterElements_include (spec_set set) set) = measure_instances set.
Proof.
  simpl. apply filter_all. intros x Hx. apply mem_in. now apply in_map.
Qed.

(** The instance set recorded for the FROM data set after the loop. *)
Definition left_output_instance_set (set : InstanceSet) : InstanceSet :=
  let filtered := FilterElements_include (spec_set set) set in
  mkInstanceSet
    (map (fun m => with_state (state_after_join (aggregation_state m)) m)
       (measure_instances filtered))
    (dimension_instances filtered) (time_dimension_instances filtered)
    (entity_instances filtered) (group_by_metric_instances filtered)
    (metric_instances filtered) (metadata_instances filtered).

Lemma left_output_measures set :
  measure_instances (left_output_instance_set set)
  = map (fun m => with_state (state_after_join (aggregation_state m)) m)
      (measure_instances set).
Proof.
  unfold left_output_instance_set. cbv zeta. cbn [measure_instances].
  now rewrite FilterElements_include_own_measures.
Qed.

(** What [visit_join_on_entities_node] returns: the merge of the FROM data
    set's instance set, with its measure states changed, and of the
    instance sets recorded for the join targets. *)
Lemma visit_join_on_entities_node_returned description left_node join_targets s out s' :
  visit_join_on_entities_node description left_node join_targets s = Returned out s' ->
  exists from_data_set s1 others,
    left_node s = Returned from_data_set s1
    /\ instance_set out
       = merge (left_output_instance_set (instance_set from_data_set) :: others).
Proof.
  intro H. unfold visit_join_on_entities_node in H.
  bind_inv H. rename a into from_data_set. rewrite next_alias_step in H.
  bind_inv H. destruct a as [table descs].
  rewrite (bind_step _
    (ChangeMeasureAggregationState_returns _ state_after_join _ _ join_state_changes_total))
    in H.
  fold (left_output_instance_set (instance_set from_data_set)) in H.
  destruct (join_targets_loop_head _ _ _ _ _ _ _ _ _ _ _ eq_refl E0) as (v' & rest' & ->).
  rewrite dict_set_head in H.
  bind_inv H. bind_inv H. unfold ret in H. inversion H; subst; clear H.
  exists from_data_set, s0, (dict_values rest'). split; [exact E | reflexivity].
Qed.

Lemma find_app_first {A} (f : A -> bool) (l1 l2 : list A) :
  find f (l1 ++ l2) = match find f l1 with Some x => Some x | None => find f l2 end.
Proof.
  induction l1 as [| a l1 IH]; simpl; [reflexivity |]. destruct (f a); [reflexivity | exact IH].
Qed.

(** Merging keeps, of every spec, the first instance found. *)
Lemma merge_instances_first {I S} (spec_of : I -> S)
    (S_eq_dec : forall a b : S, {a = b} + {a <> b}) k acc xs x :
  find (fun y => if S_eq_dec (spec_of y) k then true else false) (acc ++ xs) = Some x ->
  In x (merge_instances spec_of S_eq_dec acc xs).
Proof.
  revert acc. induction xs as [| a xs IH]; intros acc H; simpl.
  - rewrite app_nil_r in H. now apply find_some in H.
  - destruct (has_spec spec_of S_eq_dec (spec_of a) acc) eqn:Hhas; apply IH.
    + rewrite find_app_first in H |- *.
      destruct (find _ acc) eqn:Hacc; [exact H |]. simpl in H.
      destruct (S_eq_dec (spec_of a) k) as [E | N]; [| exact H].
      exfalso. unfold has_spec in Hhas. apply existsb_exists in Hhas as (y & Hy & Hs).
      destruct (S_eq_dec (spec_of y) (spec_of a)) as [Ey |]; [| discriminate].
      apply (find_none _ _ Hacc) in Hy.
      destruct (S_eq_dec (spec_of y) k); [discriminate | congruence].
    + now rewrite <- app_assoc.
Qed.

Lemma find_left_output_measure k l :
  find (fun y => if MeasureSpec_eq_dec (measure_spec y) k then true else false)
    (map (fun m => with_state (state_after_join (aggregation_state m)) m) l)
  = option_map (fun m => with_state (state_after_join (aggregation_state m)) m)
      (find (fun y => if MeasureSpec_eq_dec (measure_spec y) k then true else false) l).
Proof.
  induction l as [| a l IH]; simpl; [reflexivity |].
  destruct (MeasureSpec_eq_dec (measure_spec a) k); [reflexivity | exact IH].
Qed.


(* ------------------------------------------------------------------ *)
(** *** Entity-link chains of the right-side instances *)

(** The entity-link chains of the linkable instances of an instance set. *)
Definition linkable_chains (s : InstanceSet) : list (list EntityReference) :=
  map (fun i => dimension_entity_links (spec i)) (dimension_instances s)
  ++ map (fun i => td_entity_links (spec i)) (time_dimension_instances s)
  ++ map (fun i => entity_entity_links (spec i)) (entity_instances s)
  ++ map (fun i => gbm_entity_links (spec i)) (group_by_metric_instances s).

(** The chain has the entity twice in a row somewhere. *)
Definition repeats_consecutively (e : EntityReference) (links : list EntityReference)
  : Prop :=
  exists before after, links = before ++ e :: e :: after.

Lemma linked_chain_in {I} (links : I -> list EntityReference) (relink : I -> I)
    e l chain :
  (forall x, links (relink x) = e :: links x) ->
  In chain (map links (map relink (filter (fun x => negb (has_leading_link e (links x))) l))) ->
  exists rest, chain = e :: rest /\ In rest (map links l) /\ has_leading_link e rest = false.
Proof.
  intros Hrelink Hin. rewrite map_map in Hin.
  apply in_map_iff in Hin as (x & <- & Hx). apply filter_In in Hx as (Hx & Hlead).
  exists (links x). rewrite Hrelink. repeat split.
  - now apply in_map.
  - now apply negb_true_iff in Hlead.
Qed.

(** The chains of a right data set after a join on entity [e]: each is [e]
    followed by a chain of the right data set that did not lead with [e]. *)
Lemma chains_after_join e right_set chain :
  In chain (linkable_chains (right_data_set_instance_set_after_join (Some e) right_set)) ->
  exists rest,
    chain = e :: rest /\ In rest (linkable_chains right_set)
    /\ has_leading_link e rest = false.
Proof.
  unfold linkable_chains, right_data_set_instance_set_after_join,
    AddLinkToLinkableElements, FilterLinkableInstancesWithLeadingLink.
  cbn [dimension_instances time_dimension_instances entity_instances
       group_by_metric_instances].
  intro H.
  repeat (apply in_app_or in H as [H | H]).
  - apply (linked_chain_in (fun i : DimensionInstance => dimension_entity_links (spec i)))
      in H as (rest & ? & ? & ?); [| reflexivity].
    exists rest. repeat split; auto. apply in_or_app. now left.
  - apply (linked_chain_in (fun i : TimeDimensionInstance => td_entity_links (spec i)))
      in H as (rest & ? & ? & ?); [| reflexivity].
    exists rest. repeat split; auto. apply in_or_app; right. apply in_or_app. now left.
  - apply (linked_chain_in (fun i : EntityInstance => entity_entity_links (spec i)))
      in H as (rest & ? & ? & ?); [| reflexivity].
    exists rest. repeat split; auto.
    apply in_or_app; right. apply in_or_app; right. apply in_or_app. now left.
  - apply (linked_chain_in (fun i : GroupByMetricInstance => gbm_entity_links (spec i)))
      in H as (rest & ? & ? & ?); [| reflexivity].
    exists rest. repeat split; auto.
    apply in_or_app; right. apply in_or_app; right. apply in_or_app. now right.
Qed.

Lemma repetition_comes_from_rest e rest :
  has_leading_link e rest = false ->
  repeats_consecutively e (e :: rest) -> repeats_consecutively e rest.
Proof.
  intros Hlead (before & after & E). destruct before as [| x before]; simpl in E.
  - inversion E as [E']. subst rest. simpl in Hlead.
    destruct (string_dec e e); [discriminate | congruence].
  - inversion E; subst. now exists before, after.
Qed.

(** Where a merged instance comes from, for any one category [p]. *)
Lemma fold_merge_from {I S} (p : InstanceSet -> list I) (spec_of : I -> S)
    (S_eq_dec : forall a b : S, {a = b} + {a <> b}) :
  (forall acc s, p (merge_step acc s) = merge_instances spec_of S_eq_dec (p acc) (p s)) ->
  forall sets acc x,
    In x (p (fold_left merge_step sets acc)) ->
    In x (p acc) \/ exists s, In s sets /\ In x (p s).
Proof.
  intros Hstep sets. induction sets as [| a sets IH]; intros acc x Hin; simpl in *; [now left |].
  apply IH in Hin as [Hin | (s0 & Hs0 & Hin)].
  - rewrite Hstep in Hin. apply merge_instances_from in Hin as [Hin | Hin]; [now left |].
    right. exists a. auto.
  - right. exists s0. auto.
Qed.

Lemma merge_chain_from sets chain :
  In chain (linkable_chains (merge sets)) ->
  exists s, In s sets /\ In chain (linkable_chains s).
Proof.
  rewrite merge_fold. unfold linkable_chains at 1. intro H.
  repeat (apply in_app_or in H as [H | H]);
    apply in_map_iff in H as (i & <- & Hi).
  - destruct (fold_merge_from dimension_instances (@spec _ _) DimensionSpec_eq_dec (fun _ _ => eq_refl) _ _ _ Hi)
      as [[] | (s0 & Hs0 & Hi')]; clear Hi; rename Hi' into Hi.
    exists s0. split; [exact Hs0 |]. unfold linkable_chains.
    apply in_or_app; left.
    now apply (in_map (fun i : DimensionInstance => dimension_entity_links (spec i))).
  - destruct (fold_merge_from time_dimension_instances (@spec _ _) TimeDimensionSpec_eq_dec (fun _ _ => eq_refl) _ _ _ Hi)
      as [[] | (s0 & Hs0 & Hi')]; clear Hi; rename Hi' into Hi.
    exists s0. split; [exact Hs0 |]. unfold linkable_chains.
    apply in_or_app; right. apply in_or_app; left.
    now apply (in_map (fun i : TimeDimensionInstance => td_entity_links (spec i))).
  - destruct (fold_merge_from entity_instances (@spec _ _) EntitySpec_eq_dec (fun _ _ => eq_refl) _ _ _ Hi)
      as [[] | (s0 & Hs0 & Hi')]; clear Hi; rename Hi' into Hi.
    exists s0. split; [exact Hs0 |]. unfold linkable_chains.
    apply in_or_app; right. apply in_or_app; right. apply in_or_app; left.
    now apply (in_map (fun i : EntityInstance => entity_entity_links (spec i))).
  - destruct (fold_merge_from group_by_metric_instances (@spec _ _) GroupByMetricSpec_eq_dec (fun _ _ => eq_refl) _ _ _ Hi)
      as [[] | (s0 & Hs0 & Hi')]; clear Hi; rename Hi' into Hi.
    exists s0. split; [exact Hs0 |]. unfold linkable_chains.
    apply in_or_app; right. apply in_or_app; right. apply in_or_app; right.
    now apply (in_map (fun i : GroupByMetricInstance => gbm_entity_links (spec i))).
Qed.

Lemma in_map_filter {A B} (f : A -> B) (g : A -> bool) l y :
  In y (map f (filter g l)) -> In y (map f l).
Proof.
  intro H. apply in_map_iff in H as (x & <- & Hx).
  apply filter_In in Hx as (Hx & _). now apply in_map.
Qed.

Lemma left_output_chain set chain :
  In chain (linkable_chains (left_output_instance_set set)) ->
  In chain (linkable_chains set).
Proof.
  unfold linkable_chains, left_output_instance_set, FilterElements_include.
  cbn [dimension_instances time_dimension_instances entity_instances
       group_by_metric_instances].
  intro H.
  repeat (apply in_app_or in H as [H | H]); apply in_map_filter in H.
  - apply in_or_app; now left.
  - apply in_or_app; right. apply in_or_app; now left.
  - apply in_or_app; right. apply in_or_app; right. apply in_or_app; now left.
  - apply in_or_app; right. apply in_or_app; right. apply in_or_app; now right.
Qed.

(** The instance set recorded for a join target: the target's data set
    after the join on the target's entity. *)
Definition is_right_contribution
    (join_targets : list (Conv SqlDataSet * JoinDescription)) (v : InstanceSet) : Prop :=
  exists right_node jd right_data_set sr sr',
    In (right_node, jd) join_targets
    /\ right_node sr = Returned right_data_set sr'
    /\ v = right_data_set_instance_set_after_join (join_on_entity jd)
             (instance_set right_data_set).

Lemma dict_set_values_Forall {V} (P : V -> Prop) k v (d : list (string * V)) :
  P v -> Forall P (dict_values d) -> Forall P (dict_values (dict_set k v d)).
Proof.
  intros Hv. induction d as [| [k' v'] d IH]; intro H; simpl.
  - constructor; [exact Hv | constructor].
  - inversion H; subst. destruct (string_dec k' k); simpl.
    + constructor; assumption.
    + constructor; [assumption |]. now apply IH.
Qed.

(** Besides the FROM entry, the mapping holds only instance sets recorded
    for join targets. *)
Lemma join_targets_loop_values all from_data_set from_alias targets :
  incl targets all ->
  forall table descs s table' descs' s',
    Forall (is_right_contribution all) (dict_values (tl table)) ->
    join_targets_loop from_data_set from_alias targets table descs s
    = Returned (table', descs') s' ->
    table <> [] ->
    Forall (is_right_contribution all) (dict_values (tl table')).
Proof.
  induction targets as [| [right_node jd] targets IH];
    intros Hincl table descs s table' descs' s' Hall H Hne; simpl in H.
  - inversion H; subst. exact Hall.
  - bind_inv H. rename a into right_data_set. rewrite next_alias_step in H.
    eapply IH in H; [exact H | | |].
    + intros x Hx. apply Hincl. now right.
    + destruct table as [| [k0 v0] rest]; [congruence |]. simpl.
      destruct (string_dec k0 (alias_of_index s0)); simpl; [exact Hall |].
      apply dict_set_values_Forall; [| exact Hall].
      exists right_node, jd, right_data_set, s, s0. repeat split; auto.
      apply Hincl. now left.
    + destruct table as [| [k0 v0] rest]; [congruence |]. simpl.
      destruct (string_dec k0 (alias_of_index s0)); discriminate.
Qed.

Lemma visit_join_on_entities_node_contributions
    description left_node join_targets s out s' :
  visit_join_on_entities_node description left_node join_targets s = Returned out s' ->
  exists from_data_set s1 others,
    left_node s = Returned from_data_set s1
    /\ Forall (is_right_contribution join_targets) others
    /\ instance_set out
       = merge (left_output_instance_set (instance_set from_data_set) :: others).
Proof.
  intro H. unfold visit_join_on_entities_node in H.
  bind_inv H. rename a into from_data_set. rewrite next_alias_step in H.
  bind_inv H. destruct a as [table descs].
  rewrite (bind_step _
    (ChangeMeasureAggregationState_returns _ state_after_join _ _ join_state_changes_total))
    in H.
  fold (left_output_instance_set (instance_set from_data_set)) in H.
  assert (Hvalues : Forall (is_right_contribution join_targets) (dict_values (tl table))).
  { eapply join_targets_loop_values; [apply incl_refl | | exact E0 | discriminate].
    simpl. constructor. }
  destruct (join_targets_loop_head _ _ _ _ _ _ _ _ _ _ _ eq_refl E0) as (v' & rest' & ->).
  rewrite dict_set_head in H.
  bind_inv H. bind_inv H. unfold ret in H. inversion H; subst; clear H.
  exists from_data_set, s0, (dict_values rest').
  split; [exact E | split; [exact Hvalues | reflexivity]].
Qed.

(** C3, as the code has it.  Every entity-link chain of a linkable instance
    of the output comes from the FROM data set or from a join target.  A
    chain from a target joined on entity [e] is [e] followed by a chain of
    the target's data set that did not lead with [e]: instances leading with
    [e] are removed before [e] is prepended, so the chain begins with [e] and
    its second link is not [e]; it has [e] twice in a row only where the
    target's own chain already had. *)
Theorem join_on_entities_right_side_chains
    description left_node join_targets s out s' :
  visit_join_on_entities_node description left_node join_targets s = Returned out s' ->
  forall chain,
    In chain (linkable_chains (instance_set out)) ->
    (exists from_data_set s1,
        left_node s = Returned from_data_set s1
        /\ In chain (linkable_chains (instance_set from_data_set)))
    \/ (exists right_node jd right_data_set sr sr',
          In (right_node, jd) join_targets
          /\ right_node sr = Returned right_data_set sr'
          /\ match join_on_entity jd with
             | Some e =>
                 exists rest,
                   chain = e :: rest
                   /\ In rest (linkable_chains (instance_set right_data_set))
                   /\ has_leading_link e rest = false
                   /\ (repeats_consecutively e chain -> repeats_consecutively e rest)
             | None => In chain (linkable_chains (instance_set right_data_set))
             end).
Proof.
  intros Hrun chain Hchain.
  apply visit_join_on_entities_node_contributions in Hrun
    as (from_data_set & s1 & others & Hleft & Hothers & Hout).
  rewrite Hout in Hchain. apply merge_chain_from in Hchain as (set & [<- | Hset] & Hchain).
  - left. exists from_data_set, s1. split; [exact Hleft |]. now apply left_output_chain.
  - right. rewrite Forall_forall in Hothers.
    destruct (Hothers set Hset) as (right_node & jd & right_data_set & sr & sr' & Hin & Hr & ->).
    exists right_node, jd, right_data_set, sr, sr'. repeat split; [exact Hin | exact Hr |].
    destruct (join_on_entity jd) as [e |]; [| exact Hchain].
    apply chains_after_join in Hchain as (rest & -> & Hrest & Hlead).
    exists rest. repeat split; auto.
    now apply repetition_comes_from_rest.
Qed.

(* ------------------------------------------------------------------ *)
Lemma visit_constrain_time_range_node_returned description parent_node constraint s out s' :
  visit_constrain_time_range_node description parent_node constraint s = Returned out s' ->
  exists from_data_set s1,
    parent_node s = Returned from_data_set s1
    /\ instance_set out = ChangeAssociatedColumns (instance_set from_data_set).
Proof.
  intro H. unfold visit_constrain_time_range_node in H.
  bind_inv H. rename a into from_data_set. rewrite next_alias_step in H.
  destruct (sorted_by_key granularity_key (metric_time_dimension_instances from_data_set));
    [discriminate |].
  bind_inv H. bind_inv H. bind_inv H. unfold ret in H. inversion H; subst; clear H.
  exists from_data_set, s0. split; [exact E | reflexivity].
Qed.

Lemma output_measure_instances_of_incl reference measures s kept s' :
  output_measure_instances_of reference measures s = Returned kept s' ->
  incl kept measures.
Proof.
  revert s kept s'. induction measures as [| m measures IH]; intros s kept s' H; simpl in H.
  - inversion H. intros x [].
  - destruct (get_by_reference _); [| discriminate].
    bind_inv H. apply IH in E. unfold ret in H. inversion H; subst; clear H.
    destruct (string_dec _ _).
    + intros x [<- | Hx]; [now left | right; now apply E].
    + intros x Hx. right. now apply E.
Qed.

Lemma visit_metric_time_dimension_transform_node_measures
    description parent_node reference s out s' :
  visit_metric_time_dimension_transform_node description parent_node reference s
  = Returned out s' ->
  exists input_data_set s1 kept,
    parent_node s = Returned input_data_set s1
    /\ incl kept (measure_instances (instance_set input_data_set))
    /\ measure_instances (instance_set out) = map measure_with_resolved_columns kept.
Proof.
  intro H. unfold visit_metric_time_dimension_transform_node in H.
  bind_inv H. rename a into input_data_set.
  bind_inv H. rename a into kept. apply output_measure_instances_of_incl in E0.
  bind_inv H. destruct a as [tds mapping]. rewrite next_alias_step in H.
  bind_inv H. bind_inv H. unfold ret in H. inversion H; subst; clear H.
  exists input_data_set, s0, kept. repeat split; auto.
Qed.

Lemma visit_compute_metrics_node_measures description parent_node specs for_group_by s out s' :
  visit_compute_metrics_node description parent_node specs for_group_by s = Returned out s' ->
  measure_instances (instance_set out) = [].
Proof.
  intro H. unfold visit_compute_metrics_node in H.
  bind_inv H. rewrite next_alias_step in H.
  bind_inv H. bind_inv H. bind_inv H. bind_inv H.
  unfold ret in H. inversion H; subst; clear H. simpl.
  destruct (last_group_by_metric_instance _); reflexivity.
Qed.

Lemma visit_join_to_time_spine_node_measures node parent_node s out s' :
  visit_join_to_time_spine_node node parent_node s = Returned out s' ->
  exists parent_data_set s1,
    parent_node s = Returned parent_data_set s1
    /\ incl (measure_instances (instance_set out))
         (measure_instances (instance_set parent_data_set)).
Proof.
  intro H. unfold visit_join_to_time_spine_node in H.
  bind_inv H. rename a into parent_data_set. rewrite next_alias_step in H.
  bind_inv H. destruct a as [agg_name agg_links].
  destruct (agg_time_dimension_instances_for_join _ _ _); [discriminate |].
  rewrite next_alias_step in H.
  bind_inv H. bind_inv H. bind_inv H. bind_inv H. bind_inv H.
  destruct (time_dimension_instances (instance_set a)); [discriminate |].
  bind_inv H. destruct a4 as [[cols insts] where_filter].
  unfold ret in H. inversion H; subst; clear H.
  exists parent_data_set, s0. split; [exact E |].
  intros m Hin. rewrite merge_fold in Hin. simpl in Hin.
  apply merge_instances_from in Hin as [[] | Hin]. exact Hin.
Qed.

Lemma assert_that_returned cond message s u s' :
  assert_that cond message s = Returned u s' -> cond = true /\ s' = s.
Proof.
  unfold assert_that. destruct cond; [| discriminate].
  unfold ret. intro H. inversion H. auto.
Qed.

Lemma visit_join_over_time_range_node_returned node parent_node s out s' :
  visit_join_over_time_range_node node parent_node s = Returned out s' ->
  exists input_data_set s1,
    parent_node s = Returned input_data_set s1
    /\ instance_set out = ChangeAssociatedColumns (instance_set input_data_set).
Proof.
  intro H. unfold visit_join_over_time_range_node in H.
  bind_inv_as H input_data_set s1 Hp. rewrite next_alias_step in H.
  destruct (find _ _); [| discriminate].
  rewrite next_alias_step in H.
  bind_inv H. bind_inv H. bind_inv H. bind_inv H. bind_inv H.
  unfold ret in H. inversion H; subst; clear H.
  exists input_data_set, s1. split; [exact Hp | reflexivity].
Qed.

Lemma visit_order_by_limit_node_returned description parent_node order_by_specs limit
    s out s' :
  visit_order_by_limit_node description parent_node order_by_specs limit s = Returned out s' ->
  exists from_data_set s1,
    parent_node s = Returned from_data_set s1
    /\ instance_set out = ChangeAssociatedColumns (instance_set from_data_set).
Proof.
  intro H. unfold visit_order_by_limit_node in H.
  bind_inv_as H from_data_set s1 Hp. rewrite next_alias_step in H.
  bind_inv H. bind_inv H. unfold ret in H. inversion H; subst; clear H.
  exists from_data_set, s1. split; [exact Hp | reflexivity].
Qed.

Lemma visit_filter_elements_node_returned description parent_node include_specs distinct
    s out s' :
  visit_filter_elements_node description parent_node include_specs distinct s
  = Returned out s' ->
  exists from_data_set s1,
    parent_node s = Returned from_data_set s1
    /\ instance_set out
       = ChangeAssociatedColumns
           (FilterElements_include include_specs (instance_set from_data_set)).
Proof.
  intro H. unfold visit_filter_elements_node in H.
  bind_inv_as H from_data_set s1 Hp. rewrite next_alias_step in H.
  bind_inv H. bind_inv H. unfold ret in H. inversion H; subst; clear H.
  exists from_data_set, s1. split; [exact Hp | reflexivity].
Qed.

Lemma visit_where_constraint_node_returned description parent_node node_where s out s' :
  visit_where_constraint_node description parent_node node_where s = Returned out s' ->
  exists parent_data_set s1,
    parent_node s = Returned parent_data_set s1
    /\ instance_set out = ChangeAssociatedColumns (instance_set parent_data_set).
Proof.
  intro H. unfold visit_where_constraint_node in H.
  bind_inv_as H parent_data_set s1 Hp. rewrite next_alias_step in H.
  bind_inv H. bind_inv H. unfold ret in H. inversion H; subst; clear H.
  exists parent_data_set, s1. split; [exact Hp | reflexivity].
Qed.

Lemma visit_semi_additive_join_node_returned node parent_node s out s' :
  visit_semi_additive_join_node node parent_node s = Returned out s' ->
  exists from_data_set s1,
    parent_node s = Returned from_data_set s1
    /\ instance_set out = ChangeAssociatedColumns (instance_set from_data_set).
Proof.
  intro H. unfold visit_semi_additive_join_node in H.
  bind_inv_as H from_data_set s1 Hp. rewrite !next_alias_step in H.
  bind_inv H. rewrite next_alias_step in H.
  bind_inv H. unfold ret in H. inversion H; subst; clear H.
  exists from_data_set, s1. split; [exact Hp | reflexivity].
Qed.

Lemma visit_min_max_node_measures description parent_node s out s' :
  visit_min_max_node description parent_node s = Returned out s' ->
  exists parent_data_set s1,
    parent_node s = Returned parent_data_set s1
    /\ measure_instances (instance_set out) = [].
Proof.
  intro H. unfold visit_min_max_node in H.
  bind_inv_as H parent_data_set s1 Hp. rewrite next_alias_step in H.
  bind_inv H. destruct (select_columns a) as [| c [| c' l]]; try discriminate.
  unfold ret in H. inversion H; subst; clear H.
  exists parent_data_set, s1. split; [exact Hp | reflexivity].
Qed.

Lemma visit_add_generated_uuid_column_node_measures parent_node s out s' :
  visit_add_generated_uuid_column_node parent_node s = Returned out s' ->
  exists input_data_set s1,
    parent_node s = Returned input_data_set s1
    /\ measure_instances (instance_set out)
       = measure_instances (instance_set input_data_set).
Proof.
  intro H. unfold visit_add_generated_uuid_column_node in H.
  bind_inv_as H input_data_set s1 Hp. rewrite next_alias_step in H.
  bind_inv H. bind_inv H. unfold ret in H. inversion H; subst; clear H.
  exists input_data_set, s1. split; [exact Hp | reflexivity].
Qed.

(** The join-conversion-events node returns the conversion measure of the
    conversion data set merged with the instances of the base data set. *)
Lemma visit_join_conversion_events_node_returned node base_node conversion_node s out s' :
  visit_join_conversion_events_node node base_node conversion_node s = Returned out s' ->
  exists base_data_set s1 conversion_data_set,
    base_node s = Returned base_data_set s1
    /\ instance_set out
       = ChangeAssociatedColumns
           (merge [FilterElements_include
                     (mkInstanceSpecSet [conversion_measure_spec node] [] [] [] [] [] [])
                     (instance_set conversion_data_set);
                   instance_set base_data_set]).
Proof.
  intro H. unfold visit_join_conversion_events_node in H.
  bind_inv_as H base_data_set s1 Hp. rewrite next_alias_step in H.
  bind_inv_as H conversion_data_set s2 Hc. rewrite next_alias_step in H.
  bind_inv H. bind_inv H. rewrite next_alias_step in H.
  bind_inv H. unfold ret in H. inversion H; subst; clear H.
  exists base_data_set, s1, conversion_data_set. split; [exact Hp | reflexivity].
Qed.

(** The parent a handler converts first: the only parent, the left node of
    a join on entities, the first parent of a combine node, the base node
    of a join of conversion events. *)
Definition primary_parent (node : DataflowPlanNode) : option DataflowPlanNode :=
  match node with
  | ReadSqlSourceNode _ => None
  | JoinOnEntitiesNode _ left_node _ => Some left_node
  | AggregateMeasuresNode _ parent_node _ => Some parent_node
  | ComputeMetricsNode _ parent_node _ _ => Some parent_node
  | ConstrainTimeRangeNode _ parent_node _ => Some parent_node
  | MetricTimeDimensionTransformNode _ parent_node _ => Some parent_node
  | JoinToTimeSpineNode _ parent_node => Some parent_node
  | WriteToResultDataTableNode parent_node => Some parent_node
  | WriteToResultTableNode parent_node _ => Some parent_node
  | JoinOverTimeRangeNode _ parent_node => Some parent_node
  | OrderByLimitNode _ parent_node _ _ => Some parent_node
  | FilterElementsNode _ parent_node _ _ => Some parent_node
  | WhereConstraintNode _ parent_node _ => Some parent_node
  | CombineAggregatedOutputsNode _ parent_nodes => hd_error parent_nodes
  | SemiAdditiveJoinNode _ parent_node => Some parent_node
  | MinMaxNode _ parent_node => Some parent_node
  | AddGeneratedUuidColumnNode parent_node => Some parent_node
  | JoinConversionEventsNode _ base_node _ => Some base_node
  end.

(* ------------------------------------------------------------------ *)
(** *** Metric-time dimension transform *)

Lemma dict_get_set_same {V} k (v : V) d : dict_get k (dict_set k v d) = Some v.
Proof.
  induction d as [| [k' v'] d IH]; simpl.
  - destruct (string_dec k k); congruence.
  - destruct (string_dec k' k) as [-> | N]; simpl.
    + destruct (string_dec k k); congruence.
    + destruct (string_dec k' k); [contradiction | exact IH].
Qed.

Lemma dict_get_set_other {V} k k' (v : V) d :
  k <> k' -> dict_get k' (dict_set k v d) = dict_get k' d.
Proof.
  intro N. induction d as [| [k0 v0] d IH]; simpl.
  - destruct (string_dec k k'); [contradiction | reflexivity].
  - destruct (string_dec k0 k) as [-> | N0]; simpl.
    + destruct (string_dec k k'); [contradiction | reflexivity].
    + destruct (string_dec k0 k'); [reflexivity | exact IH].
Qed.

(** The output column name of the metric-time analog of an instance. *)
Definition metric_time_column_name (t : TimeDimensionInstance) : string :=
  resolved_name (OfTimeDimension (spec (metric_time_analog t))).

Lemma output_measure_instances_of_state reference measures s kept s' :
  output_measure_instances_of reference measures s = Returned kept s' -> s' = s.
Proof.
  revert s kept s'. induction measures as [| m measures IH]; intros s kept s' H; simpl in H.
  - now inversion H.
  - destruct (get_by_reference _); [| discriminate].
    bind_inv H. apply IH in E. unfold ret in H. inversion H; subst. reflexivity.
Qed.

(** The third loop appends one analog per matching instance, in order, and
    maps the analog's column name to the column of a matching instance whose
    analog has that name (the last one written). *)
Lemma metric_time_loop_returned matching :
  forall tds0 mapping0 s tds mapping s',
    metric_time_loop matching tds0 mapping0 s = Returned (tds, mapping) s' ->
    s' = s
    /\ tds = tds0 ++ map metric_time_analog matching
    /\ (forall t, In t matching ->
          exists t' c,
            In t' matching /\ associated_columns t' = [c]
            /\ metric_time_column_name t' = metric_time_column_name t
            /\ dict_get (metric_time_column_name t) mapping = Some (column_name c))
    /\ (forall key, (forall t, In t matching -> metric_time_column_name t <> key) ->
          dict_get key mapping = dict_get key mapping0).
Proof.
  induction matching as [| a rest IH]; intros tds0 mapping0 s tds mapping s' H; simpl in H.
  - inversion H; subst. rewrite app_nil_r. repeat split; auto. intros t [].
  - bind_inv H. rename a0 into c.
    assert (Hc : associated_columns a = [c] /\ s0 = s).
    { unfold associated_column in E. destruct (associated_columns a) as [| c0 [| ? ?]];
        try discriminate. unfold ret in E. inversion E; subst. auto. }
    destruct Hc as (Hc & ->).
    apply IH in H as (-> & -> & Hmapped & Hother).
    split; [reflexivity |]. split; [simpl; now rewrite <- app_assoc |]. split.
    + intros t [<- | Ht].
      * destruct (in_dec string_dec (metric_time_column_name a)
                    (map metric_time_column_name rest)) as [Hin | Hnotin].
        -- apply in_map_iff in Hin as (t2 & Hname & Ht2).
           destruct (Hmapped t2 Ht2) as (t' & c' & Ht' & Hc' & Hname' & Hget).
           exists t', c'. repeat split; auto; [now right | congruence | congruence].
        -- exists a, c. repeat split; auto; [now left |].
           rewrite Hother.
           ++ apply dict_get_set_same.
           ++ intros t Ht E'. apply Hnotin. rewrite <- E'. now apply in_map.
      * destruct (Hmapped t Ht) as (t' & c' & Ht' & Hc' & Hname' & Hget).
        exists t', c'. repeat split; auto. now right.
    + intros key Hkey. rewrite Hother.
      * apply dict_get_set_other. apply Hkey. now left.
      * intros t Ht. apply Hkey. now right.
Qed.

Lemma is_matching_time_dimension_spec reference t :
  is_matching_time_dimension reference t = true
  <-> td_entity_links (spec t) = [] /\ td_reference (spec t) = reference.
Proof.
  unfold is_matching_time_dimension. rewrite andb_true_iff, Nat.eqb_eq, length_zero_iff_nil.
  destruct (string_dec (td_reference (spec t)) reference); split; intros []; auto; discriminate.
Qed.

(** C4, as the code has it.  The output's time-dimension instances are the
    parent's, followed by one metric-time analog for each parent instance
    that has no entity links and refers to the node's aggregation time
    dimension, whatever its granularity and date part; the analog has the
    reserved [metric_time] name, the instance's granularity and date part,
    and its select column reads the column of a matching parent instance
    whose analog has the same column name.  No analog is made for any other
    parent instance. *)
Theorem metric_time_transform_mirrors
    description parent_node reference s input_data_set s1 out s' :
  parent_node s = Returned input_data_set s1 ->
  visit_metric_time_dimension_transform_node description parent_node reference s
  = Returned out s' ->
  let parent_instances := time_dimension_instances (instance_set input_data_set) in
  let matching := filter (is_matching_time_dimension reference) parent_instances in
  time_dimension_instances (instance_set out)
  = map (with_resolved_columns OfTimeDimension) parent_instances
      ++ map metric_time_analog matching
  /\ (forall t, In t matching <->
                In t parent_instances
                /\ td_entity_links (spec t) = [] /\ td_reference (spec t) = reference)
  /\ (forall t,
        spec (metric_time_analog t)
        = mkTimeDimensionSpec METRIC_TIME_ELEMENT_NAME [] (time_granularity (spec t))
            (date_part (spec t)) None
        /\ defined_from (metric_time_analog t) = defined_from t)
  /\ exists select,
       sql_node out = SqlSelectStatementNode select
       /\ forall t, In t matching ->
            exists t' c,
              In t' matching /\ associated_columns t' = [c]
              /\ metric_time_column_name t' = metric_time_column_name t
              /\ In (mkSqlSelectColumn
                       (column_reference (alias_of_index s1) (column_name c))
                       (metric_time_column_name t))
                    (select_columns select).
Proof.
  intros Hparent Hrun parent_instances matching.
  unfold visit_metric_time_dimension_transform_node in Hrun.
  rewrite (bind_step _ Hparent) in Hrun.
  bind_inv Hrun. rename a into kept.
  apply output_measure_instances_of_state in E as ->.
  bind_inv Hrun. destruct a as [tds mapping].
  apply metric_time_loop_returned in E as (-> & -> & Hmapped & _).
  fold parent_instances in Hrun. fold matching in Hrun, Hmapped.
  rewrite next_alias_step in Hrun.
  rewrite (bind_step _
    (CreateSelectColumnsForInstances_returns _ _ _ _ (ChangeAssociatedColumns_single_columns _)))
    in Hrun.
  bind_inv Hrun. unfold ret in Hrun. inversion Hrun; subst; clear Hrun.
  cbn [instance_set sql_node ChangeAssociatedColumns time_dimension_instances].
  split; [| split; [| split]].
  - rewrite map_app, map_map. reflexivity.
  - intro t. unfold matching. rewrite filter_In, is_matching_time_dimension_spec.
    split; [intros (? & ? & ?) | intros (? & ? & ?)]; repeat split; assumption.
  - intro t. split; reflexivity.
  - eexists. split; [reflexivity |].
    intros t Ht. destruct (Hmapped t Ht) as (t' & c & Ht' & Hc & Hname & Hget).
    exists t', c. repeat split; auto.
    unfold select_columns, select_statement, as_tuple.
    cbn [time_dimension_columns]. apply in_or_app. left.
    rewrite !map_app. apply in_or_app. right. rewrite !map_map.
    apply in_map_iff. exists t. split; [| exact Ht].
    unfold instance_select_column, select_column_of.
    change (resolved_name (OfTimeDimension
              (spec (with_resolved_columns OfTimeDimension (metric_time_analog t)))))
      with (metric_time_column_name t).
    rewrite Hget. reflexivity.
Qed.

(* ------------------------------------------------------------------ *)
(** *** Constrain time range *)

Lemma insert_by_key_head {A} (key : A -> Z) x l :
  exists rest,
    insert_by_key key x l
    = match l with
      | [] => x
      | y :: _ => if (key x <=? key y)%Z then x else y
      end :: rest.
Proof.
  destruct l as [| y l]; simpl; [eauto |].
  destruct (key x <=? key y)%Z; eauto.
Qed.

(** The first element of the sorted list is an element of the list with
    the smallest key. *)
Lemma sorted_by_key_head {A} (key : A -> Z) l t rest :
  sorted_by_key key l = t :: rest ->
  In t l /\ forall x, In x l -> (key t <= key x)%Z.
Proof.
  revert t rest. induction l as [| a l IH]; intros t rest H; simpl in H; [discriminate |].
  destruct (insert_by_key_head key a (sorted_by_key key l)) as (rest' & E).
  rewrite E in H. destruct (sorted_by_key key l) as [| y ys] eqn:Hs.
  - inversion H; subst. destruct l as [| b l].
    + split; [now left |]. intros x [<- | []]. lia.
    + simpl in Hs. destruct (insert_by_key_head key b (sorted_by_key key l)) as (r & E').
      rewrite E' in Hs. discriminate.
  - destruct (IH y ys eq_refl) as (Hy & Hmin).
    destruct (Z.leb_spec (key a) (key y)); inversion H; subst.
    + split; [now left |]. intros x [<- | Hx]; [lia |]. specialize (Hmin x Hx). lia.
    + split; [now right |]. intros x [<- | Hx]; [lia | now apply Hmin].
Qed.

Lemma sorted_by_key_nil {A} (key : A -> Z) l : sorted_by_key key l = [] -> l = [].
Proof.
  destruct l as [| a l]; [reflexivity |]. simpl.
  destruct (insert_by_key_head key a (sorted_by_key key l)) as (rest & ->). discriminate.
Qed.

(** C7. With no metric-time instance in the parent the handler raises the
    assertion error.  Otherwise it picks a metric-time instance of the
    smallest granularity and, the parent being a SELECT and the instance
    having its one column, returns a SELECT whose WHERE clause is
    [column BETWEEN start AND end] on that column of the parent alias: a
    plain column reference, with no DATE_TRUNC around it. *)
Theorem constrain_time_range_where
    description parent_node time_range_constraint s from_data_set s1 :
  parent_node s = Returned from_data_set s1 ->
  (metric_time_dimension_instances from_data_set = [] ->
   visit_constrain_time_range_node description parent_node time_range_constraint s
   = Raised (AssertionError
               "No metric time dimensions found in the input data set for this node"))
  /\ (metric_time_dimension_instances from_data_set <> [] ->
      exists t,
        In t (metric_time_dimension_instances from_data_set)
        /\ (forall t', In t' (metric_time_dimension_instances from_data_set) ->
                       (to_int (time_granularity (spec t))
                        <= to_int (time_granularity (spec t')))%Z)
        /\ forall c parent_select,
             associated_columns t = [c] ->
             sql_node from_data_set = SqlSelectStatementNode parent_select ->
             exists out select,
               visit_constrain_time_range_node description parent_node
                 time_range_constraint s = Returned out (S s1)
               /\ sql_node out = SqlSelectStatementNode select
               /\ where_clause select
                  = Some (SqlBetweenExpression
                            (SqlColumnReferenceExpression
                               (mkSqlColumnReference (alias_of_index s1) (column_name c)))
                            (SqlStringLiteralExpression
                               (strftime_iso8601 (start_time time_range_constraint)))
                            (SqlStringLiteralExpression
                               (strftime_iso8601 (end_time time_range_constraint))))).
Proof.
  intro Hparent. unfold visit_constrain_time_range_node.
  rewrite (bind_step _ Hparent), next_alias_step. split.
  - intros ->. reflexivity.
  - intro Hne.
    destruct (sorted_by_key granularity_key (metric_time_dimension_instances from_data_set))
      as [| t rest] eqn:Hsorted.
    { apply sorted_by_key_nil in Hsorted. contradiction. }
    destruct (sorted_by_key_head _ _ _ _ Hsorted) as (Hin & Hmin).
    exists t. split; [exact Hin |]. split; [exact Hmin |].
    intros c parent_select Hc Hselect.
    unfold associated_column. rewrite Hc, ret_step.
    rewrite (bind_step _
      (CreateSelectColumnsForInstances_returns _ _ _ _
         (ChangeAssociatedColumns_single_columns _))).
    unfold checked_sql_select_node. rewrite Hselect, ret_step. unfold ret.
    eexists. eexists. split; [reflexivity |]. split; reflexivity.
Qed.

(* ------------------------------------------------------------------ *)
(** *** Join to time spine: the granularity check *)

Lemma time_spine_loop_raises node time_spine_alias original need to_select :
  (exists t, In t to_select
             /\ (to_int (time_granularity (spec t))
                 < to_int (time_granularity (spec original)))%Z) ->
  forall columns instances where_filter s,
  exists message,
    time_spine_loop node time_spine_alias original need to_select
      columns instances where_filter s
    = Raised (RuntimeError message).
Proof.
  induction to_select as [| t0 rest IH]; intros (t & Hin & Hlt) columns instances wf s.
  - destruct Hin.
  - simpl. destruct (Z.ltb_spec (to_int (time_granularity (spec t0)))
                       (to_int (time_granularity (spec original)))) as [Hfiner | Hok].
    + eexists. reflexivity.
    + destruct Hin as [-> | Hin]; [lia |].
      unfold associated_column. cbn [associated_columns]. rewrite ret_step.
      apply IH. exists t. auto.
Qed.

Lemma time_spine_loop_returns node time_spine_alias original need to_select :
  (forall t, In t to_select ->
             (to_int (time_granularity (spec original))
              <= to_int (time_granularity (spec t)))%Z) ->
  forall columns instances where_filter s,
  exists result,
    time_spine_loop node time_spine_alias original need to_select
      columns instances where_filter s
    = Returned result s.
Proof.
  induction to_select as [| t0 rest IH]; intros Hall columns instances wf s.
  - simpl. eexists. reflexivity.
  - simpl. destruct (Z.ltb_spec (to_int (time_granularity (spec t0)))
                       (to_int (time_granularity (spec original)))) as [Hfiner | Hok].
    + specialize (Hall t0 (or_introl eq_refl)). lia.
    + unfold associated_column. cbn [associated_columns]. rewrite ret_step.
      apply IH. intros t Ht. apply Hall. now right.
Qed.

(** The time spine data set has the one instance it was asked for and one
    select column. *)
Lemma _make_time_spine_data_set_returns instance source constraint s :
  exists select,
    _make_time_spine_data_set instance source constraint s
    = Returned (mkSqlDataSet (mkInstanceSet [] [] [instance] [] [] [] [])
                  (SqlSelectStatementNode select)) (S s)
    /\ length (select_columns select) = 1.
Proof.
  unfold _make_time_spine_data_set. rewrite next_alias_step. unfold ret.
  destruct (TimeGranularity_eq_dec _ _); eexists; split; reflexivity.
Qed.

Lemma single_columns_spine_parent set keep :
  single_columns set ->
  single_columns
    (mkInstanceSet (measure_instances set) (dimension_instances set)
       (filter keep (time_dimension_instances set)) (entity_instances set) []
       (metric_instances set) (metadata_instances set)).
Proof.
  intros (Hm & Hd & Ht & He & Hg & Hk & Hx). unfold single_columns. simpl.
  repeat split; auto.
  apply Forall_forall. intros x Hx'. apply filter_In in Hx' as (Hx' & _).
  rewrite Forall_forall in Ht. now apply Ht.
Qed.

Lemma create_select_columns_for_one_instance_set alias set s :
  single_columns set ->
  exists columns,
    create_select_columns_for_instance_sets [(alias, set)] s = Returned columns s.
Proof.
  intro Hsingle.
  unfold create_select_columns_for_instance_sets, select_column_set_for_instance_sets.
  rewrite (bind_step _
    (bind_step (fun cols => ret (merge_columns empty_select_column_set cols))
       (CreateSelectColumnsForInstances_returns alias [] set s Hsingle))).
  eexists. reflexivity.
Qed.

(** C8. The steps before the loop having succeeded, the handler compares
    the granularity of every time-dimension instance to be selected from the
    time spine with the granularity of the time spine data set's column,
    which is that of the instance chosen for the join.  If some instance is
    strictly finer, the handler raises a [RuntimeError]; if every instance
    is at that granularity or coarser, the check raises nothing and the
    handler returns. *)
Theorem join_to_time_spine_granularity_check
    node parent_node s parent_data_set s1 parent_select
    agg_time_element_name agg_time_entity_links join_instance others :
  parent_node s = Returned parent_data_set s1 ->
  sql_node parent_data_set = SqlSelectStatementNode parent_select ->
  single_columns (instance_set parent_data_set) ->
  agg_time_dimension_of node (S s1)
  = Returned (agg_time_element_name, agg_time_entity_links) (S s1) ->
  agg_time_dimension_instances_for_join agg_time_element_name agg_time_entity_links
    (time_dimension_instances (instance_set parent_data_set))
  = join_instance :: others ->
  let to_select :=
    filter (is_agg_time_dimension agg_time_element_name agg_time_entity_links)
      (time_dimension_instances (instance_set parent_data_set)) in
  let base := time_granularity (spec join_instance) in
  ((exists t, In t to_select /\ (to_int (time_granularity (spec t)) < to_int base)%Z) ->
   exists message,
     visit_join_to_time_spine_node node parent_node s = Raised (RuntimeError message))
  /\ ((forall t, In t to_select -> (to_int base <= to_int (time_granularity (spec t)))%Z) ->
      exists out,
        visit_join_to_time_spine_node node parent_node s = Returned out (S (S (S s1)))).
Proof.
  intros Hparent Hselect Hsingle Hagg Hjoin to_select base.
  destruct (_make_time_spine_data_set_returns join_instance _time_spine_source
              (spine_time_range_constraint node) (S (S s1))) as (spine_select & Hspine & Hlen).
  split; intro Hcase;
    unfold visit_join_to_time_spine_node;
    rewrite (bind_step _ Hparent), next_alias_step, (bind_step _ Hagg), Hjoin,
      next_alias_step, (bind_step _ Hspine);
    unfold checked_sql_select_node at 1; rewrite Hselect, ret_step;
    match goal with
    | |- context [create_select_columns_for_instance_sets [(?a, ?set)]] =>
        destruct (create_select_columns_for_one_instance_set a set (S (S (S s1)))
                    (single_columns_spine_parent _ _ Hsingle)) as (columns & Hcreate)
    end;
    rewrite (bind_step _ Hcreate);
    unfold checked_sql_select_node; cbn [sql_node instance_set time_dimension_instances];
    rewrite ret_step; cbn [length]; rewrite Hlen; cbn [Nat.eqb andb assert_that];
    rewrite ret_step; fold to_select.
  - destruct (time_spine_loop_raises node (alias_of_index (S s1)) join_instance
                (is_some (offset_to_grain node)
                 && negb (mem TimeDimensionSpec_eq_dec (spec join_instance)
                            (requested_agg_time_dimension_specs node)))
                to_select Hcase [] [] None (S (S (S s1)))) as (message & Hraise).
    exists message. now rewrite (bind_raised _ Hraise).
  - destruct (time_spine_loop_returns node (alias_of_index (S s1)) join_instance
                (is_some (offset_to_grain node)
                 && negb (mem TimeDimensionSpec_eq_dec (spec join_instance)
                            (requested_agg_time_dimension_specs node)))
                to_select Hcase [] [] None (S (S (S s1)))) as ([[cols insts] wf] & Hret).
    rewrite (bind_step _ Hret). unfold ret. eexists. reflexivity.
Qed.

(* ------------------------------------------------------------------ *)
(** *** Compute metrics: the expression of a simple metric *)

Lemma for_each_returned {A B} (f : A -> Conv B) xs :
  forall s ys s',
    for_each f xs s = Returned ys s' ->
    Forall2 (fun x y => exists s0 s1, f x s0 = Returned y s1) xs ys.
Proof.
  induction xs as [| x xs IH]; intros s ys s' H; simpl in H.
  - inversion H. constructor.
  - bind_inv H. bind_inv H. unfold ret in H. inversion H; subst; clear H.
    constructor; [eauto | eapply IH; eassumption].
Qed.

Lemma Forall2_map_right {A B C} (P : A -> C -> Prop) (Q : A -> B -> Prop) (g : B -> C) xs ys :
  (forall x y, Q x y -> P x (g y)) -> Forall2 Q xs ys -> Forall2 P xs (map g ys).
Proof. intros HPQ H. induction H; simpl; constructor; auto. Qed.

(** The expression the handler computes for a simple metric. *)
Lemma compute_metric_expr_simple metric alias s e s' :
  type metric = SIMPLE ->
  compute_metric_expr metric alias s = Returned e s' ->
  (input_measures metric = [] /\ e = column_reference alias (name metric))
  \/ (exists input_measure,
        input_measures metric = [input_measure]
        /\ e = __make_col_reference_or_coalesce_expr (measure_column_name input_measure)
                 (Some input_measure) alias).
Proof.
  intros Htype H. unfold compute_metric_expr in H. rewrite Htype in H.
  destruct (input_measures metric) as [| im [| ? ?]]; try discriminate;
    unfold ret in H; inversion H; subst; [left | right]; eauto.
Qed.

Lemma single_columns_RemoveMetrics set :
  single_columns set -> single_columns (RemoveMetrics set).
Proof.
  intros (Hm & Hd & Ht & He & Hg & Hk & Hx). unfold single_columns. simpl.
  repeat split; auto.
Qed.

(** C10. In the SELECT of the compute-metrics handler, the column of a
    simple metric with no input measure is a plain reference, in the parent
    alias, to the column named by the metric's own name; the column of a
    simple metric is [COALESCE(x, fill_value)] exactly when the metric has
    one input measure whose [fill_nulls_with] is set. *)
Theorem simple_metric_select_expression
    description parent_node node_metric_specs for_group_by_source_node s out s' :
  visit_compute_metrics_node description parent_node node_metric_specs
    for_group_by_source_node s = Returned out s' ->
  exists from_data_set s1 select before metric_select_columns after,
    parent_node s = Returned from_data_set s1
    /\ sql_node out = SqlSelectStatementNode select
    /\ select_columns select = before ++ metric_select_columns ++ after
    /\ Forall2
         (fun metric_spec column =>
            let metric := get_metric (metric_element_name metric_spec) in
            type metric = SIMPLE ->
            (input_measures metric = [] ->
             expr column
             = SqlColumnReferenceExpression
                 (mkSqlColumnReference (alias_of_index s1) (name metric)))
            /\ (forall arguments,
                  expr column = SqlAggregateFunctionExpression SQL_COALESCE arguments ->
                  exists input_measure fill_value,
                    input_measures metric = [input_measure]
                    /\ im_fill_nulls_with input_measure = Some fill_value)
            /\ (forall input_measure fill_value,
                  input_measures metric = [input_measure] ->
                  im_fill_nulls_with input_measure = Some fill_value ->
                  expr column
                  = SqlAggregateFunctionExpression SQL_COALESCE
                      [SqlColumnReferenceExpression
                         (mkSqlColumnReference (alias_of_index s1)
                            (measure_column_name input_measure));
                       SqlStringExpression (str_of_int fill_value) [] []]))
         node_metric_specs metric_select_columns.
Proof.
  intro H. unfold visit_compute_metrics_node in H.
  bind_inv_as H from_data_set s1 Hparent. rewrite next_alias_step in H.
  bind_inv_as H checked s2 Hassert. bind_inv_as H non_metric s3 Hnon_metric.
  bind_inv_as H computed s4 Hcomputed_all.
  bind_inv_as H from_source s5 Hsource. unfold ret in H. inversion H; subst; clear H.
  exists from_data_set, s1. eexists.
  exists ((time_dimension_columns non_metric ++ [])
          ++ (entity_columns non_metric ++ [])
          ++ (dimension_columns non_metric ++ [])
          ++ (group_by_metric_columns non_metric ++ [])
          ++ metric_columns non_metric).
  exists (map fst computed).
  exists ((measure_columns non_metric ++ []) ++ (metadata_columns non_metric ++ [])).
  split; [exact Hparent |]. split; [reflexivity |]. split.
  - unfold select_columns, select_statement, as_tuple, merge_columns. simpl.
    repeat rewrite <- app_assoc. reflexivity.
  - apply for_each_returned in Hcomputed_all.
    eapply Forall2_map_right; [| exact Hcomputed_all].
    intros metric_spec [column instance] (sa & sb & Hcomputed) metric Htype.
    unfold compute_metric in Hcomputed. fold metric in Hcomputed.
    bind_inv_as Hcomputed e sc Hrun.
    assert (Hexpr : expr column = e).
    { destruct for_group_by_source_node.
      - match type of Hcomputed with
        | context [match ?l with [] => _ | _ :: _ => _ end] => destruct l
        end; [discriminate |].
        unfold ret in Hcomputed. now inversion Hcomputed.
      - unfold ret in Hcomputed. now inversion Hcomputed. }
    simpl fst. rewrite Hexpr.
    apply compute_metric_expr_simple in Hrun as [(Hnone & ->) | (im & Hone & ->)];
      [| | exact Htype].
    + split; [reflexivity |]. split.
      * intros arguments Hcoalesce. discriminate.
      * intros im v Him. rewrite Hnone in Him. discriminate.
    + split; [intro Hnone; rewrite Hnone in Hone; discriminate |]. split.
      * intros arguments Hcoalesce. unfold __make_col_reference_or_coalesce_expr in Hcoalesce.
        destruct (im_fill_nulls_with im) as [v |] eqn:Hfill; [eauto | discriminate].
      * intros im' v Him Hfill. rewrite Hone in Him. inversion Him; subst im'.
        unfold __make_col_reference_or_coalesce_expr. rewrite Hfill. reflexivity.
Qed.

(* ------------------------------------------------------------------ *)
(** *** The engine kind *)

(** C9. Two engine kinds that agree on [use_column_alias_in_group_by] give
    the same conversion of the same plan, for the same optimization level
    and plan id and from the same alias counter; and the flag is true for
    BigQuery only. *)
Theorem engine_kind_only_through_group_by_flag
    engine1 engine2 dataflow_plan_node optimization_level sql_query_plan_id :
  use_column_alias_in_group_by engine1 = use_column_alias_in_group_by engine2 ->
  convert_to_sql_query_plan engine1 dataflow_plan_node optimization_level sql_query_plan_id
  = convert_to_sql_query_plan engine2 dataflow_plan_node optimization_level sql_query_plan_id
  /\ (forall engine, use_column_alias_in_group_by engine = true <-> engine = BIGQUERY).
Proof.
  intro Hflag. split.
  - unfold convert_to_sql_query_plan. rewrite Hflag. reflexivity.
  - intro engine. destruct engine; simpl; split; congruence.
Qed.

(* ================================================================== *)
(** ** The alias counter across a plan *)

(** A computation that mints no alias. *)
Definition keeps_counter {A} (c : Conv A) : Prop :=
  forall s a s', c s = Returned a s' -> s' = s.

Lemma keeps_counter_ret {A} (a : A) : keeps_counter (ret a).
Proof. intros s x s' H. inversion H. reflexivity. Qed.

Lemma keeps_counter_raise {A} e : keeps_counter (@raise A e).
Proof. intros s x s' H. discriminate. Qed.

Lemma keeps_counter_bind {A B} (c : Conv A) (k : A -> Conv B) :
  keeps_counter c -> (forall a, keeps_counter (k a)) -> keeps_counter (bind c k).
Proof.
  intros Hc Hk s b s' H. apply bind_returned in H as (a & s1 & E & H).
  apply Hc in E. subst. now apply Hk in H.
Qed.

Lemma keeps_counter_assert_that cond message : keeps_counter (assert_that cond message).
Proof. intros s u s' H. now apply assert_that_returned in H. Qed.

Lemma keeps_counter_for_each {A B} (f : A -> Conv B) xs :
  (forall x, keeps_counter (f x)) -> keeps_counter (for_each f xs).
Proof.
  intro Hf. induction xs as [| x xs IH]; simpl.
  - apply keeps_counter_ret.
  - apply keeps_counter_bind; [apply Hf |]. intro y.
    apply keeps_counter_bind; [exact IH |]. intro ys. apply keeps_counter_ret.
Qed.

(** Peels a computation built from [bind], [ret], [raise], loops and case
    distinctions down to its leaves. *)
Ltac keeps_counter_step :=
  match goal with
  | |- keeps_counter (ret _) => apply keeps_counter_ret
  | |- keeps_counter (raise _) => apply keeps_counter_raise
  | |- keeps_counter (assert_that _ _) => apply keeps_counter_assert_that
  | |- keeps_counter (bind _ _) => apply keeps_counter_bind; [| intro]
  | |- keeps_counter (for_each _ _) => apply keeps_counter_for_each; intro
  | |- keeps_counter (match ?x with _ => _ end) => destruct x
  | |- keeps_counter (let _ := _ in _) => cbv zeta
  end.

Ltac keeps_counter_tac := repeat keeps_counter_step.

Lemma keeps_counter_checked_sql_select_node d : keeps_counter (checked_sql_select_node d).
Proof. unfold checked_sql_select_node. keeps_counter_tac. Qed.

Lemma keeps_counter_associated_column {Spec Origin} (i : Instance Spec Origin) :
  keeps_counter (associated_column i).
Proof. unfold associated_column. keeps_counter_tac. Qed.

Lemma keeps_counter_measure_associated_column m : keeps_counter (measure_associated_column m).
Proof. unfold measure_associated_column. keeps_counter_tac. Qed.

Lemma keeps_counter_make_sql_column_expression {Spec Origin} alias mapping
    (inj : Spec -> InstanceSpec) (i : Instance Spec Origin) :
  keeps_counter (make_sql_column_expression alias mapping inj i).
Proof.
  unfold make_sql_column_expression.
  apply keeps_counter_bind; [apply keeps_counter_associated_column |].
  intro c. apply keeps_counter_ret.
Qed.

Lemma keeps_counter_make_sql_column_expression_for_measure alias mapping m :
  keeps_counter (make_sql_column_expression_for_measure alias mapping m).
Proof.
  unfold make_sql_column_expression_for_measure.
  apply keeps_counter_bind; [apply keeps_counter_measure_associated_column |].
  intro c. apply keeps_counter_ret.
Qed.

Lemma keeps_counter_make_sql_column_expression_to_aggregate_measure alias specs m :
  keeps_counter (make_sql_column_expression_to_aggregate_measure alias specs m).
Proof.
  unfold make_sql_column_expression_to_aggregate_measure.
  apply keeps_counter_bind; [apply keeps_counter_measure_associated_column |].
  intro c. apply keeps_counter_ret.
Qed.

Lemma keeps_counter_CreateSelectColumnsForInstances alias mapping set :
  keeps_counter (CreateSelectColumnsForInstances alias mapping set).
Proof.
  unfold CreateSelectColumnsForInstances.
  repeat (apply keeps_counter_bind;
          [apply keeps_counter_for_each; intro;
           first [apply keeps_counter_make_sql_column_expression
                 | apply keeps_counter_make_sql_column_expression_for_measure]
          | intro]).
  apply keeps_counter_ret.
Qed.

Lemma keeps_counter_CreateSelectColumnsWithMeasuresAggregated alias specs set :
  keeps_counter (CreateSelectColumnsWithMeasuresAggregated alias specs set).
Proof.
  unfold CreateSelectColumnsWithMeasuresAggregated.
  repeat (apply keeps_counter_bind;
          [apply keeps_counter_for_each; intro;
           first [apply keeps_counter_make_sql_column_expression
                 | apply keeps_counter_make_sql_column_expression_to_aggregate_measure]
          | intro]).
  apply keeps_counter_ret.
Qed.

Lemma keeps_counter_select_column_set_for_instance_sets table acc :
  keeps_counter (select_column_set_for_instance_sets table acc).
Proof.
  revert acc. induction table as [| [alias set] table IH]; intro acc; simpl.
  - apply keeps_counter_ret.
  - apply keeps_counter_bind; [apply keeps_counter_CreateSelectColumnsForInstances |].
    intro cols. apply IH.
Qed.

Lemma keeps_counter_create_select_columns_for_instance_sets table :
  keeps_counter (create_select_columns_for_instance_sets table).
Proof.
  unfold create_select_columns_for_instance_sets.
  apply keeps_counter_bind; [apply keeps_counter_select_column_set_for_instance_sets |].
  intro cols. apply keeps_counter_ret.
Qed.

Lemma keeps_counter_ChangeMeasureAggregationState changes set :
  keeps_counter (ChangeMeasureAggregationState changes set).
Proof.
  unfold ChangeMeasureAggregationState.
  apply keeps_counter_bind; [| intro; apply keeps_counter_ret].
  apply keeps_counter_for_each. intro m. keeps_counter_tac.
Qed.

Lemma keeps_counter_output_measure_instances_of reference measures :
  keeps_counter (output_measure_instances_of reference measures).
Proof.
  induction measures as [| m measures IH]; simpl.
  - apply keeps_counter_ret.
  - destruct (get_by_reference _); [| apply keeps_counter_raise].
    apply keeps_counter_bind; [exact IH | intro; apply keeps_counter_ret].
Qed.

Lemma keeps_counter_metric_time_loop matching out mapping :
  keeps_counter (metric_time_loop matching out mapping).
Proof.
  revert out mapping. induction matching as [| t matching IH]; intros out mapping; simpl.
  - apply keeps_counter_ret.
  - apply keeps_counter_bind; [apply keeps_counter_associated_column |].
    intro c. apply IH.
Qed.

Lemma keeps_counter_time_spine_loop node alias original need to_select cols insts filter :
  keeps_counter (time_spine_loop node alias original need to_select cols insts filter).
Proof.
  revert cols insts filter.
  induction to_select as [| t to_select IH]; intros cols insts filter; simpl.
  - apply keeps_counter_ret.
  - destruct (_ <? _)%Z; [apply keeps_counter_raise |].
    apply keeps_counter_bind; [apply keeps_counter_associated_column |].
    intro c. apply IH.
Qed.

Lemma keeps_counter_agg_time_dimension_of node : keeps_counter (agg_time_dimension_of node).
Proof. unfold agg_time_dimension_of. keeps_counter_tac. Qed.

Lemma keeps_counter_column_association_for_time_dimension d t :
  keeps_counter (column_association_for_time_dimension d t).
Proof.
  unfold column_association_for_time_dimension.
  destruct (find _ _); [apply keeps_counter_associated_column | apply keeps_counter_raise].
Qed.

Lemma keeps_counter_compute_metric_expr metric alias :
  keeps_counter (compute_metric_expr metric alias).
Proof. unfold compute_metric_expr. keeps_counter_tac. Qed.

Lemma keeps_counter_compute_metric for_group_by set alias metric_spec :
  keeps_counter (compute_metric for_group_by set alias metric_spec).
Proof.
  unfold compute_metric.
  apply keeps_counter_bind; [apply keeps_counter_compute_metric_expr |].
  intro e. keeps_counter_tac.
Qed.

Create HintDb counter.
#[local] Hint Resolve keeps_counter_ret keeps_counter_raise keeps_counter_assert_that
  keeps_counter_checked_sql_select_node keeps_counter_associated_column
  keeps_counter_CreateSelectColumnsForInstances
  keeps_counter_CreateSelectColumnsWithMeasuresAggregated
  keeps_counter_create_select_columns_for_instance_sets
  keeps_counter_ChangeMeasureAggregationState
  keeps_counter_output_measure_instances_of keeps_counter_metric_time_loop
  keeps_counter_time_spine_loop keeps_counter_agg_time_dimension_of
  keeps_counter_column_association_for_time_dimension
  keeps_counter_compute_metric keeps_counter_for_each : counter.

(** [_make_time_spine_data_set] mints one alias. *)
Lemma _make_time_spine_data_set_counter instance source constraint s d s' :
  _make_time_spine_data_set instance source constraint s = Returned d s' -> s' = S s.
Proof.
  unfold _make_time_spine_data_set. rewrite next_alias_step.
  unfold ret. intro H. inversion H. reflexivity.
Qed.

(** A computation that, when it returns, has minted [k] aliases. *)
Definition mints {A} (c : Conv A) (k : nat) : Prop :=
  forall s a s', c s = Returned a s' -> s' = s + k.

(** One step through a handler's body: the next alias, a step that keeps
    the counter, or a case distinction. *)
Ltac count_step H :=
  match type of H with
  | bind _next_unique_table_alias _ _ = Returned _ _ => rewrite next_alias_step in H
  | bind (_make_time_spine_data_set _ _ _) _ _ = Returned _ _ =>
      let a := fresh "a" in let s1 := fresh "s" in let E := fresh "E" in
      apply bind_returned in H; destruct H as (a & s1 & E & H);
      apply _make_time_spine_data_set_counter in E; subst s1
  | bind ?c _ _ = Returned _ _ =>
      let a := fresh "a" in let s1 := fresh "s" in let E := fresh "E" in
      apply bind_returned in H; destruct H as (a & s1 & E & H);
      let K := fresh "K" in
      assert (K : keeps_counter c) by auto with counter;
      apply K in E; subst s1; clear K
  | ret _ _ = Returned _ _ => unfold ret in H; inversion H; subst; clear H
  | raise _ _ = Returned _ _ => discriminate H
  | (match ?x with _ => _ end) _ = Returned _ _ => destruct x
  | (let _ := _ in _) _ = Returned _ _ => cbv zeta in H
  end.

Ltac count_steps H := repeat count_step H.

(** The shape shared by the handlers of one parent: the parent's aliases
    and [k] more. *)
Ltac mints_one_parent handler :=
  let s := fresh "s" in let out := fresh "out" in let s' := fresh "s'" in
  let H := fresh "H" in let Hp := fresh "Hp" in
  intros Hparent s out s' H; unfold handler in H;
  let d := fresh "d" in let s1 := fresh "s" in
  apply bind_returned in H; destruct H as (d & s1 & Hp & H);
  apply Hparent in Hp; subst s1; count_steps H; lia.

Lemma mints_visit_source_node d : mints (visit_source_node d) 0.
Proof. intros s out s' H. unfold visit_source_node in H. count_steps H. lia. Qed.

Lemma mints_visit_aggregate_measures_node description parent specs k :
  mints parent k -> mints (visit_aggregate_measures_node description parent specs) (k + 1).
Proof. mints_one_parent visit_aggregate_measures_node. Qed.

Lemma mints_visit_compute_metrics_node description parent specs for_group_by k :
  mints parent k ->
  mints (visit_compute_metrics_node description parent specs for_group_by) (k + 1).
Proof. mints_one_parent visit_compute_metrics_node. Qed.

Lemma mints_visit_order_by_limit_node description parent specs limit k :
  mints parent k -> mints (visit_order_by_limit_node description parent specs limit) (k + 1).
Proof. mints_one_parent visit_order_by_limit_node. Qed.

Lemma mints_visit_write_to_result_table_node parent table k :
  mints parent k -> mints (visit_write_to_result_table_node parent table) k.
Proof. mints_one_parent visit_write_to_result_table_node. Qed.

Lemma mints_visit_filter_elements_node description parent include distinct k :
  mints parent k ->
  mints (visit_filter_elements_node description parent include distinct) (k + 1).
Proof. mints_one_parent visit_filter_elements_node. Qed.

Lemma mints_visit_where_constraint_node description parent node_where k :
  mints parent k -> mints (visit_where_constraint_node description parent node_where) (k + 1).
Proof. mints_one_parent visit_where_constraint_node. Qed.

Lemma mints_visit_constrain_time_range_node description parent constraint k :
  mints parent k ->
  mints (visit_constrain_time_range_node description parent constraint) (k + 1).
Proof. mints_one_parent visit_constrain_time_range_node. Qed.

Lemma mints_visit_metric_time_dimension_transform_node description parent reference k :
  mints parent k ->
  mints (visit_metric_time_dimension_transform_node description parent reference) (k + 1).
Proof. mints_one_parent visit_metric_time_dimension_transform_node. Qed.

Lemma mints_visit_semi_additive_join_node node parent k :
  mints parent k -> mints (visit_semi_additive_join_node node parent) (k + 3).
Proof. mints_one_parent visit_semi_additive_join_node. Qed.

Lemma mints_visit_join_to_time_spine_node node parent k :
  mints parent k -> mints (visit_join_to_time_spine_node node parent) (k + 3).
Proof. mints_one_parent visit_join_to_time_spine_node. Qed.

Lemma mints_visit_min_max_node description parent k :
  mints parent k -> mints (visit_min_max_node description parent) (k + 1).
Proof. mints_one_parent visit_min_max_node. Qed.

Lemma mints_visit_add_generated_uuid_column_node parent k :
  mints parent k -> mints (visit_add_generated_uuid_column_node parent) (k + 1).
Proof. mints_one_parent visit_add_generated_uuid_column_node. Qed.

Lemma mints_visit_join_over_time_range_node node parent k :
  mints parent k -> mints (visit_join_over_time_range_node node parent) (k + 3).
Proof. mints_one_parent visit_join_over_time_range_node. Qed.

Lemma mints_visit_join_conversion_events_node node base conversion kb kc :
  mints base kb -> mints conversion kc ->
  mints (visit_join_conversion_events_node node base conversion) (kb + kc + 3).
Proof.
  intros Hbase Hconversion s out s' H. unfold visit_join_conversion_events_node in H.
  bind_inv_as H base_data_set s1 Hb. apply Hbase in Hb. subst s1.
  rewrite next_alias_step in H.
  bind_inv_as H conversion_data_set s2 Hc. apply Hconversion in Hc. subst s2.
  count_steps H. lia.
Qed.


Lemma mints_join_targets_loop from_data_set from_alias targets ks table descs :
  Forall2 (fun target k => mints (fst target) k) targets ks ->
  mints (join_targets_loop from_data_set from_alias targets table descs)
    (list_sum (map S ks)).
Proof.
  intro Hall. revert table descs.
  induction Hall as [| [right_node jd] k targets ks Hk _ IH]; intros table descs s a s' H;
    simpl in H |- *.
  - count_steps H. lia.
  - bind_inv_as H right_data_set s1 Hr. apply Hk in Hr. subst s1.
    rewrite next_alias_step in H. apply IH in H. lia.
Qed.

Lemma mints_visit_join_on_entities_node description left_node targets kl ks :
  mints left_node kl ->
  Forall2 (fun target k => mints (fst target) k) targets ks ->
  mints (visit_join_on_entities_node description left_node targets)
    (kl + 1 + list_sum (map S ks)).
Proof.
  intros Hleft Hall s out s' H. unfold visit_join_on_entities_node in H.
  bind_inv_as H from_data_set s1 Hl. apply Hleft in Hl. subst s1.
  rewrite next_alias_step in H.
  bind_inv_as H joined s2 Hj. apply (mints_join_targets_loop _ _ _ _ _ _ Hall) in Hj. subst s2.
  count_steps H. lia.
Qed.

Lemma mints_combine_parents (parents : list (Conv SqlDataSet)) ks :
  Forall2 (fun parent k => mints parent k) parents ks ->
  mints (for_each
           (fun parent_node =>
              parent_sql_data_set <- parent_node ;;
              table_alias <- _next_unique_table_alias ;;
              ret (mkAnnotatedSqlDataSet parent_sql_data_set table_alias None))
           parents)
    (list_sum (map S ks)).
Proof.
  induction 1 as [| parent k parents ks Hk _ IH]; intros s a s' H; simpl in H |- *.
  - count_steps H. lia.
  - bind_inv_as H first s1 Hf. bind_inv_as Hf d s2 Hd. apply Hk in Hd. subst s2.
    rewrite next_alias_step in Hf. unfold ret in Hf. inversion Hf; subst; clear Hf.
    bind_inv_as H rest s3 Hr. apply IH in Hr. subst s3.
    unfold ret in H. inversion H. lia.
Qed.

Lemma mints_visit_combine_aggregated_outputs_node description parents ks :
  Forall2 (fun parent k => mints parent k) parents ks ->
  mints (visit_combine_aggregated_outputs_node description parents) (list_sum (map S ks)).
Proof.
  intros Hall s out s' H. unfold visit_combine_aggregated_outputs_node in H.
  bind_inv_as H u s1 Ha. apply assert_that_returned in Ha as [_ ->].
  bind_inv_as H parent_data_sets s2 Hp. apply (mints_combine_parents _ _ Hall) in Hp. subst s2.
  count_steps H. lia.
Qed.

(* ------------------------------------------------------------------ *)
(** *** Induction on plans *)

(** The parent of the nodes that have one parent. *)
Definition only_parent (node : DataflowPlanNode) : option DataflowPlanNode :=
  match node with
  | ReadSqlSourceNode _ | JoinOnEntitiesNode _ _ _ | CombineAggregatedOutputsNode _ _
  | JoinConversionEventsNode _ _ _ => None
  | AggregateMeasuresNode _ parent_node _ => Some parent_node
  | ComputeMetricsNode _ parent_node _ _ => Some parent_node
  | ConstrainTimeRangeNode _ parent_node _ => Some parent_node
  | MetricTimeDimensionTransformNode _ parent_node _ => Some parent_node
  | JoinToTimeSpineNode _ parent_node => Some parent_node
  | WriteToResultDataTableNode parent_node => Some parent_node
  | WriteToResultTableNode parent_node _ => Some parent_node
  | JoinOverTimeRangeNode _ parent_node => Some parent_node
  | OrderByLimitNode _ parent_node _ _ => Some parent_node
  | FilterElementsNode _ parent_node _ _ => Some parent_node
  | WhereConstraintNode _ parent_node _ => Some parent_node
  | SemiAdditiveJoinNode _ parent_node => Some parent_node
  | MinMaxNode _ parent_node => Some parent_node
  | AddGeneratedUuidColumnNode parent_node => Some parent_node
  end.

Section PlanInduction.
Variable P : DataflowPlanNode -> Prop.
Hypothesis P_source : forall d, P (ReadSqlSourceNode d).
Hypothesis P_one_parent : forall node parent, only_parent node = Some parent -> P parent -> P node.
Hypothesis P_join :
  forall description left_node join_targets,
    P left_node -> Forall (fun target => P (fst target)) join_targets ->
    P (JoinOnEntitiesNode description left_node join_targets).
Hypothesis P_combine :
  forall description parent_nodes,
    Forall P parent_nodes -> P (CombineAggregatedOutputsNode description parent_nodes).
Hypothesis P_conversion :
  forall fields base_node conversion_node,
    P base_node -> P conversion_node ->
    P (JoinConversionEventsNode fields base_node conversion_node).

Fixpoint plan_ind (node : DataflowPlanNode) : P node :=
  match node with
  | ReadSqlSourceNode d => @P_source d
  | JoinOnEntitiesNode description left_node join_targets =>
      @P_join description left_node join_targets
        (plan_ind left_node)
        ((fix targets_ind (l : list (DataflowPlanNode * JoinDescription))
            : Forall (fun target => P (fst target)) l :=
            match l with
            | [] => Forall_nil _
            | target :: rest =>
                Forall_cons target
                  (match target return P (fst target) with
                   | (join_node, _) => plan_ind join_node
                   end)
                  (targets_ind rest)
            end) join_targets)
  | CombineAggregatedOutputsNode description parent_nodes =>
      @P_combine description parent_nodes
        ((fix parents_ind (l : list DataflowPlanNode) : Forall P l :=
            match l with
            | [] => Forall_nil _
            | parent :: rest => Forall_cons parent (plan_ind parent) (parents_ind rest)
            end) parent_nodes)
  | JoinConversionEventsNode fields base_node conversion_node =>
      @P_conversion fields base_node conversion_node (plan_ind base_node) (plan_ind conversion_node)
  | AggregateMeasuresNode _ p _ as n => @P_one_parent n p eq_refl (plan_ind p)
  | ComputeMetricsNode _ p _ _ as n => @P_one_parent n p eq_refl (plan_ind p)
  | ConstrainTimeRangeNode _ p _ as n => @P_one_parent n p eq_refl (plan_ind p)
  | MetricTimeDimensionTransformNode _ p _ as n => @P_one_parent n p eq_refl (plan_ind p)
  | JoinToTimeSpineNode _ p as n => @P_one_parent n p eq_refl (plan_ind p)
  | WriteToResultDataTableNode p as n => @P_one_parent n p eq_refl (plan_ind p)
  | WriteToResultTableNode p _ as n => @P_one_parent n p eq_refl (plan_ind p)
  | JoinOverTimeRangeNode _ p as n => @P_one_parent n p eq_refl (plan_ind p)
  | OrderByLimitNode _ p _ _ as n => @P_one_parent n p eq_refl (plan_ind p)
  | FilterElementsNode _ p _ _ as n => @P_one_parent n p eq_refl (plan_ind p)
  | WhereConstraintNode _ p _ as n => @P_one_parent n p eq_refl (plan_ind p)
  | SemiAdditiveJoinNode _ p as n => @P_one_parent n p eq_refl (plan_ind p)
  | MinMaxNode _ p as n => @P_one_parent n p eq_refl (plan_ind p)
  | AddGeneratedUuidColumnNode p as n => @P_one_parent n p eq_refl (plan_ind p)
  end.
End PlanInduction.

(** The number of aliases a plan needs: one per sub-query a handler reads
    from, three where a time spine or a row filter is joined. *)
Fixpoint alias_count (node : DataflowPlanNode) : nat :=
  match node with
  | ReadSqlSourceNode _ => 0
  | JoinOnEntitiesNode _ left_node join_targets =>
      alias_count left_node + 1
      + list_sum (map (fun target => let '(join_node, _) := target in
                                     S (alias_count join_node))
                    join_targets)
  | CombineAggregatedOutputsNode _ parent_nodes =>
      list_sum (map (fun parent => S (alias_count parent)) parent_nodes)
  | JoinConversionEventsNode _ base_node conversion_node =>
      alias_count base_node + alias_count conversion_node + 3
  | AggregateMeasuresNode _ p _ => alias_count p + 1
  | ComputeMetricsNode _ p _ _ => alias_count p + 1
  | ConstrainTimeRangeNode _ p _ => alias_count p + 1
  | MetricTimeDimensionTransformNode _ p _ => alias_count p + 1
  | JoinToTimeSpineNode _ p => alias_count p + 3
  | WriteToResultDataTableNode p => alias_count p
  | WriteToResultTableNode p _ => alias_count p
  | JoinOverTimeRangeNode _ p => alias_count p + 3
  | OrderByLimitNode _ p _ _ => alias_count p + 1
  | FilterElementsNode _ p _ _ => alias_count p + 1
  | WhereConstraintNode _ p _ => alias_count p + 1
  | SemiAdditiveJoinNode _ p => alias_count p + 3
  | MinMaxNode _ p => alias_count p + 1
  | AddGeneratedUuidColumnNode p => alias_count p + 1
  end.

Lemma mints_accept node : mints (accept node) (alias_count node).
Proof.
  induction node as
    [ d | node parent Hparent IH | description left_node join_targets IHleft IHtargets
    | description parent_nodes IHparents
    | fields base_node conversion_node IHbase IHconversion ] using plan_ind.
  - apply mints_visit_source_node.
  - destruct node; simpl in Hparent; try discriminate Hparent; injection Hparent as <-; simpl.
    + now apply mints_visit_aggregate_measures_node.
    + now apply mints_visit_compute_metrics_node.
    + now apply mints_visit_constrain_time_range_node.
    + now apply mints_visit_metric_time_dimension_transform_node.
    + now apply mints_visit_join_to_time_spine_node.
    + exact IH.
    + now apply mints_visit_write_to_result_table_node.
    + now apply mints_visit_join_over_time_range_node.
    + now apply mints_visit_order_by_limit_node.
    + now apply mints_visit_filter_elements_node.
    + now apply mints_visit_where_constraint_node.
    + now apply mints_visit_semi_additive_join_node.
    + now apply mints_visit_min_max_node.
    + now apply mints_visit_add_generated_uuid_column_node.
  - simpl.
    replace (map (fun target : DataflowPlanNode * JoinDescription =>
                    let '(join_node, _) := target in S (alias_count join_node))
               join_targets)
      with (map S (map (fun target => alias_count (fst target)) join_targets))
      by (rewrite map_map; apply map_ext; intros [n jd]; reflexivity).
    apply mints_visit_join_on_entities_node; [exact IHleft |].
    clear IHleft. induction IHtargets as [| [n jd] rest Hn _ IH]; simpl; constructor; auto.
  - simpl.
    replace (map (fun parent => S (alias_count parent)) parent_nodes)
      with (map S (map alias_count parent_nodes)) by (now rewrite map_map).
    apply mints_visit_combine_aggregated_outputs_node.
    induction IHparents as [| n rest Hn _ IH]; simpl; constructor; auto.
  - simpl. now apply mints_visit_join_conversion_events_node.
Qed.

(** The aliases minted by a conversion that returns are determined by the
    shape of the plan: the counter advances by [alias_count], whatever the
    data sets, the manifest and the starting value are; a conversion never
    moves the counter back. *)
Theorem accept_mints_alias_count node s out s' :
  accept node s = Returned out s' -> s' = s + alias_count node /\ s <= s'.
Proof. intro H. apply mints_accept in H. lia. Qed.


(* ------------------------------------------------------------------ *)
(** *** Aliases are unique *)

Lemma alias_of_index_injective n m : alias_of_index n = alias_of_index m -> n = m.
Proof.
  unfold alias_of_index, SUB_QUERY_PREFIX. simpl. intro H.
  injection H as H.
  apply DecimalNat.Unsigned.to_uint_inj.
  assert (Hn := NilEmpty.usu (Nat.to_uint n)). rewrite H in Hn.
  rewrite NilEmpty.usu in Hn. now injection Hn.
Qed.

(** An alias minted before a plan is converted differs from every alias
    minted once the conversion has returned. *)
Theorem alias_minted_after_conversion_is_fresh node s before s1 out s2 k after s3 :
  _next_unique_table_alias s = Returned before s1 ->
  accept node s1 = Returned out s2 ->
  _next_unique_table_alias (s2 + k) = Returned after s3 ->
  before <> after.
Proof.
  intros Hbefore Hrun Hafter.
  unfold _next_unique_table_alias in Hbefore, Hafter.
  inversion Hbefore; subst. inversion Hafter; subst.
  apply mints_accept in Hrun. intro Heq.
  apply alias_of_index_injective in Heq. lia.
Qed.

(* ------------------------------------------------------------------ *)
(** *** The SQL node a plan converts to *)

(** One step through a handler's body, without following the counter. *)
Ltac run_step H :=
  match type of H with
  | bind _next_unique_table_alias _ _ = Returned _ _ => rewrite next_alias_step in H
  | bind _ _ _ = Returned _ _ =>
      let a := fresh "a" in let s1 := fresh "s" in let E := fresh "E" in
      apply bind_returned in H; destruct H as (a & s1 & E & H)
  | ret _ _ = Returned _ _ => unfold ret in H; inversion H; subst; clear H
  | raise _ _ = Returned _ _ => discriminate H
  | (match ?x with _ => _ end) _ = Returned _ _ => destruct x
  | (let _ := _ in _) _ = Returned _ _ => cbv zeta in H
  end.

Ltac run_steps H := repeat run_step H.

(** The plan ends in a write to a table, possibly below nodes that write
    to a data table. *)
Fixpoint writes_table (node : DataflowPlanNode) : bool :=
  match node with
  | WriteToResultTableNode _ _ => true
  | WriteToResultDataTableNode parent_node => writes_table parent_node
  | _ => false
  end.

Definition is_select (d : SqlDataSet) : Prop :=
  exists select, sql_node d = SqlSelectStatementNode select.

Definition is_create_table_as (d : SqlDataSet) : Prop :=
  exists table select,
    sql_node d = SqlCreateTableAsNode table (SqlSelectStatementNode select).

Ltac returns_select handler H :=
  unfold handler in H; run_steps H; eexists; reflexivity.

Lemma accept_sql_node_shape node :
  forall s out s',
    accept node s = Returned out s' ->
    if writes_table node then is_create_table_as out else is_select out.
Proof.
  induction node as
    [ d | node parent Hparent IH | description left_node join_targets IHleft IHtargets
    | description parent_nodes IHparents
    | fields base_node conversion_node IHbase IHconversion ] using plan_ind;
    intros s out s' H; simpl in H.
  - simpl. returns_select visit_source_node H.
  - destruct node; simpl in Hparent; try discriminate Hparent; injection Hparent as <-;
      simpl in H |- *.
    + returns_select visit_aggregate_measures_node H.
    + returns_select visit_compute_metrics_node H.
    + returns_select visit_constrain_time_range_node H.
    + returns_select visit_metric_time_dimension_transform_node H.
    + returns_select visit_join_to_time_spine_node H.
    + exact (IH _ _ _ H).
    + unfold visit_write_to_result_table_node in H. run_steps H.
      eexists. eexists. reflexivity.
    + returns_select visit_join_over_time_range_node H.
    + returns_select visit_order_by_limit_node H.
    + returns_select visit_filter_elements_node H.
    + returns_select visit_where_constraint_node H.
    + returns_select visit_semi_additive_join_node H.
    + returns_select visit_min_max_node H.
    + returns_select visit_add_generated_uuid_column_node H.
  - simpl. returns_select visit_join_on_entities_node H.
  - simpl. returns_select visit_combine_aggregated_outputs_node H.
  - simpl. returns_select visit_join_conversion_events_node H.
Qed.

Lemma checked_sql_select_node_of_create_table d s select s' :
  is_create_table_as d -> checked_sql_select_node d s = Returned select s' -> False.
Proof.
  intros (table & inner & Hd) H. unfold checked_sql_select_node in H.
  rewrite Hd in H. discriminate.
Qed.

(** The nodes whose handler reads the SELECT statement of its primary
    parent. *)
Definition reads_parent_select (node : DataflowPlanNode) : bool :=
  match node with
  | ReadSqlSourceNode _ | WriteToResultDataTableNode _ | JoinOverTimeRangeNode _ _ => false
  | _ => true
  end.

Ltac refute_create_table :=
  match goal with
  | Hd : is_create_table_as ?d, E : checked_sql_select_node ?d _ = Returned _ _ |- _ =>
      exact (checked_sql_select_node_of_create_table _ _ _ _ Hd E)
  end.

Ltac never_over_create_table handler IH H :=
  unfold handler in H;
  let d := fresh "d" in let s1 := fresh "s" in let Hp := fresh "Hp" in
  apply bind_returned in H; destruct H as (d & s1 & Hp & H);
  apply accept_sql_node_shape in Hp;
  rewrite IH in Hp; run_steps H; refute_create_table.

(** A converted plan is a SELECT statement, except that a plan that ends
    in a write to a table is a CREATE TABLE AS over a SELECT statement. *)
Theorem accept_returns_select_or_create_table node s out s' :
  accept node s = Returned out s' ->
  (writes_table node = false -> is_select out)
  /\ (writes_table node = true -> is_create_table_as out).
Proof.
  intro H. apply accept_sql_node_shape in H.
  destruct (writes_table node); split; intro E; try discriminate E; exact H.
Qed.

(** The result of a write to a table cannot be read again: a handler that
    reads the SELECT statement of its primary parent never returns when
    that parent ends in a write to a table. *)
Theorem table_write_is_never_read child parent s out s' :
  primary_parent child = Some parent ->
  reads_parent_select child = true ->
  writes_table parent = true ->
  accept child s <> Returned out s'.
Proof.
  intros Hparent Hreads Hwrites H.
  destruct child; simpl in Hparent, Hreads; try discriminate Hreads;
    try (injection Hparent as <-); simpl in H.
  - never_over_create_table visit_join_on_entities_node Hwrites H.
  - never_over_create_table visit_aggregate_measures_node Hwrites H.
  - never_over_create_table visit_compute_metrics_node Hwrites H.
  - never_over_create_table visit_constrain_time_range_node Hwrites H.
  - never_over_create_table visit_metric_time_dimension_transform_node Hwrites H.
  - never_over_create_table visit_join_to_time_spine_node Hwrites H.
  - never_over_create_table visit_write_to_result_table_node Hwrites H.
  - never_over_create_table visit_order_by_limit_node Hwrites H.
  - never_over_create_table visit_filter_elements_node Hwrites H.
  - never_over_create_table visit_where_constraint_node Hwrites H.
  - destruct parent_nodes as [| first rest]; simpl in Hparent; [discriminate |].
    injection Hparent as <-. simpl in H.
    unfold visit_combine_aggregated_outputs_node in H.
    bind_inv H. apply assert_that_returned in E as [_ ->].
    bind_inv_as H parent_data_sets s2 Hall. simpl in Hall.
    bind_inv_as Hall from_data_set s3 Hfirst. bind_inv_as Hall others s4 Hrest.
    unfold ret in Hall. inversion Hall; subst; clear Hall.
    bind_inv_as Hfirst parent_sql_data_set s5 Hp. rewrite next_alias_step in Hfirst.
    unfold ret in Hfirst. inversion Hfirst; subst; clear Hfirst.
    apply accept_sql_node_shape in Hp. rewrite Hwrites in Hp.
    bind_inv H. bind_inv H. simpl in E0. refute_create_table.
  - never_over_create_table visit_semi_additive_join_node Hwrites H.
  - never_over_create_table visit_min_max_node Hwrites H.
  - never_over_create_table visit_add_generated_uuid_column_node Hwrites H.
  - never_over_create_table visit_join_conversion_events_node Hwrites H.
Qed.


(* ------------------------------------------------------------------ *)
(** *** Output columns in the resolver's format *)

(** Every instance has the one column that the resolver gives its spec. *)
Definition in_resolver_format (set : InstanceSet) : Prop :=
  Forall (fun m => measure_associated_columns m = [resolve_spec (OfMeasure (measure_spec m))])
    (measure_instances set)
  /\ Forall (fun i => associated_columns i = [resolve_spec (OfDimension (spec i))])
       (dimension_instances set)
  /\ Forall (fun i => associated_columns i = [resolve_spec (OfTimeDimension (spec i))])
       (time_dimension_instances set)
  /\ Forall (fun i => associated_columns i = [resolve_spec (OfEntity (spec i))])
       (entity_instances set)
  /\ Forall (fun i => associated_columns i = [resolve_spec (OfGroupByMetric (spec i))])
       (group_by_metric_instances set)
  /\ Forall (fun i => associated_columns i = [resolve_spec (OfMetric (spec i))])
       (metric_instances set)
  /\ Forall (fun i => associated_columns i = [resolve_spec (OfMetadata (spec i))])
       (metadata_instances set).

Lemma ChangeAssociatedColumns_in_resolver_format set :
  in_resolver_format (ChangeAssociatedColumns set).
Proof.
  unfold in_resolver_format, ChangeAssociatedColumns; simpl.
  repeat split; apply Forall_map_intro; intro x; reflexivity.
Qed.

Lemma UpdateMeasureFillNullsWith_in_resolver_format specs set :
  in_resolver_format set -> in_resolver_format (UpdateMeasureFillNullsWith specs set).
Proof.
  intros (Hm & H). split; [| exact H]. simpl.
  apply Forall_forall. intros m' Hin. apply in_map_iff in Hin as (m & <- & Hin).
  rewrite Forall_forall in Hm. specialize (Hm m Hin).
  destruct (find_input_spec specs (measure_spec m)); exact Hm.
Qed.

(** What [visit_aggregate_measures_node] returns as instance set. *)
Lemma visit_aggregate_measures_node_instance_set description parent_node specs s out s' :
  visit_aggregate_measures_node description parent_node specs s = Returned out s' ->
  exists from_data_set s1,
    parent_node s = Returned from_data_set s1
    /\ instance_set out
       = if any_alias specs
         then ChangeAssociatedColumns
                (AliasAggregatedMeasures specs
                   (aggregated_instance_set specs (instance_set from_data_set)))
         else aggregated_instance_set specs (instance_set from_data_set).
Proof.
  intro H. unfold visit_aggregate_measures_node in H.
  bind_inv_as H from_data_set s1 Hp.
  rewrite (bind_step _
    (ChangeMeasureAggregationState_returns _ (fun _ => COMPLETE) _ _
       aggregate_state_changes_total)) in H.
  rewrite next_alias_step in H.
  fold (aggregated_instance_set specs (instance_set from_data_set)) in H.
  bind_inv H. bind_inv H. unfold ret in H. inversion H; subst; clear H.
  exists from_data_set, s1. split; [exact Hp | reflexivity].
Qed.

(** The instance one iteration of the metric loop creates. *)
Definition computed_in_resolver_format (metric_spec : MetricSpec) (c : ComputedInstance)
  : Prop :=
  match c with
  | AsMetric i =>
      spec i = metric_spec /\ associated_columns i = [resolve_spec (OfMetric metric_spec)]
  | AsGroupByMetric i =>
      gbm_element_name (spec i) = metric_element_name metric_spec
      /\ associated_columns i = [resolve_spec (OfGroupByMetric (spec i))]
  end.

Lemma compute_metric_instance for_group_by set alias metric_spec s column c s' :
  compute_metric for_group_by set alias metric_spec s = Returned (column, c) s' ->
  computed_in_resolver_format metric_spec c
  /\ (if for_group_by
      then exists i entity_instance rest,
             c = AsGroupByMetric i
             /\ entity_instances set = entity_instance :: rest
             /\ spec i
                = mkGroupByMetricSpec (metric_element_name metric_spec) []
                    (entity_entity_links (spec entity_instance)
                       ++ [entity_element_name (spec entity_instance)])
      else exists i, c = AsMetric i).
Proof.
  intro H. unfold compute_metric in H. bind_inv H.
  destruct for_group_by.
  - destruct (entity_instances set) as [| entity_instance rest]; [discriminate |].
    unfold ret in H. inversion H; subst; clear H. simpl.
    split; [split; reflexivity |]. eexists. exists entity_instance, rest.
    repeat split.
  - unfold ret in H. inversion H; subst; clear H. simpl.
    split; [split; reflexivity |]. eexists. reflexivity.
Qed.

(** The instance set that the metrics are added to. *)
Definition metrics_base (set : InstanceSet) : InstanceSet :=
  RemoveMetrics (ChangeAssociatedColumns (RemoveMeasures set)).

(** What [visit_compute_metrics_node] returns, step by step. *)
Lemma visit_compute_metrics_node_inversion
    description parent_node node_metric_specs for_group_by s out s' :
  visit_compute_metrics_node description parent_node node_metric_specs for_group_by s
  = Returned out s' ->
  exists from_data_set s1 computed,
    parent_node s = Returned from_data_set s1
    /\ (for_group_by = true ->
        length node_metric_specs = 1
        /\ length (entity_instances (instance_set from_data_set)) = 1)
    /\ Forall2
         (fun metric_spec c =>
            exists s0 s2,
              compute_metric for_group_by (metrics_base (instance_set from_data_set))
                (alias_of_index s1) metric_spec s0 = Returned c s2)
         node_metric_specs computed
    /\ instance_set out
       = match last_group_by_metric_instance (map snd computed) with
         | Some group_by_metric_instance =>
             AddGroupByMetric group_by_metric_instance
               (metrics_base (instance_set from_data_set))
         | None =>
             AddMetrics (computed_metric_instances (map snd computed))
               (metrics_base (instance_set from_data_set))
         end.
Proof.
  intro H. unfold visit_compute_metrics_node in H.
  bind_inv_as H from_data_set s1 Hparent. rewrite next_alias_step in H.
  bind_inv_as H checked s2 Hassert. bind_inv_as H non_metric s3 Hnon_metric.
  bind_inv_as H computed s4 Hcomputed.
  bind_inv_as H from_source s5 Hsource. unfold ret in H. inversion H; subst; clear H.
  exists from_data_set, s1, computed. split; [exact Hparent |]. split; [| split].
  - intros ->. apply assert_that_returned in Hassert as [Hcond _]. simpl in Hcond.
    apply andb_true_iff in Hcond as [Hone Hentity].
    apply Nat.eqb_eq in Hone, Hentity. split; [exact Hone |].
    simpl in Hentity. now rewrite length_map in Hentity.
  - apply for_each_returned in Hcomputed. exact Hcomputed.
  - reflexivity.
Qed.

Lemma last_group_by_metric_instance_in l acc g :
  fold_left (fun acc c => match c with AsGroupByMetric i => Some i | AsMetric _ => acc end)
    l acc = Some g ->
  acc = Some g \/ In (AsGroupByMetric g) l.
Proof.
  revert acc. induction l as [| c l IH]; intros acc H; simpl in H; [now left |].
  apply IH in H as [H | H]; [| right; now right].
  destruct c as [i | i]; [now left |]. injection H as <-. right. now left.
Qed.

Lemma computed_metric_instances_in l i :
  In i (computed_metric_instances l) -> In (AsMetric i) l.
Proof.
  unfold computed_metric_instances. intro H. apply in_flat_map in H as (c & Hc & Hi).
  destruct c as [j | j]; [| destruct Hi]. destruct Hi as [<- | []]. exact Hc.
Qed.

Lemma Forall2_in_right {A B} (P : A -> B -> Prop) xs ys y :
  Forall2 P xs ys -> In y ys -> exists x, In x xs /\ P x y.
Proof.
  induction 1 as [| x0 y0 xs ys H0 _ IH]; intros Hin; [destruct Hin |].
  destruct Hin as [<- | Hin].
  - exists x0. split; [now left | exact H0].
  - destruct (IH Hin) as (x & Hx & Hp). exists x. split; [now right | exact Hp].
Qed.

Lemma metrics_base_in_resolver_format set : in_resolver_format (metrics_base set).
Proof.
  unfold metrics_base.
  destruct (ChangeAssociatedColumns_in_resolver_format (RemoveMeasures set))
    as (Hm & Hd & Ht & He & Hg & Hk & Hx).
  repeat split; simpl; auto.
Qed.

Lemma visit_compute_metrics_node_in_resolver_format
    description parent_node node_metric_specs for_group_by s out s' :
  visit_compute_metrics_node description parent_node node_metric_specs for_group_by s
  = Returned out s' ->
  in_resolver_format (instance_set out).
Proof.
  intro H. apply visit_compute_metrics_node_inversion in H
    as (from_data_set & s1 & computed & _ & _ & Hcomputed & ->).
  destruct (metrics_base_in_resolver_format (instance_set from_data_set))
    as (Hm & Hd & Ht & He & Hg & Hk & Hx).
  assert (Hall : forall c, In c (map snd computed) ->
                   exists metric_spec, computed_in_resolver_format metric_spec c).
  { intros c Hc. apply in_map_iff in Hc as ([column c0] & <- & Hin).
    destruct (Forall2_in_right _ _ _ _ Hcomputed Hin) as (ms & _ & s0 & s2 & Hrun).
    exists ms. now apply compute_metric_instance in Hrun as [Hformat _]. }
  destruct (last_group_by_metric_instance (map snd computed)) as [g |] eqn:Hlast.
  - apply last_group_by_metric_instance_in in Hlast as [Hlast | Hlast]; [discriminate |].
    destruct (Hall _ Hlast) as (ms & _ & Hcolumn).
    repeat split; simpl; auto.
    apply (proj2 (Forall_app _ _ _)). split; [exact Hg |].
    constructor; [exact Hcolumn | constructor].
  - repeat split; simpl; auto.
    apply Forall_forall. intros i Hi. apply computed_metric_instances_in in Hi.
    destruct (Hall _ Hi) as (ms & Hspec & Hcolumn). simpl in Hspec, Hcolumn.
    now rewrite Hspec.
Qed.

(** The nodes whose handler re-resolves the columns of its output: all but
    the source, the join on entities, the join to the time spine, the
    generated UUID column and the writes. *)
Definition re_resolves (node : DataflowPlanNode) : bool :=
  match node with
  | ReadSqlSourceNode _ | JoinOnEntitiesNode _ _ _ | JoinToTimeSpineNode _ _
  | AddGeneratedUuidColumnNode _ | WriteToResultDataTableNode _
  | WriteToResultTableNode _ _ => false
  | _ => true
  end.

Lemma visit_min_max_node_instance_set description parent_node s out s' :
  visit_min_max_node description parent_node s = Returned out s' ->
  exists parent_data_set s1 parent_select parent_column,
    parent_node s = Returned parent_data_set s1
    /\ sql_node parent_data_set = SqlSelectStatementNode parent_select
    /\ select_columns parent_select = [parent_column]
    /\ instance_set out
       = mkInstanceSet [] [] [] [] [] []
           (map (fun agg_type =>
                   let metadata_spec :=
                     MetadataSpec_from_name (column_alias parent_column) (Some agg_type) in
                   mkInstance [resolve_spec (OfMetadata metadata_spec)] metadata_spec tt)
              [AGG_MIN; AGG_MAX]).
Proof.
  intro H. unfold visit_min_max_node in H.
  bind_inv_as H parent_data_set s1 Hp. rewrite next_alias_step in H.
  bind_inv_as H parent_select s2 Hselect.
  unfold checked_sql_select_node in Hselect.
  destruct (sql_node parent_data_set) as [select | |] eqn:Hnode; try discriminate.
  unfold ret in Hselect. inversion Hselect; subst; clear Hselect.
  destruct (select_columns parent_select) as [| c [| c' l]] eqn:Hcolumns; try discriminate.
  unfold ret in H. inversion H; subst; clear H.
  exists parent_data_set, s1, parent_select, c.
  split; [exact Hp |]. split; [exact Hnode |]. split; [exact Hcolumns | reflexivity].
Qed.

(** The handlers that re-resolve their output return instance sets in
    the resolver's format: every instance has the one column the resolver
    gives its spec, whatever columns the parent's instances had. *)
Theorem re_resolved_output_in_resolver_format node s out s' :
  re_resolves node = true ->
  accept node s = Returned out s' ->
  in_resolver_format (instance_set out).
Proof.
  intros Hkind H.
  destruct node; simpl in Hkind; try discriminate Hkind; clear Hkind; simpl in H.
  - apply visit_aggregate_measures_node_instance_set in H as (d & s1 & _ & ->).
    destruct (any_alias _).
    + apply ChangeAssociatedColumns_in_resolver_format.
    + apply UpdateMeasureFillNullsWith_in_resolver_format,
        ChangeAssociatedColumns_in_resolver_format.
  - now apply visit_compute_metrics_node_in_resolver_format in H.
  - apply visit_constrain_time_range_node_returned in H as (d & s1 & _ & ->).
    apply ChangeAssociatedColumns_in_resolver_format.
  - unfold visit_metric_time_dimension_transform_node in H. run_steps H.
    apply ChangeAssociatedColumns_in_resolver_format.
  - apply visit_join_over_time_range_node_returned in H as (d & s1 & _ & ->).
    apply ChangeAssociatedColumns_in_resolver_format.
  - apply visit_order_by_limit_node_returned in H as (d & s1 & _ & ->).
    apply ChangeAssociatedColumns_in_resolver_format.
  - apply visit_filter_elements_node_returned in H as (d & s1 & _ & ->).
    apply ChangeAssociatedColumns_in_resolver_format.
  - apply visit_where_constraint_node_returned in H as (d & s1 & _ & ->).
    apply ChangeAssociatedColumns_in_resolver_format.
  - unfold visit_combine_aggregated_outputs_node in H. run_steps H.
    apply ChangeAssociatedColumns_in_resolver_format.
  - apply visit_semi_additive_join_node_returned in H as (d & s1 & _ & ->).
    apply ChangeAssociatedColumns_in_resolver_format.
  - apply visit_min_max_node_instance_set in H as (d & s1 & sel & c & _ & _ & _ & ->).
    repeat split; simpl; auto.
  - apply visit_join_conversion_events_node_returned in H as (d & s1 & c & _ & ->).
    apply ChangeAssociatedColumns_in_resolver_format.
Qed.


(* ------------------------------------------------------------------ *)
(** *** Compute metrics *)

(** What the metric loop asserts of a metric, by type. *)
Definition metric_is_valid (metric : Metric) : bool :=
  match type metric with
  | RATIO =>
      is_some (numerator (type_params metric)) && is_some (denominator (type_params metric))
  | SIMPLE => (length (input_measures metric) <=? 1)%nat
  | CUMULATIVE =>
      (length (measure_references metric) =? 1)%nat
      && negb (length (input_measures metric) =? 0)%nat
  | DERIVED =>
      match type_expr (type_params metric) with
      | Some e => negb (String.eqb e EmptyString)
      | None => false
      end
  | CONVERSION => is_some (conversion_type_params (type_params metric))
  end.

Lemma compute_metric_expr_returned metric alias s e s' :
  compute_metric_expr metric alias s = Returned e s' -> metric_is_valid metric = true.
Proof.
  unfold compute_metric_expr, metric_is_valid. intro H.
  destruct (type metric).
  - destruct (input_measures metric) as [| im [| ? ?]]; try discriminate; reflexivity.
  - destruct (numerator (type_params metric)), (denominator (type_params metric));
      try discriminate; reflexivity.
  - bind_inv H. apply assert_that_returned in E as [-> _].
    destruct (input_measures metric); [discriminate | reflexivity].
  - destruct (type_expr (type_params metric)); [| discriminate].
    bind_inv H. now apply assert_that_returned in E as [-> _].
  - destruct (conversion_type_params (type_params metric)); [reflexivity | discriminate].
Qed.

Lemma compute_metric_expr_of_valid metric alias :
  metric_is_valid metric = true ->
  exists e, forall s, compute_metric_expr metric alias s = Returned e s.
Proof.
  unfold compute_metric_expr, metric_is_valid. intro H.
  destruct (type metric).
  - destruct (input_measures metric) as [| im [| ? ?]]; try discriminate;
      eexists; intros ?; reflexivity.
  - destruct (numerator (type_params metric)), (denominator (type_params metric));
      try discriminate. eexists; intros ?; reflexivity.
  - apply andb_true_iff in H as [Hone Hnonempty]. rewrite Hone.
    destruct (input_measures metric); [discriminate |].
    eexists; intros ?; reflexivity.
  - destruct (type_expr (type_params metric)); [| discriminate]. rewrite H.
    eexists; intros ?; reflexivity.
  - destruct (conversion_type_params (type_params metric)) as [params |]; [| discriminate].
    destruct (calculation params); eexists; intros ?; reflexivity.
Qed.

Lemma for_each_total {A B} (f : A -> Conv B) xs :
  (forall x, In x xs -> exists y, forall s, f x s = Returned y s) ->
  exists ys, forall s, for_each f xs s = Returned ys s.
Proof.
  induction xs as [| x xs IH]; intro H; simpl.
  - exists []. reflexivity.
  - destruct (H x (or_introl eq_refl)) as (y & Hy).
    destruct IH as (ys & Hys); [intros x' Hx'; apply H; now right |].
    exists (y :: ys). intro s.
    rewrite (bind_step _ (Hy s)), (bind_step _ (Hys s)). reflexivity.
Qed.

(** A compute-metrics node that is not built for a group-by source
    converts exactly when every metric it names passes the checks of its
    type: a ratio metric has numerator and denominator, a simple metric at
    most one input measure, a cumulative metric one measure, a derived
    metric a non-empty expression and a conversion metric its conversion
    parameters. *)
Theorem compute_metrics_converts_iff_metrics_valid
    description parent_node node_metric_specs s from_data_set s1 from_select :
  parent_node s = Returned from_data_set s1 ->
  sql_node from_data_set = SqlSelectStatementNode from_select ->
  (exists out s',
      visit_compute_metrics_node description parent_node node_metric_specs false s
      = Returned out s')
  <-> forallb (fun metric_spec => metric_is_valid (get_metric (metric_element_name metric_spec)))
        node_metric_specs = true.
Proof.
  intros Hparent Hselect. split.
  - intros (out & s' & H).
    apply visit_compute_metrics_node_inversion in H
      as (d & s2 & computed & _ & _ & Hcomputed & _).
    apply forallb_forall. intros metric_spec Hin.
    induction Hcomputed as [| ms c specs computed (sa & sb & Hrun) _ IH]; [destruct Hin |].
    destruct Hin as [<- | Hin]; [| now apply IH].
    unfold compute_metric in Hrun. bind_inv Hrun.
    now apply compute_metric_expr_returned in E.
  - intro Hvalid. rewrite forallb_forall in Hvalid.
    unfold visit_compute_metrics_node.
    rewrite (bind_step _ Hparent), next_alias_step. simpl negb. simpl orb.
    unfold assert_that at 1. rewrite ret_step.
    fold (metrics_base (instance_set from_data_set)).
    rewrite (bind_step _
      (CreateSelectColumnsForInstances_returns (alias_of_index s1) []
         (metrics_base (instance_set from_data_set)) (S s1)
         (single_columns_RemoveMetrics _
            (ChangeAssociatedColumns_single_columns _)))).
    destruct (for_each_total
                (compute_metric false (metrics_base (instance_set from_data_set))
                   (alias_of_index s1))
                node_metric_specs) as (computed & Hcomputed).
    { intros metric_spec Hin. unfold compute_metric.
      destruct (compute_metric_expr_of_valid
                  (get_metric (metric_element_name metric_spec)) (alias_of_index s1)
                  (Hvalid _ Hin)) as (e & He).
      eexists. intro s0. rewrite (bind_step _ (He s0)). reflexivity. }
    rewrite (bind_step _ (Hcomputed (S s1))).
    unfold checked_sql_select_node. rewrite Hselect, ret_step.
    eexists. eexists. reflexivity.
Qed.

Lemma computed_metrics_of_plain_loop set alias specs computed :
  Forall2
    (fun metric_spec c =>
       exists s0 s2, compute_metric false set alias metric_spec s0 = Returned c s2)
    specs computed ->
  last_group_by_metric_instance (map snd computed) = None
  /\ map (fun i => spec i) (computed_metric_instances (map snd computed)) = specs.
Proof.
  intro H.
  assert (Hshape : Forall2 (fun ms c => exists i, snd c = AsMetric i /\ spec i = ms)
                     specs computed).
  { eapply Forall2_impl; [| exact H]. intros ms [column c] (s0 & s2 & Hrun).
    apply compute_metric_instance in Hrun as (Hformat & i & ->).
    exists i. split; [reflexivity |]. now destruct Hformat. }
  clear H. split.
  - unfold last_group_by_metric_instance.
    induction Hshape as [| ms c specs computed (i & Hc & _) _ IH]; [reflexivity |].
    simpl. rewrite Hc. exact IH.
  - induction Hshape as [| ms c specs computed (i & Hc & Hspec) _ IH]; [reflexivity |].
    simpl. rewrite Hc. simpl. now rewrite Hspec, IH.
Qed.

(** The metrics of a compute-metrics node that is not built for a group-by
    source are the node's metric specs, in the order given: the parent's
    metric instances and measure instances are not in the output. *)
Theorem compute_metrics_output_metrics
    description parent_node node_metric_specs s out s' :
  visit_compute_metrics_node description parent_node node_metric_specs false s
  = Returned out s' ->
  map (fun i => spec i) (metric_instances (instance_set out)) = node_metric_specs
  /\ measure_instances (instance_set out) = [].
Proof.
  intro H. apply visit_compute_metrics_node_inversion in H
    as (d & s1 & computed & _ & _ & Hcomputed & ->).
  apply computed_metrics_of_plain_loop in Hcomputed as [-> Hspecs].
  split; [exact Hspecs | reflexivity].
Qed.

(** A compute-metrics node built for a group-by source converts only with
    one metric spec and a parent with one entity instance; its output has
    no metric instance, and one more group-by-metric instance than its
    parent: the metric under the entity's links followed by the entity. *)
Theorem compute_metrics_for_group_by_source
    description parent_node node_metric_specs s out s' :
  visit_compute_metrics_node description parent_node node_metric_specs true s
  = Returned out s' ->
  exists from_data_set s1 metric_spec entity_instance new_instance,
    parent_node s = Returned from_data_set s1
    /\ node_metric_specs = [metric_spec]
    /\ entity_instances (instance_set from_data_set) = [entity_instance]
    /\ metric_instances (instance_set out) = []
    /\ group_by_metric_instances (instance_set out)
       = map (with_resolved_columns OfGroupByMetric)
           (group_by_metric_instances (instance_set from_data_set))
         ++ [new_instance]
    /\ spec new_instance
       = mkGroupByMetricSpec (metric_element_name metric_spec) []
           (entity_entity_links (spec entity_instance)
              ++ [entity_element_name (spec entity_instance)]).
Proof.
  intro H. apply visit_compute_metrics_node_inversion in H
    as (d & s1 & computed & Hparent & Hone & Hcomputed & Hout).
  destruct (Hone eq_refl) as [Hspecs Hentities].
  destruct node_metric_specs as [| metric_spec [| ? ?]]; try discriminate Hspecs.
  destruct (entity_instances (instance_set d)) as [| entity_instance [| ? ?]] eqn:He;
    try discriminate Hentities.
  inversion Hcomputed as [| ms c l l' (s0 & s2 & Hrun) Hrest]; subst.
  inversion Hrest; subst. destruct c as [column c].
  apply compute_metric_instance in Hrun as (_ & i & e & rest & -> & Hfirst & Hspec).
  simpl in Hfirst. rewrite He in Hfirst. simpl in Hfirst.
  injection Hfirst as <- <-.
  exists d, s1, metric_spec, entity_instance, i.
  split; [exact Hparent |]. split; [reflexivity |]. split; [exact He |].
  rewrite Hout. simpl. repeat split. exact Hspec.
Qed.


(* ------------------------------------------------------------------ *)
(** *** Min and max *)

(** Over a parent SELECT with one column the min-max node returns two
    metadata instances and nothing else, and the MIN and the MAX of that
    column as its select columns; over a parent SELECT with no column or
    with several it raises. *)
Theorem min_max_needs_one_parent_column
    description parent_node s parent_data_set s1 parent_select :
  parent_node s = Returned parent_data_set s1 ->
  sql_node parent_data_set = SqlSelectStatementNode parent_select ->
  match select_columns parent_select with
  | [parent_column] =>
      exists out select,
        visit_min_max_node description parent_node s = Returned out (S s1)
        /\ map (fun i => spec i) (metadata_instances (instance_set out))
           = [MetadataSpec_from_name (column_alias parent_column) (Some AGG_MIN);
              MetadataSpec_from_name (column_alias parent_column) (Some AGG_MAX)]
        /\ all_specs (spec_set (instance_set out))
           = map OfMetadata (map (fun i => spec i) (metadata_instances (instance_set out)))
        /\ sql_node out = SqlSelectStatementNode select
        /\ map expr (select_columns select)
           = map (fun agg_type =>
                    build_expression_from_aggregation_type agg_type
                      (column_reference (alias_of_index s1) (column_alias parent_column)))
               [AGG_MIN; AGG_MAX]
        /\ from_source select = SqlSelectStatementNode parent_select
  | _ =>
      visit_min_max_node description parent_node s
      = Raised (AssertionError "MinMaxNode supports exactly one parent select column.")
  end.
Proof.
  intros Hparent Hselect. unfold visit_min_max_node.
  rewrite (bind_step _ Hparent), next_alias_step.
  unfold checked_sql_select_node. rewrite Hselect, ret_step.
  destruct (select_columns parent_select) as [| c [| c' l]]; try reflexivity.
  unfold ret. eexists. eexists. split; [reflexivity |].
  repeat split.
Qed.

(* ------------------------------------------------------------------ *)
(** *** Combine aggregated outputs *)

(** With no parent or with one parent the combine node raises before it
    converts any parent. *)
Theorem combine_needs_two_parents description parent_nodes s :
  length parent_nodes <= 1 ->
  visit_combine_aggregated_outputs_node description parent_nodes s
  = Raised
      (AssertionError
         "Shouldn't have a CombineAggregatedOutputsNode in the dataflow plan if there's only 1 parent.").
Proof.
  intro H. unfold visit_combine_aggregated_outputs_node.
  destruct parent_nodes as [| p [| q l]]; try reflexivity. simpl in H. lia.
Qed.

Lemma mem_true {A} (A_eq_dec : forall a b : A, {a = b} + {a <> b}) x l :
  mem A_eq_dec x l = true -> In x l.
Proof. unfold mem. destruct (in_dec A_eq_dec x l); [auto | discriminate]. Qed.

Lemma same_spec_set_true a b :
  same_spec_set a b = true -> forall x, In x a <-> In x b.
Proof.
  unfold same_spec_set. intro H. apply andb_true_iff in H as [Hab Hba].
  rewrite forallb_forall in Hab, Hba. intro x. split; intro Hx.
  - exact (mem_true _ _ _ (Hab x Hx)).
  - exact (mem_true _ _ _ (Hba x Hx)).
Qed.

Lemma combine_joins_length from_data_set join_type column_names join_data_sets aliases_seen :
  length (combine_joins from_data_set join_type column_names join_data_sets aliases_seen)
  = length join_data_sets.
Proof.
  revert aliases_seen. induction join_data_sets as [| d l IH]; intro aliases_seen; simpl;
    [reflexivity | now rewrite IH].
Qed.

Lemma combine_parents_returned (parents : list (Conv SqlDataSet)) :
  forall s annotated s',
    for_each
      (fun parent_node =>
         parent_sql_data_set <- parent_node ;;
         table_alias <- _next_unique_table_alias ;;
         ret (mkAnnotatedSqlDataSet parent_sql_data_set table_alias None))
      parents s = Returned annotated s' ->
    Forall2 (fun parent a => exists s0 s1, parent s0 = Returned (data_set a) s1)
      parents annotated.
Proof.
  intros s annotated s' H. apply for_each_returned in H.
  eapply Forall2_impl; [| exact H]. intros parent a (s0 & s1 & Hrun).
  bind_inv_as Hrun d s2 Hd. rewrite next_alias_step in Hrun.
  unfold ret in Hrun. inversion Hrun; subst. simpl. eauto.
Qed.

(** A combine node that converts has at least two parents, all with the
    linkable specs of the first; it reads from the first parent and joins
    each of the others once, and its instance set is the merge of its
    parents' instance sets, in the resolver's format.  The GROUP BY columns
    are the linkable specs' columns. *)
Theorem combine_joins_parents_of_equal_linkable_specs description parent_nodes s out s' :
  visit_combine_aggregated_outputs_node description parent_nodes s = Returned out s' ->
  exists first others select,
    Forall2 (fun parent d => exists s0 s1, parent s0 = Returned d s1)
      parent_nodes (first :: others)
    /\ others <> []
    /\ (forall d x,
          In d others ->
          In x (linkable_specs (spec_set (instance_set d)))
          <-> In x (linkable_specs (spec_set (instance_set first))))
    /\ instance_set out
       = ChangeAssociatedColumns (merge (map instance_set (first :: others)))
    /\ sql_node out = SqlSelectStatementNode select
    /\ from_source select = sql_node first
    /\ length (joins_descs select) = length others
    /\ map column_alias (group_bys select)
       = map resolved_name
           (map OfTimeDimension (time_dimension_specs (spec_set (instance_set first)))
            ++ map OfEntity (entity_specs (spec_set (instance_set first)))
            ++ map OfDimension (dimension_specs (spec_set (instance_set first)))
            ++ map OfGroupByMetric
                 (group_by_metric_specs (spec_set (instance_set first)))).
Proof.
  intro H. unfold visit_combine_aggregated_outputs_node in H.
  bind_inv_as H u s1 Hassert. apply assert_that_returned in Hassert as [Hlen ->].
  bind_inv_as H annotated s2 Hparents. pose proof Hparents as Hcount.
  apply combine_parents_returned in Hparents.
  destruct annotated as [| from_data_set join_data_sets]; [discriminate |].
  bind_inv_as H u2 s3 Hsame. apply assert_that_returned in Hsame as [Hsame ->].
  bind_inv_as H from_select s4 Hfrom. unfold ret in H. inversion H; subst; clear H.
  unfold checked_sql_select_node in Hfrom.
  destruct (sql_node (data_set from_data_set)) as [sel | |] eqn:Hnode; try discriminate.
  unfold ret in Hfrom. inversion Hfrom; subst; clear Hfrom.
  exists (data_set from_data_set), (map data_set join_data_sets). eexists.
  split; [| split; [| split; [| split; [| split; [reflexivity | split; [| split]]]]]].
  - change (data_set from_data_set :: map data_set join_data_sets)
      with (map data_set (from_data_set :: join_data_sets)).
    clear - Hparents. induction Hparents; simpl; constructor; auto.
  - apply Forall2_length in Hparents. simpl in Hparents.
    apply Nat.ltb_lt in Hlen.
    destruct join_data_sets; [simpl in Hparents; exfalso; unfold Conv in *; lia | discriminate].
  - intros d x Hd. apply in_map_iff in Hd as (a & <- & Ha).
    rewrite forallb_forall in Hsame. apply same_spec_set_true. now apply Hsame.
  - simpl. now rewrite map_map.
  - simpl. now rewrite Hnode.
  - simpl. now rewrite combine_joins_length, length_map.
  - simpl. unfold as_tuple, CreateSelectCoalescedColumnsForLinkableSpecs. simpl.
    rewrite !app_nil_r, !map_app, !map_map. reflexivity.
Qed.


(* ------------------------------------------------------------------ *)
(** *** Join over a time range *)

(** When no time-dimension instance of the parent has the spec to join on,
    the join over a time range raises. *)
Theorem join_over_time_range_needs_time_dimension node parent_node s input_data_set s1 :
  parent_node s = Returned input_data_set s1 ->
  (forall i, In i (time_dimension_instances (instance_set input_data_set)) ->
             spec i <> time_dimension_spec_for_join node) ->
  visit_join_over_time_range_node node parent_node s
  = Raised
      (AssertionError
         "Specified metric time spec not found in parent data set. This should have been caught by validations.").
Proof.
  intros Hparent Hnone. unfold visit_join_over_time_range_node.
  rewrite (bind_step _ Hparent), next_alias_step.
  destruct (find _ _) as [i |] eqn:Hfind; [| reflexivity].
  apply find_some in Hfind as [Hin Hspec].
  destruct (TimeDimensionSpec_eq_dec (spec i) (time_dimension_spec_for_join node));
    [| discriminate].
  exfalso. now apply (Hnone i).
Qed.

Lemma spec_set_ChangeAssociatedColumns set :
  spec_set (ChangeAssociatedColumns set) = spec_set set.
Proof.
  unfold spec_set, ChangeAssociatedColumns; simpl.
  rewrite !map_map. reflexivity.
Qed.

(** The time spine data set: one instance, one column under the
    resolver's name, read from the time spine table under a fresh alias. *)
Lemma _make_time_spine_data_set_shape instance source constraint s :
  exists select,
    _make_time_spine_data_set instance source constraint s
    = Returned (mkSqlDataSet (mkInstanceSet [] [] [instance] [] [] [] [])
                  (SqlSelectStatementNode select)) (S s)
    /\ from_source select = SqlTableFromClauseNode (spine_table source)
    /\ from_source_alias select = alias_of_index s
    /\ map column_alias (select_columns select)
       = [resolved_name (OfTimeDimension (spec instance))].
Proof.
  unfold _make_time_spine_data_set. rewrite next_alias_step. unfold ret.
  destruct (TimeGranularity_eq_dec _ _); eexists; repeat split.
Qed.

(** A join over a time range that converts reads FROM the time spine
    table, joins its parent once, and returns the parent's specs. *)
Theorem join_over_time_range_reads_from_time_spine node parent_node s out s' :
  visit_join_over_time_range_node node parent_node s = Returned out s' ->
  exists input_data_set s1 select spine_select,
    parent_node s = Returned input_data_set s1
    /\ s' = s1 + 3
    /\ spec_set (instance_set out) = spec_set (instance_set input_data_set)
    /\ sql_node out = SqlSelectStatementNode select
    /\ from_source select = SqlSelectStatementNode spine_select
    /\ from_source spine_select = SqlTableFromClauseNode (spine_table _time_spine_source)
    /\ from_source_alias select = alias_of_index (S s1)
    /\ from_source_alias spine_select = alias_of_index (S (S s1))
    /\ length (joins_descs select) = 1.
Proof.
  intro H. unfold visit_join_over_time_range_node in H.
  bind_inv_as H input_data_set s1 Hp. rewrite next_alias_step in H.
  destruct (find _ _) as [instance |]; [| discriminate].
  rewrite next_alias_step in H.
  destruct (_make_time_spine_data_set_shape instance _time_spine_source
              (over_time_range_constraint node) (S (S s1)))
    as (spine_select & Hspine & Hfrom & Halias & _).
  rewrite (bind_step _ Hspine) in H.
  bind_inv_as H metric_time_column s2 Hmetric.
  apply keeps_counter_column_association_for_time_dimension in Hmetric. subst s2.
  bind_inv_as H spine_time_column s3 Hcolumn.
  apply keeps_counter_column_association_for_time_dimension in Hcolumn. subst s3.
  bind_inv_as H columns s4 Hcolumns.
  apply keeps_counter_create_select_columns_for_instance_sets in Hcolumns. subst s4.
  unfold checked_sql_select_node in H. simpl in H. rewrite ret_step in H.
  unfold ret in H. inversion H; subst; clear H.
  exists input_data_set, s1. eexists. exists spine_select.
  split; [exact Hp |]. split; [lia |].
  split; [apply spec_set_ChangeAssociatedColumns |].
  split; [reflexivity |]. simpl. repeat split; auto.
Qed.


(* ------------------------------------------------------------------ *)
(** *** Join to the time spine: what it needs and when it filters *)

(** When every instance of the aggregation time dimension in the parent
    carries a date part (or there is none at all), there is no instance to
    join on and the handler raises. *)
Theorem join_to_time_spine_needs_instance_without_date_part
    node parent_node s parent_data_set s1 agg_time_element_name agg_time_entity_links :
  parent_node s = Returned parent_data_set s1 ->
  agg_time_dimension_of node (S s1)
  = Returned (agg_time_element_name, agg_time_entity_links) (S s1) ->
  (forall i,
     In i (time_dimension_instances (instance_set parent_data_set)) ->
     is_agg_time_dimension agg_time_element_name agg_time_entity_links i = true ->
     date_part (spec i) <> None) ->
  visit_join_to_time_spine_node node parent_node s
  = Raised
      (AssertionError
         "Couldn't find requested agg_time_dimension in parent data set. The dataflow plan may have been configured incorrectly.").
Proof.
  intros Hparent Hagg Hnone. unfold visit_join_to_time_spine_node.
  rewrite (bind_step _ Hparent), next_alias_step, (bind_step _ Hagg).
  unfold agg_time_dimension_instances_for_join.
  replace (filter _ (time_dimension_instances (instance_set parent_data_set))) with
    (@nil TimeDimensionInstance); [reflexivity |].
  symmetry. induction (time_dimension_instances (instance_set parent_data_set))
    as [| i l IH]; [reflexivity |].
  simpl. rewrite IH by (intros j Hj; apply Hnone; now right).
  destruct (is_agg_time_dimension agg_time_element_name agg_time_entity_links i) eqn:Hi.
  - specialize (Hnone i (or_introl eq_refl) Hi).
    destruct (date_part (spec i)); [reflexivity | contradiction].
  - now rewrite andb_false_r.
Qed.

Lemma time_spine_loop_without_filter node alias original to_select :
  forall columns instances where_filter s columns' instances' where_filter' s',
    time_spine_loop node alias original false to_select columns instances where_filter s
    = Returned (columns', instances', where_filter') s' ->
    where_filter' = where_filter.
Proof.
  induction to_select as [| t rest IH]; intros columns instances wf s columns' instances' wf' s' H;
    simpl in H.
  - unfold ret in H. now inversion H.
  - destruct (_ <? _)%Z; [discriminate |].
    bind_inv H. now apply IH in H.
Qed.

(** Without [offset_to_grain] the join to the time spine has no WHERE
    clause. *)
Theorem join_to_time_spine_filters_only_with_offset_to_grain node parent_node s out s' :
  visit_join_to_time_spine_node node parent_node s = Returned out s' ->
  offset_to_grain node = None ->
  exists select,
    sql_node out = SqlSelectStatementNode select
    /\ where_clause select = None
    /\ length (joins_descs select) = 1.
Proof.
  intros H Hoffset. unfold visit_join_to_time_spine_node in H.
  bind_inv_as H parent_data_set s1 Hp. rewrite next_alias_step in H.
  bind_inv_as H agg s2 Hagg. destruct agg as [agg_name agg_links].
  destruct (agg_time_dimension_instances_for_join _ _ _); [discriminate |].
  rewrite next_alias_step in H.
  bind_inv H. bind_inv H. bind_inv H. bind_inv H. bind_inv H.
  destruct (time_dimension_instances (instance_set a)); [discriminate |].
  bind_inv_as H looped s8 Hloop. destruct looped as [[cols insts] where_filter].
  rewrite Hoffset in Hloop. simpl in Hloop.
  apply time_spine_loop_without_filter in Hloop. subst where_filter.
  unfold ret in H. inversion H; subst; clear H.
  eexists. repeat split.
Qed.

(* ------------------------------------------------------------------ *)
(** *** Metric time dimension transform: the measures it keeps *)

(** The aggregation time dimension that the semantic model of a measure
    declares for it; nothing when the semantic model is not found. *)
Definition agg_time_dimension_for_measure (m : MeasureInstance)
  : option TimeDimensionReference :=
  match get_by_reference (semantic_model_name (origin_semantic_model_reference m)) with
  | Some semantic_model =>
      Some (checked_agg_time_dimension_for_measure semantic_model
              (measure_reference (measure_spec m)))
  | None => None
  end.

Definition has_agg_time_dimension (reference : TimeDimensionReference) (m : MeasureInstance)
  : bool :=
  match agg_time_dimension_for_measure m with
  | Some r => if string_dec r reference then true else false
  | None => false
  end.

Lemma has_agg_time_dimension_found reference m model :
  get_by_reference (semantic_model_name (origin_semantic_model_reference m)) = Some model ->
  has_agg_time_dimension reference m
  = if string_dec (checked_agg_time_dimension_for_measure model
                     (measure_reference (measure_spec m))) reference
    then true else false.
Proof.
  intro H. unfold has_agg_time_dimension, agg_time_dimension_for_measure. now rewrite H.
Qed.

Lemma output_measure_instances_of_filter reference measures s kept s' :
  output_measure_instances_of reference measures s = Returned kept s' ->
  kept = filter (has_agg_time_dimension reference) measures
  /\ Forall (fun m => agg_time_dimension_for_measure m <> None) measures.
Proof.
  revert s kept s'. induction measures as [| m measures IH]; intros s kept s' H; simpl in H.
  - unfold ret in H. inversion H. split; [reflexivity | constructor].
  - destruct (get_by_reference _) as [model |] eqn:Hmodel; [| discriminate].
    bind_inv H. apply IH in E as [-> Hall].
    unfold ret in H. inversion H; subst; clear H. split.
    + cbn [filter]. rewrite (has_agg_time_dimension_found reference m model Hmodel).
      now destruct (string_dec _ _).
    + constructor; [| exact Hall].
      unfold agg_time_dimension_for_measure. rewrite Hmodel. discriminate.
Qed.

Lemma output_measure_instances_of_missing reference measures s :
  (exists m, In m measures /\ agg_time_dimension_for_measure m = None) ->
  output_measure_instances_of reference measures s
  = Raised (AssertionError "the semantic model that the measure was defined from can't be found").
Proof.
  intros (m & Hin & Hnone). revert s.
  induction measures as [| m0 measures IH]; intro s; [destruct Hin |]. simpl.
  destruct (get_by_reference (semantic_model_name (origin_semantic_model_reference m0)))
    as [model |] eqn:Hmodel; [| reflexivity].
  destruct Hin as [-> | Hin].
  - unfold agg_time_dimension_for_measure in Hnone. rewrite Hmodel in Hnone. discriminate.
  - now rewrite (bind_raised _ (IH Hin s)).
Qed.

(** The metric-time transform keeps exactly the parent's measures whose
    semantic model declares the node's aggregation time dimension for
    them, in the parent's order; it converts only when the semantic model
    of every measure of the parent is found. *)
Theorem metric_time_transform_keeps_matching_measures
    description parent_node reference s out s' :
  visit_metric_time_dimension_transform_node description parent_node reference s
  = Returned out s' ->
  exists input_data_set s1,
    parent_node s = Returned input_data_set s1
    /\ measure_instances (instance_set out)
       = map measure_with_resolved_columns
           (filter (has_agg_time_dimension reference)
              (measure_instances (instance_set input_data_set)))
    /\ Forall (fun m => agg_time_dimension_for_measure m <> None)
         (measure_instances (instance_set input_data_set)).
Proof.
  intro H. unfold visit_metric_time_dimension_transform_node in H.
  bind_inv_as H input_data_set s1 Hp.
  bind_inv_as H kept s2 Hkept. apply output_measure_instances_of_filter in Hkept as [-> Hall].
  bind_inv H. destruct a as [tds mapping]. rewrite next_alias_step in H.
  bind_inv H. bind_inv H. unfold ret in H. inversion H; subst; clear H.
  exists input_data_set, s1. repeat split; auto.
Qed.

(** When the semantic model of some measure of the parent is not found,
    the metric-time transform raises. *)
Theorem metric_time_transform_needs_semantic_models
    description parent_node reference s input_data_set s1 m :
  parent_node s = Returned input_data_set s1 ->
  In m (measure_instances (instance_set input_data_set)) ->
  get_by_reference (semantic_model_name (origin_semantic_model_reference m)) = None ->
  exists message,
    visit_metric_time_dimension_transform_node description parent_node reference s
    = Raised (AssertionError message).
Proof.
  intros Hparent Hin Hnone. unfold visit_metric_time_dimension_transform_node.
  rewrite (bind_step _ Hparent).
  assert (Hmissing : exists m0,
            In m0 (measure_instances (instance_set input_data_set))
            /\ agg_time_dimension_for_measure m0 = None).
  { exists m. split; [exact Hin |].
    unfold agg_time_dimension_for_measure. now rewrite Hnone. }
  rewrite (bind_raised _ (output_measure_instances_of_missing reference _ s1 Hmissing)).
  eexists. reflexivity.
Qed.


(* ------------------------------------------------------------------ *)
(** *** Filter elements *)

(** Membership in [all_specs], category by category. *)
Definition in_spec_set (x : InstanceSpec) (set : InstanceSpecSet) : Prop :=
  match x with
  | OfMeasure m => In m (measure_specs set)
  | OfDimension d => In d (dimension_specs set)
  | OfTimeDimension t => In t (time_dimension_specs set)
  | OfEntity e => In e (entity_specs set)
  | OfGroupByMetric g => In g (group_by_metric_specs set)
  | OfMetric k => In k (metric_specs set)
  | OfMetadata a => In a (metadata_specs set)
  end.

Lemma in_map_constructor {A} (inj : A -> InstanceSpec) (l : list A) x :
  In x (map inj l) <-> exists y, inj y = x /\ In y l.
Proof. apply in_map_iff. Qed.

Lemma in_all_specs x set : In x (all_specs set) <-> in_spec_set x set.
Proof.
  unfold all_specs. rewrite !in_app_iff, !in_map_constructor. split.
  - intro H.
    repeat (destruct H as [H | H]);
      destruct H as (y & <- & Hy); exact Hy.
  - destruct x; simpl; intro H; eauto 10.
Qed.

Lemma in_filtered_specs {I S} (spec_of : I -> S)
    (S_eq_dec : forall a b : S, {a = b} + {a <> b}) include (l : list I) x :
  In x (map spec_of (filter (fun i => mem S_eq_dec (spec_of i) include) l))
  <-> In x (map spec_of l) /\ In x include.
Proof.
  rewrite !in_map_iff. split.
  - intros (i & <- & Hi). apply filter_In in Hi as [Hi Hmem].
    split; [eauto | exact (mem_true _ _ _ Hmem)].
  - intros [(i & <- & Hi) Hin]. exists i. split; [reflexivity |].
    apply filter_In. split; [exact Hi | now apply mem_in].
Qed.

Lemma CreateSelectColumnsForInstances_length alias mapping set s columns s' :
  CreateSelectColumnsForInstances alias mapping set s = Returned columns s' ->
  length (as_tuple columns) = length (all_specs (spec_set set)).
Proof.
  intro H. unfold CreateSelectColumnsForInstances in H.
  bind_inv_as H metric_cols s1 Hk. bind_inv_as H measure_cols s2 Hm.
  bind_inv_as H dimension_cols s3 Hd. bind_inv_as H time_dimension_cols s4 Ht.
  bind_inv_as H entity_cols s5 He. bind_inv_as H group_by_metric_cols s6 Hg.
  bind_inv_as H metadata_cols s7 Hx. unfold ret in H. inversion H; subst; clear H.
  apply for_each_returned, Forall2_length in Hk, Hm, Hd, Ht, He, Hg, Hx.
  unfold as_tuple, all_specs, spec_set. simpl.
  rewrite !length_app, !length_map. lia.
Qed.

(** A filter-elements node returns the parent's instances whose spec is
    among the specs to include, and no other; its SELECT has one column
    per instance, and it groups by all of them exactly when distinct
    values are asked for. *)
Theorem filter_elements_keeps_included_specs
    description parent_node include_specs distinct s out s' :
  visit_filter_elements_node description parent_node include_specs distinct s
  = Returned out s' ->
  exists from_data_set s1 select,
    parent_node s = Returned from_data_set s1
    /\ sql_node out = SqlSelectStatementNode select
    /\ (forall x,
          In x (all_specs (spec_set (instance_set out)))
          <-> In x (all_specs (spec_set (instance_set from_data_set)))
              /\ In x (all_specs include_specs))
    /\ length (select_columns select) = length (all_specs (spec_set (instance_set out)))
    /\ group_bys select = (if distinct then select_columns select else [])
    /\ where_clause select = None.
Proof.
  intro H. unfold visit_filter_elements_node in H.
  bind_inv_as H from_data_set s1 Hp. rewrite next_alias_step in H.
  bind_inv_as H columns s2 Hcolumns. apply CreateSelectColumnsForInstances_length in Hcolumns.
  bind_inv H. unfold ret in H. inversion H; subst; clear H.
  exists from_data_set, s1. eexists.
  split; [exact Hp |]. split; [reflexivity |]. split; [| split; [exact Hcolumns | split]].
  - intro x. cbn [instance_set]. rewrite spec_set_ChangeAssociatedColumns, !in_all_specs.
    destruct x; simpl; apply in_filtered_specs.
  - reflexivity.
  - reflexivity.
Qed.


(* ------------------------------------------------------------------ *)
(** *** The SELECT exposes the columns of the output instances *)

(** The resolver's column names of the instances of a set, in the order
    the select columns are emitted. *)
Definition output_column_names (set : InstanceSet) : list string :=
  map (fun i => resolved_name (OfTimeDimension (spec i))) (time_dimension_instances set)
  ++ map (fun i => resolved_name (OfEntity (spec i))) (entity_instances set)
  ++ map (fun i => resolved_name (OfDimension (spec i))) (dimension_instances set)
  ++ map (fun i => resolved_name (OfGroupByMetric (spec i))) (group_by_metric_instances set)
  ++ map (fun i => resolved_name (OfMetric (spec i))) (metric_instances set)
  ++ map (fun m => resolved_name (OfMeasure (measure_spec m))) (measure_instances set)
  ++ map (fun i => resolved_name (OfMetadata (spec i))) (metadata_instances set).

Lemma for_each_column_aliases {Spec Origin} alias mapping
    (inj : Spec -> InstanceSpec) (l : list (Instance Spec Origin)) :
  forall s columns s',
    for_each (make_sql_column_expression alias mapping inj) l s = Returned columns s' ->
    map column_alias columns = map (fun i => resolved_name (inj (spec i))) l.
Proof.
  induction l as [| i l IH]; intros s columns s' H; simpl in H.
  - unfold ret in H. now inversion H.
  - bind_inv H. bind_inv H. unfold ret in H. inversion H; subst; clear H.
    simpl. rewrite (IH _ _ _ E0). f_equal.
    unfold make_sql_column_expression in E. bind_inv E.
    unfold ret in E. now inversion E.
Qed.

Lemma for_each_measure_column_aliases alias mapping (l : list MeasureInstance) :
  forall s columns s',
    for_each (make_sql_column_expression_for_measure alias mapping) l s
    = Returned columns s' ->
    map column_alias columns = map (fun m => resolved_name (OfMeasure (measure_spec m))) l.
Proof.
  induction l as [| m l IH]; intros s columns s' H; simpl in H.
  - unfold ret in H. now inversion H.
  - bind_inv H. bind_inv H. unfold ret in H. inversion H; subst; clear H.
    simpl. rewrite (IH _ _ _ E0). f_equal.
    unfold make_sql_column_expression_for_measure in E. bind_inv E.
    unfold ret in E. now inversion E.
Qed.

Lemma CreateSelectColumnsForInstances_aliases alias mapping set s columns s' :
  CreateSelectColumnsForInstances alias mapping set s = Returned columns s' ->
  map column_alias (as_tuple columns) = output_column_names set.
Proof.
  intro H. unfold CreateSelectColumnsForInstances in H.
  bind_inv_as H metric_cols s1 Hk. bind_inv_as H measure_cols s2 Hm.
  bind_inv_as H dimension_cols s3 Hd. bind_inv_as H time_dimension_cols s4 Ht.
  bind_inv_as H entity_cols s5 He. bind_inv_as H group_by_metric_cols s6 Hg.
  bind_inv_as H metadata_cols s7 Hx. unfold ret in H. inversion H; subst; clear H.
  apply for_each_column_aliases in Hk, Hd, Ht, He, Hg, Hx.
  apply for_each_measure_column_aliases in Hm.
  unfold as_tuple, output_column_names. simpl.
  rewrite !map_app. congruence.
Qed.

Lemma output_column_names_ChangeAssociatedColumns set :
  output_column_names (ChangeAssociatedColumns set) = output_column_names set.
Proof.
  unfold output_column_names, ChangeAssociatedColumns. simpl.
  rewrite !map_map. reflexivity.
Qed.

(** The select columns of [out] are named, one by one, as the resolver
    names the specs of the instances of [out]. *)
Definition select_exposes_instances (out : SqlDataSet) : Prop :=
  exists select,
    sql_node out = SqlSelectStatementNode select
    /\ map column_alias (select_columns select) = output_column_names (instance_set out).

Ltac exposes_created_columns handler H :=
  unfold handler in H; run_steps H;
  eexists; split; [reflexivity |];
  match goal with
  | E : CreateSelectColumnsForInstances _ _ _ _ = Returned _ _ |- _ =>
      apply CreateSelectColumnsForInstances_aliases in E; exact E
  end.

(** The nodes whose SELECT is built from the instance set they return. *)
Definition selects_output_instances (node : DataflowPlanNode) : bool :=
  match node with
  | ConstrainTimeRangeNode _ _ _ | MetricTimeDimensionTransformNode _ _ _
  | OrderByLimitNode _ _ _ _ | FilterElementsNode _ _ _ _ | WhereConstraintNode _ _ _
  | SemiAdditiveJoinNode _ _ | MinMaxNode _ _ | AddGeneratedUuidColumnNode _
  | JoinConversionEventsNode _ _ _ => true
  | _ => false
  end.

(** For the nodes that build their SELECT from the instance set they
    return, the SELECT has exactly one column per output instance, named as
    the resolver names the instance's spec, in the order time dimensions,
    entities, dimensions, group-by metrics, metrics, measures, metadata. *)
Theorem select_columns_follow_output_instances node s out s' :
  selects_output_instances node = true ->
  accept node s = Returned out s' ->
  select_exposes_instances out.
Proof.
  intros Hkind H.
  destruct node; simpl in Hkind; try discriminate Hkind; clear Hkind; simpl in H.
  - exposes_created_columns visit_constrain_time_range_node H.
  - exposes_created_columns visit_metric_time_dimension_transform_node H.
  - exposes_created_columns visit_order_by_limit_node H.
  - exposes_created_columns visit_filter_elements_node H.
  - exposes_created_columns visit_where_constraint_node H.
  - exposes_created_columns visit_semi_additive_join_node H.
  - unfold visit_min_max_node in H. run_steps H.
    eexists. split; reflexivity.
  - unfold visit_add_generated_uuid_column_node in H. run_steps H.
    eexists. split; [reflexivity |].
    match goal with
    | E : CreateSelectColumnsForInstances _ _ _ _ = Returned _ _ |- _ =>
        apply CreateSelectColumnsForInstances_aliases in E;
        cbn [select_columns select_statement sql_node instance_set];
        rewrite map_app, E
    end.
    unfold output_column_names, AddMetadata. simpl.
    rewrite map_app. simpl. now rewrite <- !app_assoc.
  - unfold visit_join_conversion_events_node in H. run_steps H.
    eexists. split; [reflexivity |].
    match goal with
    | E : CreateSelectColumnsForInstances _ _ (ChangeAssociatedColumns _) _ = Returned _ _
      |- _ => apply CreateSelectColumnsForInstances_aliases in E; exact E
    end.
Qed.


Lemma alias_of_measure_without_alias specs m :
  any_alias specs = false -> alias_of_measure specs m = None.
Proof.
  unfold any_alias, alias_of_measure. intro Hnone.
  destruct (find _ specs) as [i |] eqn:Hfind; [| reflexivity].
  apply find_some in Hfind as [Hin Hi].
  destruct (input_alias i) as [a |] eqn:Ha; [| reflexivity].
  destruct (MeasureSpec_eq_dec (input_measure_spec i) m); [| discriminate].
  assert (Hsome : existsb (fun i0 => match input_alias i0 with
                                     | Some a0 => negb (String.eqb a0 EmptyString)
                                     | None => false
                                     end) specs = true).
  { apply existsb_exists. exists i. split; [exact Hin |]. now rewrite Ha. }
  rewrite Hsome in Hnone. discriminate.
Qed.

Lemma aggregated_measure_specs specs set :
  map measure_spec (measure_instances (aggregated_instance_set specs set))
  = map measure_spec (measure_instances set).
Proof.
  unfold aggregated_instance_set. simpl. rewrite !map_map.
  apply map_ext. intro m. simpl.
  destruct (find_input_spec specs (measure_spec m)); reflexivity.
Qed.

(** The SELECT of an aggregate-measures node names its columns as the
    resolver names the specs of the instances the node returns: where a
    metric input measure spec carries an alias, the aggregated column and
    the measure instance are renamed alike, so that the nodes above find
    the measure under its alias. *)
Theorem aggregate_measures_select_names_output_instances
    description parent_node metric_input_measure_specs s out s' :
  visit_aggregate_measures_node description parent_node metric_input_measure_specs s
  = Returned out s' ->
  exists from_data_set s1,
    parent_node s = Returned from_data_set s1
    /\ select_exposes_instances out
    /\ map measure_spec (measure_instances (instance_set out))
       = map (fun m => output_measure_spec metric_input_measure_specs (measure_spec m))
           (measure_instances (instance_set from_data_set)).
Proof.
  intro H. unfold visit_aggregate_measures_node in H.
  bind_inv_as H from_data_set s1 Hp.
  rewrite (bind_step _
    (ChangeMeasureAggregationState_returns _ (fun _ => COMPLETE) _ _
       aggregate_state_changes_total)) in H.
  rewrite next_alias_step in H.
  fold (aggregated_instance_set metric_input_measure_specs (instance_set from_data_set)) in H.
  rewrite (bind_step _
    (CreateSelectColumnsWithMeasuresAggregated_returns _ metric_input_measure_specs
       (instance_set from_data_set) _)) in H.
  bind_inv H. unfold ret in H. inversion H; subst; clear H.
  exists from_data_set, s1. split; [exact Hp |].
  assert (Hspecs :
    map measure_spec
      (measure_instances
         (if any_alias metric_input_measure_specs
          then ChangeAssociatedColumns
                 (AliasAggregatedMeasures metric_input_measure_specs
                    (aggregated_instance_set metric_input_measure_specs
                       (instance_set from_data_set)))
          else aggregated_instance_set metric_input_measure_specs
                 (instance_set from_data_set)))
    = map (fun m => output_measure_spec metric_input_measure_specs (measure_spec m))
        (measure_instances (instance_set from_data_set))).
  { destruct (any_alias metric_input_measure_specs) eqn:Hany.
    - unfold aggregated_instance_set. simpl. rewrite !map_map.
      apply map_ext. intro m. unfold output_measure_spec. simpl.
      destruct (find_input_spec metric_input_measure_specs (measure_spec m)); simpl;
        destruct (alias_of_measure metric_input_measure_specs (measure_spec m)); reflexivity.
    - rewrite aggregated_measure_specs. apply map_ext. intro m.
      unfold output_measure_spec. now rewrite alias_of_measure_without_alias. }
  split; [| exact Hspecs].
  eexists. split; [reflexivity |].
  cbn [select_columns select_statement instance_set].
  unfold as_tuple, output_column_names.
  cbn [metric_columns measure_columns dimension_columns time_dimension_columns
       entity_columns group_by_metric_columns metadata_columns].
  rewrite !map_app, !map_map.
  rewrite <- (map_map measure_spec (fun x => resolved_name (OfMeasure x))), Hspecs, map_map.
  destruct (any_alias metric_input_measure_specs);
    unfold aggregated_instance_set, UpdateMeasureFillNullsWith, ChangeAssociatedColumns,
      AliasAggregatedMeasures;
    cbn [measure_instances dimension_instances time_dimension_instances entity_instances
         group_by_metric_instances metric_instances metadata_instances];
    rewrite ?map_map; reflexivity.
Qed.


Lemma compute_metric_column_alias for_group_by set alias metric_spec s column c s' :
  compute_metric for_group_by set alias metric_spec s = Returned (column, c) s' ->
  column_alias column
  = match c with
    | AsMetric i => resolved_name (OfMetric (spec i))
    | AsGroupByMetric i => resolved_name (OfGroupByMetric (spec i))
    end.
Proof.
  intro H. unfold compute_metric in H. bind_inv H.
  destruct for_group_by.
  - destruct (entity_instances set); [discriminate |].
    unfold ret in H. inversion H; subst; clear H. reflexivity.
  - unfold ret in H. inversion H; subst; clear H. reflexivity.
Qed.

Lemma computed_metric_column_aliases set alias specs computed :
  Forall2
    (fun metric_spec c =>
       exists s0 s2, compute_metric false set alias metric_spec s0 = Returned c s2)
    specs computed ->
  map column_alias (map fst computed)
  = map (fun i => resolved_name (OfMetric (spec i)))
      (computed_metric_instances (map snd computed)).
Proof.
  induction 1 as [| ms [column c] specs computed (s0 & s2 & Hrun) _ IH]; [reflexivity |].
  pose proof (compute_metric_column_alias _ _ _ _ _ _ _ _ Hrun) as Halias.
  apply compute_metric_instance in Hrun as (_ & i & ->).
  simpl in *. now rewrite Halias, IH.
Qed.

(** The SELECT of a compute-metrics node names its columns as the resolver
    names the specs of the instances the node returns: the columns of the
    linkable instances it keeps, then one column per computed metric. *)
Theorem compute_metrics_select_names_output_instances
    description parent_node node_metric_specs for_group_by s out s' :
  visit_compute_metrics_node description parent_node node_metric_specs for_group_by s
  = Returned out s' ->
  select_exposes_instances out.
Proof.
  intro H. unfold visit_compute_metrics_node in H.
  bind_inv_as H d s1 Hparent. rewrite next_alias_step in H.
  bind_inv_as H checked s2 Hassert. apply assert_that_returned in Hassert as [Hcond ->].
  fold (metrics_base (instance_set d)) in H, Hcond.
  rewrite (bind_step _
    (CreateSelectColumnsForInstances_returns (alias_of_index s1) []
       (metrics_base (instance_set d)) (S s1)
       (single_columns_RemoveMetrics _ (ChangeAssociatedColumns_single_columns _)))) in H.
  bind_inv_as H computed s3 Hcomputed. apply for_each_returned in Hcomputed.
  bind_inv H. unfold ret in H. inversion H; subst; clear H.
  assert (Hone : for_group_by = true -> length node_metric_specs = 1).
  { intros ->. simpl in Hcond. apply andb_true_iff in Hcond as [Hone _].
    now apply Nat.eqb_eq in Hone. }
  eexists. split; [reflexivity |].
  cbn [select_columns select_statement instance_set].
  destruct for_group_by.
  - pose proof (Hone eq_refl) as Hspecs.
    destruct node_metric_specs as [| metric_spec [| ? ?]]; try discriminate Hspecs.
    inversion Hcomputed as [| ms c l l' (s0 & s2 & Hrun) Hrest]; subst.
    inversion Hrest; subst. destruct c as [column c].
    pose proof (compute_metric_column_alias _ _ _ _ _ _ _ _ Hrun) as Halias.
    apply compute_metric_instance in Hrun as (_ & i & e & rest & -> & _ & _).
    unfold as_tuple, merge_columns, output_column_names, metrics_base. simpl in *.
    rewrite !app_nil_r, !map_app, !map_map. simpl. rewrite Halias.
    rewrite ?map_map, <- ?app_assoc. reflexivity.
  - pose proof (computed_metric_column_aliases _ _ _ _ Hcomputed) as Haliases.
    apply computed_metrics_of_plain_loop in Hcomputed as [-> _].
    unfold as_tuple, merge_columns, output_column_names, metrics_base. simpl.
    rewrite !app_nil_r, !map_app, Haliases, !map_map. reflexivity.
Qed.


(* ------------------------------------------------------------------ *)
(** *** Nodes that keep the parent's instances *)

(** The nodes whose handler returns an instance of every spec of its
    parent and of no other. *)
Definition keeps_parent_specs (node : DataflowPlanNode) : bool :=
  match node with
  | ConstrainTimeRangeNode _ _ _ | OrderByLimitNode _ _ _ _ | WhereConstraintNode _ _ _
  | SemiAdditiveJoinNode _ _ | JoinOverTimeRangeNode _ _
  | WriteToResultDataTableNode _ | WriteToResultTableNode _ _ => true
  | _ => false
  end.

(** Constraining a time range, ordering, filtering rows, a semi-additive
    join, a join over a time range and the writes neither add, drop nor
    reorder instances: the specs of the output are the specs of the
    parent's output. *)
Theorem row_level_nodes_keep_parent_specs child parent s out s' :
  keeps_parent_specs child = true ->
  only_parent child = Some parent ->
  accept child s = Returned out s' ->
  exists parent_out s1,
    accept parent s = Returned parent_out s1
    /\ spec_set (instance_set out) = spec_set (instance_set parent_out).
Proof.
  intros Hkind Hparent H.
  destruct child; simpl in Hkind; try discriminate Hkind; clear Hkind;
    simpl in Hparent; injection Hparent as <-; simpl in H.
  - apply visit_constrain_time_range_node_returned in H as (d & s1 & Hp & ->).
    exists d, s1. split; [exact Hp | apply spec_set_ChangeAssociatedColumns].
  - exists out, s'. split; [exact H | reflexivity].
  - unfold visit_write_to_result_table_node in H.
    bind_inv_as H d s1 Hp. bind_inv H. unfold ret in H. inversion H; subst; clear H.
    exists d, s1. split; [exact Hp | reflexivity].
  - apply visit_join_over_time_range_node_returned in H as (d & s1 & Hp & ->).
    exists d, s1. split; [exact Hp | apply spec_set_ChangeAssociatedColumns].
  - apply visit_order_by_limit_node_returned in H as (d & s1 & Hp & ->).
    exists d, s1. split; [exact Hp | apply spec_set_ChangeAssociatedColumns].
  - apply visit_where_constraint_node_returned in H as (d & s1 & Hp & ->).
    exists d, s1. split; [exact Hp | apply spec_set_ChangeAssociatedColumns].
  - apply visit_semi_additive_join_node_returned in H as (d & s1 & Hp & ->).
    exists d, s1. split; [exact Hp | apply spec_set_ChangeAssociatedColumns].
Qed.

(* ------------------------------------------------------------------ *)
(** *** Generated UUID column *)

(** The generated-UUID node returns the instances of its parent as they
    are and one more metadata instance, under the reserved name; its
    SELECT has the parent's columns and, last, the UUID expression. *)
Theorem add_generated_uuid_appends_one_column parent_node s out s' :
  visit_add_generated_uuid_column_node parent_node s = Returned out s' ->
  exists input_data_set s1 select parent_columns uuid_instance,
    parent_node s = Returned input_data_set s1
    /\ instance_set out
       = mkInstanceSet
           (measure_instances (instance_set input_data_set))
           (dimension_instances (instance_set input_data_set))
           (time_dimension_instances (instance_set input_data_set))
           (entity_instances (instance_set input_data_set))
           (group_by_metric_instances (instance_set input_data_set))
           (metric_instances (instance_set input_data_set))
           (metadata_instances (instance_set input_data_set) ++ [uuid_instance])
    /\ spec uuid_instance = MetadataSpec_from_name MF_INTERNAL_UUID None
    /\ sql_node out = SqlSelectStatementNode select
    /\ select_columns select
       = parent_columns
         ++ [mkSqlSelectColumn SqlGenerateUuidExpression
               (resolved_name (OfMetadata (spec uuid_instance)))]
    /\ length parent_columns = length (all_specs (spec_set (instance_set input_data_set))).
Proof.
  intro H. unfold visit_add_generated_uuid_column_node in H.
  bind_inv_as H input_data_set s1 Hp. rewrite next_alias_step in H.
  bind_inv_as H columns s2 Hcolumns. apply CreateSelectColumnsForInstances_length in Hcolumns.
  bind_inv H. unfold ret in H. inversion H; subst; clear H.
  exists input_data_set, s1. eexists. exists (as_tuple columns). eexists.
  split; [exact Hp |]. split; [reflexivity |]. split; [reflexivity |].
  split; [reflexivity |]. split; [reflexivity | exact Hcolumns].
Qed.

(* ------------------------------------------------------------------ *)
(** *** Join on entities: the joins *)

Lemma join_targets_loop_joins from_data_set from_alias targets :
  forall table descs s table' descs' s',
    join_targets_loop from_data_set from_alias targets table descs s
    = Returned (table', descs') s' ->
    length descs' = length descs + length targets.
Proof.
  induction targets as [| [right_node jd] targets IH]; intros table descs s table' descs' s' H;
    simpl in H.
  - unfold ret in H. inversion H. simpl. lia.
  - bind_inv H. rewrite next_alias_step in H. apply IH in H.
    rewrite length_app in H. simpl in *. lia.
Qed.

(** A join on entities reads FROM the SELECT of its left node, under the
    first alias minted after the left node is converted, and has one join
    per join target. *)
Theorem join_on_entities_joins_each_target_once description left_node join_targets s out s' :
  visit_join_on_entities_node description left_node join_targets s = Returned out s' ->
  exists from_data_set s1 select,
    left_node s = Returned from_data_set s1
    /\ sql_node out = SqlSelectStatementNode select
    /\ from_source select = sql_node from_data_set
    /\ from_source_alias select = alias_of_index s1
    /\ length (joins_descs select) = length join_targets
    /\ where_clause select = None
    /\ group_bys select = [].
Proof.
  intro H. unfold visit_join_on_entities_node in H.
  bind_inv_as H from_data_set s1 Hleft. rewrite next_alias_step in H.
  bind_inv_as H joined s2 Hloop. destruct joined as [table descs].
  apply join_targets_loop_joins in Hloop.
  bind_inv H. bind_inv H. bind_inv_as H from_select s5 Hfrom.
  unfold ret in H. inversion H; subst; clear H.
  unfold checked_sql_select_node in Hfrom.
  destruct (sql_node from_data_set) as [sel | |] eqn:Hnode; try discriminate.
  unfold ret in Hfrom. inversion Hfrom; subst; clear Hfrom.
  exists from_data_set, s1. eexists.
  split; [exact Hleft |]. split; [reflexivity |].
  simpl. rewrite Hnode. repeat split. exact Hloop.
Qed.

(* ------------------------------------------------------------------ *)
(** *** The conversion and the optimizers *)

(** The optimizers work on the SQL only: the instance set of the result
    and the aliases minted are the same for every engine, optimization
    level and plan id. *)
Theorem convert_to_sql_query_plan_instance_set
    engine1 engine2 level1 level2 id1 id2 dataflow_plan_node s result1 s' :
  convert_to_sql_query_plan engine1 dataflow_plan_node level1 id1 s = Returned result1 s' ->
  exists result2 data_set,
    convert_to_sql_query_plan engine2 dataflow_plan_node level2 id2 s = Returned result2 s'
    /\ accept dataflow_plan_node s = Returned data_set s'
    /\ result_instance_set result1 = instance_set data_set
    /\ result_instance_set result2 = instance_set data_set
    /\ plan_id (sql_plan result2) = id2
    /\ s' = s + alias_count dataflow_plan_node.
Proof.
  intro H. unfold convert_to_sql_query_plan in H |- *.
  bind_inv_as H data_set s1 Hrun. unfold ret in H. inversion H; subst; clear H.
  rewrite (bind_step _ Hrun). unfold ret. eexists. exists data_set.
  split; [reflexivity |]. split; [exact Hrun |]. repeat split.
  now apply mints_accept in Hrun.
Qed.


(* ------------------------------------------------------------------ *)
(** *** Join to the time spine: the columns read from the spine *)

(** The spec of the output instance that stands for the parent's instance
    [t]: the name and links of the time spine's instance, the granularity
    and date part of [t]. *)
Definition time_spine_output_spec (original t : TimeDimensionInstance) : TimeDimensionSpec :=
  mkTimeDimensionSpec (td_element_name (spec original)) (td_entity_links (spec original))
    (time_granularity (spec t)) (date_part (spec t)) (td_aggregation_state (spec original)).

(** How the column for [t] is read from the spine column. *)
Definition read_from_spine (spine_column : SqlExpressionNode)
    (original t : TimeDimensionInstance) (c : SqlSelectColumn) : Prop :=
  column_alias c = resolved_name (OfTimeDimension (time_spine_output_spec original t))
  /\ exists at_grain,
       (time_granularity (spec t) = time_granularity (spec original) ->
        at_grain = spine_column)
       /\ (time_granularity (spec t) <> time_granularity (spec original) ->
           at_grain = SqlDateTruncExpression (time_granularity (spec t)) spine_column)
       /\ (date_part (spec t) = None -> expr c = at_grain)
       /\ (forall part, date_part (spec t) = Some part ->
                        expr c = SqlExtractExpression part at_grain).

Lemma time_spine_loop_columns node alias original need to_select :
  forall columns instances where_filter s columns' instances' where_filter' s',
    time_spine_loop node alias original need to_select columns instances where_filter s
    = Returned (columns', instances', where_filter') s' ->
    exists new_columns new_instances,
      columns' = columns ++ new_columns
      /\ instances' = instances ++ new_instances
      /\ Forall2
           (read_from_spine
              (column_reference alias (qualified_name (OfTimeDimension (spec original))))
              original)
           to_select new_columns
      /\ map (fun i => spec i) new_instances
         = map (time_spine_output_spec original) to_select
      /\ Forall (fun t => (to_int (time_granularity (spec original))
                           <= to_int (time_granularity (spec t)))%Z) to_select.
Proof.
  induction to_select as [| t rest IH];
    intros columns instances wf s columns' instances' wf' s' H; simpl in H.
  - unfold ret in H. inversion H; subst.
    exists [], []. rewrite !app_nil_r. repeat split; constructor.
  - destruct (Z.ltb_spec (to_int (time_granularity (spec t)))
                (to_int (time_granularity (spec original)))) as [Hfiner | Hok];
      [discriminate |].
    unfold associated_column in H. cbn [associated_columns] in H. rewrite ret_step in H.
    apply IH in H as (new_columns & new_instances & -> & -> & Hcolumns & Hspecs & Hall).
    eexists (_ :: new_columns), (_ :: new_instances).
    rewrite <- !app_assoc. split; [reflexivity |]. split; [reflexivity |].
    split; [| split; [simpl; now rewrite Hspecs | now constructor]].
    constructor; [| exact Hcolumns].
    split; [reflexivity |].
    exists (if TimeGranularity_eq_dec (time_granularity (spec t))
                 (time_granularity (spec original))
            then column_reference alias (qualified_name (OfTimeDimension (spec original)))
            else SqlDateTruncExpression (time_granularity (spec t))
                   (column_reference alias
                      (qualified_name (OfTimeDimension (spec original))))).
    destruct (TimeGranularity_eq_dec _ _) as [E | N];
      (split; [intro; try reflexivity; contradiction |]);
      (split; [intro; try reflexivity; contradiction |]);
      simpl; split.
    + now intros ->.
    + now intros part ->.
    + now intros ->.
    + now intros part ->.
Qed.

(** A join to the time spine joins on the parent's instance of the
    aggregation time dimension that has no date part and the smallest
    granularity.  It reads FROM the SELECT of the time spine data set built
    for that instance, itself a SELECT on the time spine table, under the
    alias minted after the parent's, and joins the parent's SELECT once,
    under the parent's alias.  For every instance of the aggregation time
    dimension in the parent it selects one column from the spine column:
    as it is at the granularity of the instance joined on, truncated at a
    coarser granularity, and with the date part extracted where the
    instance has one; none of these instances is finer than the instance
    joined on.  The parent's other columns follow. *)
Theorem join_to_time_spine_reads_agg_time_from_spine node parent_node s out s' :
  visit_join_to_time_spine_node node parent_node s = Returned out s' ->
  exists parent_data_set s1 parent_select agg_time_element_name agg_time_entity_links
         join_instance others select spine_select spine_columns parent_columns,
    parent_node s = Returned parent_data_set s1
    /\ s' = s1 + 3
    /\ sql_node parent_data_set = SqlSelectStatementNode parent_select
    /\ agg_time_dimension_of node (S s1)
       = Returned (agg_time_element_name, agg_time_entity_links) (S s1)
    /\ agg_time_dimension_instances_for_join agg_time_element_name agg_time_entity_links
         (time_dimension_instances (instance_set parent_data_set))
       = join_instance :: others
    /\ In join_instance (time_dimension_instances (instance_set parent_data_set))
    /\ is_agg_time_dimension agg_time_element_name agg_time_entity_links join_instance
       = true
    /\ date_part (spec join_instance) = None
    /\ _make_time_spine_data_set join_instance _time_spine_source
         (spine_time_range_constraint node) (S (S s1))
       = Returned
           (mkSqlDataSet (mkInstanceSet [] [] [join_instance] [] [] [] [])
              (SqlSelectStatementNode spine_select))
           (S (S (S s1)))
    /\ from_source spine_select = SqlTableFromClauseNode (spine_table _time_spine_source)
    /\ from_source_alias spine_select = alias_of_index (S (S s1))
    /\ sql_node out = SqlSelectStatementNode select
    /\ from_source select = SqlSelectStatementNode spine_select
    /\ from_source_alias select = alias_of_index (S s1)
    /\ joins_descs select
       = [make_join_to_time_spine_join_description node (alias_of_index (S s1))
            (resolved_name (OfTimeDimension (spec join_instance)))
            parent_select (alias_of_index s1)]
    /\ select_columns select = spine_columns ++ parent_columns
    /\ Forall2
         (read_from_spine
            (column_reference (alias_of_index (S s1))
               (qualified_name (OfTimeDimension (spec join_instance))))
            join_instance)
         (filter (is_agg_time_dimension agg_time_element_name agg_time_entity_links)
            (time_dimension_instances (instance_set parent_data_set)))
         spine_columns
    /\ Forall (fun t => (to_int (time_granularity (spec join_instance))
                         <= to_int (time_granularity (spec t)))%Z)
         (filter (is_agg_time_dimension agg_time_element_name agg_time_entity_links)
            (time_dimension_instances (instance_set parent_data_set))).
Proof.
  intro H. unfold visit_join_to_time_spine_node in H.
  bind_inv_as H parent_data_set s1 Hp. rewrite next_alias_step in H.
  bind_inv_as H agg s2 Hagg. destruct agg as [agg_name agg_links].
  pose proof (keeps_counter_agg_time_dimension_of node _ _ _ Hagg) as ->.
  destruct (agg_time_dimension_instances_for_join agg_name agg_links
              (time_dimension_instances (instance_set parent_data_set)))
    as [| join_instance others] eqn:Hjoin; [discriminate |].
  rewrite next_alias_step in H.
  destruct (_make_time_spine_data_set_shape join_instance _time_spine_source
              (spine_time_range_constraint node) (S (S s1)))
    as (spine_select & Hspine & Hspine_from & Hspine_alias & _).
  rewrite (bind_step _ Hspine) in H.
  bind_inv_as H parent_select s3 Hselect.
  unfold checked_sql_select_node in Hselect.
  destruct (sql_node parent_data_set) as [sel | |] eqn:Hnode; try discriminate.
  unfold ret in Hselect. inversion Hselect; subst; clear Hselect.
  bind_inv_as H parent_columns s4 Hcolumns.
  pose proof (keeps_counter_create_select_columns_for_instance_sets _ _ _ _ Hcolumns)
    as ->.
  unfold checked_sql_select_node in H.
  cbn [sql_node instance_set time_dimension_instances] in H. rewrite ret_step in H.
  bind_inv_as H checked s5 Hassert. apply assert_that_returned in Hassert as [_ ->].
  bind_inv_as H looped s6 Hloop. destruct looped as [[cols insts] where_filter].
  pose proof (keeps_counter_time_spine_loop _ _ _ _ _ _ _ _ _ _ _ Hloop) as ->.
  apply time_spine_loop_columns in Hloop
    as (new_columns & new_instances & -> & -> & Hread & _ & Hall).
  unfold ret in H. inversion H; subst; clear H.
  assert (Hin : In join_instance
                  (filter (fun i => negb (is_some (date_part (spec i)))
                                    && is_agg_time_dimension agg_name agg_links i)
                     (time_dimension_instances (instance_set parent_data_set)))).
  { unfold agg_time_dimension_instances_for_join in Hjoin.
    now apply sorted_by_key_head in Hjoin as [Hin _]. }
  apply filter_In in Hin as [Hin Htest]. apply andb_true_iff in Htest as [Hpart Hdim].
  exists parent_data_set, s1, parent_select, agg_name, agg_links, join_instance, others.
  eexists. exists spine_select, new_columns, parent_columns.
  split; [exact Hp |]. split; [lia |]. split; [exact Hnode |].
  split; [exact Hagg |]. split; [exact Hjoin |]. split; [exact Hin |].
  split; [exact Hdim |].
  split; [destruct (date_part (spec join_instance)); [discriminate | reflexivity] |].
  split; [exact Hspine |]. split; [exact Hspine_from |]. split; [exact Hspine_alias |].
  split; [reflexivity |]. simpl. repeat split; auto.
Qed.

(* ------------------------------------------------------------------ *)
(** *** Semi-additive join: the row filter *)

(** A semi-additive join reads the parent's SELECT twice: as its own FROM
    source, under the first alias minted, and as the FROM source of the
    row filter, under the second; the row filter is joined under the third
    by one inner join.  The row filter groups by the entity columns, then
    by the queried time dimension when there is one, and selects these
    columns and then the aggregated time dimension, named as the resolver
    names the fully aggregated spec.  The join equates the time dimension
    column first, then each entity column with itself. *)
Theorem semi_additive_join_filters_rows_of_parent node parent_node s out s' :
  visit_semi_additive_join_node node parent_node s = Returned out s' ->
  exists from_data_set s1 from_select select row_filter equalities,
    parent_node s = Returned from_data_set s1
    /\ s' = s1 + 3
    /\ sql_node from_data_set = SqlSelectStatementNode from_select
    /\ sql_node out = SqlSelectStatementNode select
    /\ from_source select = SqlSelectStatementNode from_select
    /\ from_source_alias select = alias_of_index s1
    /\ joins_descs select
       = [make_column_equality_sql_join_description (SqlSelectStatementNode row_filter)
            (alias_of_index s1) (alias_of_index (S (S s1))) equalities INNER]
    /\ where_clause select = None
    /\ group_bys select = []
    /\ from_source row_filter = SqlSelectStatementNode from_select
    /\ from_source_alias row_filter = alias_of_index (S s1)
    /\ map column_alias (group_bys row_filter)
       = map (fun e => resolved_name (OfEntity e)) (semi_entity_specs node)
         ++ match queried_time_dimension_spec node with
            | Some queried => [resolved_name (OfTimeDimension queried)]
            | None => []
            end
    /\ select_columns row_filter
       = group_bys row_filter
         ++ [mkSqlSelectColumn
               (build_expression_from_aggregation_type (agg_by_function node)
                  (column_reference (alias_of_index (S s1))
                     (resolved_name (OfTimeDimension (semi_time_dimension_spec node)))))
               (resolved_name
                  (OfTimeDimension
                     (with_aggregation_state COMPLETE (semi_time_dimension_spec node))))]
    /\ map (fun e => (left_column_alias e, right_column_alias e)) equalities
       = (resolved_name (OfTimeDimension (semi_time_dimension_spec node)),
          resolved_name
            (OfTimeDimension
               (with_aggregation_state COMPLETE (semi_time_dimension_spec node))))
         :: map (fun e => (resolved_name (OfEntity e), resolved_name (OfEntity e)))
              (semi_entity_specs node).
Proof.
  intro H. unfold visit_semi_additive_join_node in H.
  bind_inv_as H from_data_set s1 Hparent.
  rewrite next_alias_step in H. cbv zeta in H. rewrite next_alias_step in H.
  cbv zeta in H.
  bind_inv_as H from_select s2 Hfrom.
  unfold checked_sql_select_node in Hfrom.
  destruct (sql_node from_data_set) as [sel | |] eqn:Hnode; try discriminate.
  unfold ret in Hfrom. inversion Hfrom; subst; clear Hfrom.
  rewrite next_alias_step in H.
  bind_inv_as H columns s3 Hcolumns.
  apply keeps_counter_CreateSelectColumnsForInstances in Hcolumns. subst s3.
  unfold ret in H. inversion H; subst; clear H.
  exists from_data_set, s1, from_select. do 3 eexists.
  split; [exact Hparent |]. split; [lia |]. split; [exact Hnode |].
  split; [reflexivity |]. split; [reflexivity |]. split; [reflexivity |].
  split; [reflexivity |]. split; [reflexivity |]. split; [reflexivity |].
  split; [reflexivity |]. split; [reflexivity |].
  split.
  { cbn [group_bys select_statement]. rewrite map_app, !map_map. cbn [column_alias].
    destruct (queried_time_dimension_spec node); reflexivity. }
  split; [reflexivity |].
  cbn [map left_column_alias right_column_alias]. rewrite !map_map. reflexivity.
Qed.

(* ------------------------------------------------------------------ *)
(** *** Conversion events: the deduplicated rows *)

(** The [distinct] field of a SELECT statement. *)
Definition distinct (s : SqlSelectStatement) : bool :=
  let 'mkSqlSelectStatement _ _ _ _ _ _ _ _ _ d := s in d.

(** The conversions are read, with no join, filter or grouping, from a
    SELECT DISTINCT over the base data set that is joined once to the
    conversion data set.  That SELECT has one FIRST_VALUE window column
    per base column, under the base column's name: the base column of the
    base alias, partitioned on these columns of the conversion alias, in
    this order: the entity, the conversion time, the unique identifier
    keys and the conversion side of the constant properties; and ordered
    by the base time column, latest first.  Then come the unique identifier keys, read from the conversion
    alias, and then the columns of the conversion measure. *)
Theorem join_conversion_events_reads_deduplicated_rows
    node base_node conversion_node s out s' :
  visit_join_conversion_events_node node base_node conversion_node s = Returned out s' ->
  exists base_data_set s1 conversion_data_set s2 select deduped windows measures,
    base_node s = Returned base_data_set s1
    /\ conversion_node (S s1) = Returned conversion_data_set s2
    /\ s' = s2 + 2
    /\ sql_node out = SqlSelectStatementNode select
    /\ from_source select = SqlSelectStatementNode deduped
    /\ from_source_alias select = alias_of_index (S s2)
    /\ joins_descs select = []
    /\ where_clause select = None
    /\ group_bys select = []
    /\ distinct deduped = true
    /\ from_source deduped = sql_node base_data_set
    /\ from_source_alias deduped = alias_of_index s1
    /\ length (joins_descs deduped) = 1
    /\ select_columns deduped
       = windows
         ++ map (fun key => mkSqlSelectColumn
                              (column_reference (alias_of_index s2) (resolved_name key))
                              (resolved_name key))
              (unique_identifier_keys node)
         ++ measures
    /\ map column_alias windows
       = CreateSqlColumnReferencesForInstances (instance_set base_data_set)
    /\ Forall
         (fun window =>
            expr window
            = SqlWindowFunctionExpression FIRST_VALUE
                [column_reference (alias_of_index s1) (column_alias window)]
                (map (column_reference (alias_of_index s2))
                   ([resolved_name (OfEntity (entity_spec node));
                     resolved_name (OfTimeDimension (conversion_time_dimension_spec node))]
                    ++ map resolved_name (unique_identifier_keys node)
                    ++ map (fun constant_property =>
                              resolved_name (conversion_spec constant_property))
                         (match constant_properties node with
                          | Some properties => properties
                          | None => []
                          end)))
                [(column_reference (alias_of_index s1)
                    (resolved_name (OfTimeDimension (base_time_dimension_spec node))),
                  true)])
         windows
    /\ map column_alias measures
       = output_column_names
           (FilterElements_include
              (mkInstanceSpecSet [conversion_measure_spec node] [] [] [] [] [] [])
              (instance_set conversion_data_set)).
Proof.
  intro H. unfold visit_join_conversion_events_node in H.
  bind_inv_as H base_data_set s1 Hbase. rewrite next_alias_step in H.
  bind_inv_as H conversion_data_set s2 Hconversion. rewrite next_alias_step in H.
  cbv zeta in H.
  bind_inv_as H additional s3 Hadditional.
  pose proof (keeps_counter_CreateSelectColumnsForInstances _ _ _ _ _ _ Hadditional)
    as Hs3.
  subst s3. apply CreateSelectColumnsForInstances_aliases in Hadditional.
  bind_inv_as H base_select s4 Hfrom.
  unfold checked_sql_select_node in Hfrom.
  destruct (sql_node base_data_set) as [sel | |] eqn:Hnode; try discriminate.
  unfold ret in Hfrom. inversion Hfrom; subst; clear Hfrom.
  rewrite next_alias_step in H.
  bind_inv_as H columns s5 Hcolumns.
  apply keeps_counter_CreateSelectColumnsForInstances in Hcolumns. subst s5.
  unfold ret in H. inversion H; subst; clear H.
  exists base_data_set, s1, conversion_data_set, s2. do 4 eexists.
  split; [exact Hbase |]. split; [exact Hconversion |]. split; [lia |].
  split; [reflexivity |]. split; [reflexivity |]. split; [reflexivity |].
  split; [reflexivity |]. split; [reflexivity |]. split; [reflexivity |].
  split; [reflexivity |]. split; [symmetry; exact Hnode |]. split; [reflexivity |].
  split; [reflexivity |].
  split.
  { cbn [select_columns]. rewrite (map_map resolved_name). reflexivity. }
  split.
  { rewrite map_map. cbn [column_alias]. apply map_id. }
  split; [| exact Hadditional].
  apply Forall_forall. intros window Hin. apply in_map_iff in Hin.
  destruct Hin as (base_column_name & <- & _).
  cbn [expr column_alias]. do 2 f_equal. cbn [app]. do 3 f_equal.
  destruct (constant_properties node) as [[| property properties] |];
    [reflexivity | | reflexivity].
  rewrite map_map. reflexivity.
Qed.

(* ------------------------------------------------------------------ *)
(** *** Measure states along every edge of a plan *)

(** The parents of a node, in the order the handler converts them: the
    left node and then the join targets of a join on entities, the parents
    of a combine node, the base node and then the conversion node of a
    join of conversion events, the one parent of any other node. *)
Definition parent_nodes_of (node : DataflowPlanNode) : list DataflowPlanNode :=
  match node with
  | JoinOnEntitiesNode _ left_node join_targets => left_node :: map fst join_targets
  | CombineAggregatedOutputsNode _ parent_nodes => parent_nodes
  | JoinConversionEventsNode _ base_node conversion_node => [base_node; conversion_node]
  | _ => match only_parent node with
         | Some parent_node => [parent_node]
         | None => []
         end
  end.

(** The state a measure has in the output of [child] when it is carried
    over from the output of the parent at [position], where it has state
    [parent_state]: an aggregate-measures node sets COMPLETE, a join on
    entities turns a COMPLETE measure of its left node (position 0) into
    PARTIAL, and every other edge keeps the state. *)
Definition state_after_edge (child : DataflowPlanNode) (position : nat)
    (parent_state : AggregationState) : AggregationState :=
  match child with
  | AggregateMeasuresNode _ _ _ => COMPLETE
  | JoinOnEntitiesNode _ _ _ =>
      match position, parent_state with
      | 0, COMPLETE => PARTIAL
      | _, _ => parent_state
      end
  | _ => parent_state
  end.

(** The spec a measure has in the output of [child]: its alias where an
    aggregate-measures node gives it one, its own spec otherwise. *)
Definition spec_after_edge (child : DataflowPlanNode) (parent_spec : MeasureSpec)
  : MeasureSpec :=
  match child with
  | AggregateMeasuresNode _ _ metric_input_measure_specs =>
      output_measure_spec metric_input_measure_specs parent_spec
  | _ => parent_spec
  end.

(** Along an edge the state does not go down, except from COMPLETE to
    PARTIAL at the left node of a join on entities. *)
Definition never_reverses_except_left_of_join (child : DataflowPlanNode) (position : nat)
    (parent_state child_state : AggregationState) : Prop :=
  state_rank parent_state <= state_rank child_state
  \/ ((exists description left_node join_targets,
          child = JoinOnEntitiesNode description left_node join_targets)
      /\ position = 0
      /\ parent_state = COMPLETE
      /\ child_state = PARTIAL).

Lemma state_after_edge_never_reverses child position st :
  never_reverses_except_left_of_join child position st (state_after_edge child position st).
Proof.
  unfold never_reverses_except_left_of_join.
  destruct child; simpl; try (left; destruct st; simpl; lia).
  destruct position as [| k]; [| left; lia].
  destruct st; simpl; try (left; lia).
  right. repeat split; eauto.
Qed.

Lemma resolved_measure_carried l m' :
  In m' (map measure_with_resolved_columns l) ->
  exists m,
    In m l
    /\ origin_semantic_model_reference m' = origin_semantic_model_reference m
    /\ measure_spec m' = measure_spec m
    /\ aggregation_state m' = aggregation_state m.
Proof. intro H. apply in_map_iff in H as (m & <- & Hm). now exists m. Qed.

Lemma merge_measure_from sets m :
  In m (measure_instances (merge sets)) ->
  exists set, In set sets /\ In m (measure_instances set).
Proof.
  rewrite merge_fold. intro H.
  destruct (fold_merge_from measure_instances measure_spec MeasureSpec_eq_dec
              (fun _ _ => eq_refl) _ _ _ H) as [[] | Hfrom].
  exact Hfrom.
Qed.

Lemma right_contribution_measures join_on set :
  measure_instances (right_data_set_instance_set_after_join join_on set)
  = measure_instances set.
Proof. destruct join_on; reflexivity. Qed.

Lemma join_target_position
    (join_targets : list (DataflowPlanNode * JoinDescription)) right_node jd :
  In (right_node, jd)
    (map (fun target => let '(join_node, join_description) := target in
                        (accept join_node, join_description))
       join_targets) ->
  exists k join_node,
    nth_error (map fst join_targets) k = Some join_node /\ right_node = accept join_node.
Proof.
  intro H. apply in_map_iff in H as ([join_node d] & Heq & Hin).
  inversion Heq; subst. apply In_nth_error in Hin as (k & Hk).
  exists k, join_node. split; [| reflexivity].
  rewrite nth_error_map, Hk. reflexivity.
Qed.

Lemma converted_parent_position
    (parent_nodes : list DataflowPlanNode) (data_sets : list SqlDataSet) d :
  Forall2 (fun parent x => exists s0 s1, parent s0 = Returned x s1)
    (map accept parent_nodes) data_sets ->
  In d data_sets ->
  exists k parent s0 s1,
    nth_error parent_nodes k = Some parent /\ accept parent s0 = Returned d s1.
Proof.
  revert data_sets. induction parent_nodes as [| parent rest IH];
    intros data_sets H Hin; simpl in H; inversion H; subst; [destruct Hin |].
  destruct Hin as [<- | Hin].
  - match goal with E : exists _ _, _ |- _ => destruct E as (s0 & s1 & Hrun) end.
    exists 0, parent, s0, s1. split; [reflexivity | exact Hrun].
  - match goal with F : Forall2 _ (map accept rest) _ |- _ =>
      destruct (IH _ F Hin) as (k & p & s0 & s1 & Hk & Hrun)
    end.
    exists (S k), p, s0, s1. split; [exact Hk | exact Hrun].
Qed.

(** The combine node returns the merge of the instance sets of its
    converted parents. *)
Lemma visit_combine_aggregated_outputs_node_parents description parent_nodes s out s' :
  visit_combine_aggregated_outputs_node description parent_nodes s = Returned out s' ->
  exists data_sets,
    Forall2 (fun parent d => exists s0 s1, parent s0 = Returned d s1)
      parent_nodes data_sets
    /\ instance_set out = ChangeAssociatedColumns (merge (map instance_set data_sets)).
Proof.
  intro H. unfold visit_combine_aggregated_outputs_node in H.
  bind_inv_as H u s1 Hassert. apply assert_that_returned in Hassert as [_ ->].
  bind_inv_as H annotated s2 Hparents. apply combine_parents_returned in Hparents.
  destruct annotated as [| from_data_set join_data_sets]; [discriminate |].
  bind_inv_as H u2 s3 Hsame. bind_inv_as H from_select s4 Hfrom.
  unfold ret in H. inversion H; subst; clear H.
  exists (map data_set (from_data_set :: join_data_sets)). split.
  - clear - Hparents. induction Hparents; simpl; constructor; auto.
  - cbn [instance_set]. now rewrite map_map.
Qed.

(** The join of conversion events returns the conversion measure of the
    converted conversion node merged with the instances of the converted
    base node. *)
Lemma visit_join_conversion_events_node_parents
    node base_node conversion_node s out s' :
  visit_join_conversion_events_node node base_node conversion_node s = Returned out s' ->
  exists base_data_set s1 conversion_data_set s2,
    base_node s = Returned base_data_set s1
    /\ conversion_node (S s1) = Returned conversion_data_set s2
    /\ instance_set out
       = ChangeAssociatedColumns
           (merge [FilterElements_include
                     (mkInstanceSpecSet [conversion_measure_spec node] [] [] [] [] [] [])
                     (instance_set conversion_data_set);
                   instance_set base_data_set]).
Proof.
  intro H. unfold visit_join_conversion_events_node in H.
  bind_inv_as H base_data_set s1 Hp. rewrite next_alias_step in H.
  bind_inv_as H conversion_data_set s2 Hc. rewrite next_alias_step in H.
  bind_inv H. bind_inv H. rewrite next_alias_step in H.
  bind_inv H. unfold ret in H. inversion H; subst; clear H.
  exists base_data_set, s1, conversion_data_set, s2.
  split; [exact Hp |]. split; [exact Hc | reflexivity].
Qed.

Lemma aggregated_measure_carried specs set m' :
  In m' (measure_instances
           (if any_alias specs
            then ChangeAssociatedColumns
                   (AliasAggregatedMeasures specs (aggregated_instance_set specs set))
            else aggregated_instance_set specs set)) ->
  exists m,
    In m (measure_instances set)
    /\ origin_semantic_model_reference m' = origin_semantic_model_reference m
    /\ measure_spec m' = output_measure_spec specs (measure_spec m)
    /\ aggregation_state m' = COMPLETE.
Proof.
  unfold output_measure_spec.
  destruct (any_alias specs) eqn:Halias; intro H.
  - unfold aggregated_instance_set, AliasAggregatedMeasures, UpdateMeasureFillNullsWith,
      ChangeAssociatedColumns in H.
    cbn [measure_instances] in H. rewrite !map_map in H.
    apply in_map_iff in H as (m & <- & Hm). exists m. split; [exact Hm |].
    simpl.
    destruct (find_input_spec specs (measure_spec m)); simpl;
      destruct (alias_of_measure specs (measure_spec m)); simpl; repeat split.
  - unfold aggregated_instance_set, UpdateMeasureFillNullsWith, ChangeAssociatedColumns in H.
    cbn [measure_instances] in H. rewrite !map_map in H.
    apply in_map_iff in H as (m & <- & Hm). exists m. split; [exact Hm |].
    rewrite (alias_of_measure_without_alias specs (measure_spec m) Halias).
    simpl. destruct (find_input_spec specs (measure_spec m)); repeat split.
Qed.

(** A measure instance of the output of [child] that comes along an edge
    of the plan. *)
Definition comes_along_an_edge (child : DataflowPlanNode) (m' : MeasureInstance) : Prop :=
  exists position parent parent_out s0 s1 m,
    nth_error (parent_nodes_of child) position = Some parent
    /\ accept parent s0 = Returned parent_out s1
    /\ In m (measure_instances (instance_set parent_out))
    /\ origin_semantic_model_reference m' = origin_semantic_model_reference m
    /\ measure_spec m' = spec_after_edge child (measure_spec m)
    /\ aggregation_state m' = state_after_edge child position (aggregation_state m)
    /\ never_reverses_except_left_of_join child position
         (aggregation_state m) (aggregation_state m').

Lemma comes_along_an_edge_intro child position parent parent_out s0 s1 m m' :
  nth_error (parent_nodes_of child) position = Some parent ->
  accept parent s0 = Returned parent_out s1 ->
  In m (measure_instances (instance_set parent_out)) ->
  origin_semantic_model_reference m' = origin_semantic_model_reference m ->
  measure_spec m' = spec_after_edge child (measure_spec m) ->
  aggregation_state m' = state_after_edge child position (aggregation_state m) ->
  comes_along_an_edge child m'.
Proof.
  intros Hparent Hrun Hm Horigin Hspec Hstate.
  exists position, parent, parent_out, s0, s1, m. repeat split; auto.
  rewrite Hstate. apply state_after_edge_never_reverses.
Qed.


End Converter.

Arguments ReadSqlSourceNode {datetime} source_data_set.
Arguments JoinOnEntitiesNode {datetime} description left_node join_targets.
Arguments AggregateMeasuresNode {datetime} description parent_node metric_input_measure_specs.
Arguments ComputeMetricsNode {datetime} description parent_node node_metric_specs
  for_group_by_source_node.
Arguments ConstrainTimeRangeNode {datetime} description parent_node time_range_constraint.
Arguments MetricTimeDimensionTransformNode {datetime} description parent_node
  aggregation_time_dimension_reference.
Arguments JoinToTimeSpineNode {datetime} fields parent_node.
Arguments WriteToResultDataTableNode {datetime} parent_node.
Arguments WriteToResultTableNode {datetime} parent_node output_sql_table.
Arguments JoinOverTimeRangeNode {datetime} over_fields parent_node.
Arguments OrderByLimitNode {datetime} description parent_node order_by_specs limit.
Arguments FilterElementsNode {datetime} description parent_node include_specs distinct.
Arguments WhereConstraintNode {datetime} description parent_node node_where.
Arguments CombineAggregatedOutputsNode {datetime} description parent_nodes.
Arguments SemiAdditiveJoinNode {datetime} semi_fields parent_node.
Arguments MinMaxNode {datetime} description parent_node.
Arguments AddGeneratedUuidColumnNode {datetime} parent_node.
Arguments JoinConversionEventsNode {datetime} conversion_fields base_node conversion_node.
Arguments mkTimeRangeConstraint {datetime} start_time end_time.
Arguments mkJoinOverTimeRangeNodeFields {datetime} _ _ _ _ _.
Arguments mkJoinToTimeSpineNodeFields {datetime} _ _ _ _ _ _.
Arguments parent_nodes_of {datetime} node.
Arguments state_after_edge {datetime} child position parent_state.
Arguments spec_after_edge {datetime} child parent_spec.
Arguments primary_parent {datetime} node.
Arguments only_parent {datetime} node.
Arguments alias_count {datetime} node.
Arguments writes_table {datetime} node.
Arguments reads_parent_select {datetime} node.
Arguments re_resolves {datetime} node.
Arguments selects_output_instances {datetime} node.
Arguments keeps_parent_specs {datetime} node.

(* ================================================================== *)
(** ** A small manifest and plans over it *)

Module Sample.

(** Column names in the style of the resolver: entity links and element
    name joined by a double underscore, granularity and date part as
    suffixes. *)
Definition dunder (links : list string) (element : string) : string :=
  fold_right (fun link rest => (link ++ "__" ++ rest)%string) element links.

Definition granularity_suffix (g : TimeGranularity) : string :=
  match g with
  | DAY => "day" | WEEK => "week" | MONTH => "month"
  | QUARTER => "quarter" | YEAR => "year"
  end.

Definition date_part_suffix (p : option DatePart) : string :=
  match p with
  | None => EmptyString
  | Some DP_YEAR => "__extract_year"
  | Some DP_QUARTER => "__extract_quarter"
  | Some DP_MONTH => "__extract_month"
  | Some DP_DAY => "__extract_day"
  | Some DP_DOW => "__extract_dow"
  | Some DP_DOY => "__extract_doy"
  end.

Definition time_dimension_name (t : TimeDimensionSpec) : string :=
  (dunder (td_entity_links t) (td_element_name t) ++ "__"
     ++ granularity_suffix (time_granularity t) ++ date_part_suffix (date_part t))%string.

Definition resolve_spec (s : InstanceSpec) : ColumnAssociation :=
  mkColumnAssociation
    match s with
    | OfMeasure m => measure_element_name m
    | OfDimension d => dunder (dimension_entity_links d) (dimension_element_name d)
    | OfTimeDimension t => time_dimension_name t
    | OfEntity e => dunder (entity_entity_links e) (entity_element_name e)
    | OfGroupByMetric g => dunder (metric_subquery_entity_links g) (gbm_element_name g)
    | OfMetric m => metric_element_name m
    | OfMetadata m => metadata_element_name m
    end.

Definition qualified_name (s : InstanceSpec) : string := column_name (resolve_spec s).

(** Semantic models are known by name; every measure aggregates over [ds]
    and is summed. *)
Definition get_by_reference (r : SemanticModelReference) : option string := Some r.

Definition checked_agg_time_dimension_for_measure (model : string) (m : MeasureReference)
  : TimeDimensionReference := "ds".

Definition get_measure_agg (m : MeasureReference) : AggregationType := AGG_SUM.

Definition build_expression_from_aggregation_type
    (a : AggregationType) (e : SqlExpressionNode) : SqlExpressionNode :=
  SqlAggregateFunctionExpression
    match a with
    | AGG_MIN => SQL_MIN
    | AGG_MAX => SQL_MAX
    | AGG_AVERAGE => SQL_AVERAGE
    | AGG_COUNT_DISTINCT => SQL_COUNT_DISTINCT
    | _ => SQL_SUM
    end [e].

(** Two simple metrics: [listings] has no input measure, [bookings] has one
    with [fill_nulls_with] 0. *)
Definition get_metric (r : MetricReference) : Metric :=
  if String.eqb r "bookings"
  then mkMetric r SIMPLE (mkMetricTypeParams None None None None)
         [mkMetricInputMeasure "bookings" (Some 0%Z)] ["bookings"]
  else mkMetric r SIMPLE (mkMetricTypeParams None None None None) [] [].

Definition time_spine_source : TimeSpineSource :=
  mkTimeSpineSource "mf_time_spine" "ds" DAY.

Definition make_base_output_join_description
    (left_data_set right_data_set : AnnotatedSqlDataSet) (j : JoinDescription)
  : SqlJoinDescription :=
  mkSqlJoinDescription (sql_node (data_set right_data_set)) (alias right_data_set)
    None (join_type j).

Definition make_join_to_time_spine_join_description
    (node : JoinToTimeSpineNodeFields string) (time_spine_alias column : string)
    (parent_select : SqlSelectStatement) (parent_alias : string) : SqlJoinDescription :=
  mkSqlJoinDescription (SqlSelectStatementNode parent_select) parent_alias
    (Some (SqlComparisonExpression
             (SqlColumnReferenceExpression (mkSqlColumnReference time_spine_alias column))
             EQUALS
             (SqlColumnReferenceExpression (mkSqlColumnReference parent_alias column))))
    (spine_join_type node).

Definition column_of (table_alias column : string) : SqlExpressionNode :=
  SqlColumnReferenceExpression (mkSqlColumnReference table_alias column).

Definition metric_time_column (d : AnnotatedSqlDataSet) : string :=
  match _metric_time_column_name d with Some c => c | None => EmptyString end.

Definition make_cumulative_metric_time_range_join_description
    (node : JoinOverTimeRangeNodeFields string)
    (metric_data_set time_spine_data_set : AnnotatedSqlDataSet) : SqlJoinDescription :=
  mkSqlJoinDescription (sql_node (data_set metric_data_set)) (alias metric_data_set)
    (Some (SqlComparisonExpression
             (column_of (alias metric_data_set) (metric_time_column metric_data_set))
             LESS_THAN_OR_EQUALS
             (column_of (alias time_spine_data_set)
                (metric_time_column time_spine_data_set))))
    INNER.

Definition make_join_description_for_combining_datasets
    (from_data_set join_data_set : AnnotatedSqlDataSet) (join_type : SqlJoinType)
    (column_names table_aliases_for_coalesce : list string) : SqlJoinDescription :=
  mkSqlJoinDescription (sql_node (data_set join_data_set)) (alias join_data_set)
    match column_names with
    | [] => None
    | _ =>
        Some (SqlLogicalExpression SQL_AND
                (map (fun c =>
                        SqlComparisonExpression
                          (SqlAggregateFunctionExpression SQL_COALESCE
                             (map (fun a => column_of a c) table_aliases_for_coalesce))
                          EQUALS
                          (column_of (alias join_data_set) c))
                   column_names))
    end
    join_type.

Definition CreateSelectColumnForCombineOutputNode
    (table_alias : string) (s : InstanceSet) : SelectColumnSet :=
  mkSelectColumnSet
    (map (fun i => let c := column_name (resolve_spec (OfMetric (spec i))) in
                   mkSqlSelectColumn (column_of table_alias c) c)
       (metric_instances s))
    (map (fun m => let c := column_name (resolve_spec (OfMeasure (measure_spec m))) in
                   mkSqlSelectColumn (column_of table_alias c) c)
       (measure_instances s))
    [] [] [] [] [].

Definition make_column_equality_sql_join_description
    (right_source_node : SqlQueryPlanNode) (left_source_alias right_source_alias : string)
    (column_equality_descriptions : list ColumnEqualityDescription)
    (join_type : SqlJoinType) : SqlJoinDescription :=
  mkSqlJoinDescription right_source_node right_source_alias
    (Some (SqlLogicalExpression SQL_AND
             (map (fun e =>
                     SqlComparisonExpression
                       (column_of left_source_alias (left_column_alias e))
                       EQUALS
                       (column_of right_source_alias (right_column_alias e)))
                column_equality_descriptions)))
    join_type.

Definition make_join_conversion_join_description
    (node : JoinConversionEventsNodeFields)
    (base_data_set conversion_data_set : AnnotatedSqlDataSet)
    (column_equality_descriptions : list ColumnEqualityDescription) : SqlJoinDescription :=
  mkSqlJoinDescription (sql_node (data_set conversion_data_set)) (alias conversion_data_set)
    (Some (SqlLogicalExpression SQL_AND
             (map (fun e =>
                     SqlComparisonExpression
                       (column_of (alias base_data_set) (left_column_alias e))
                       EQUALS
                       (column_of (alias conversion_data_set) (right_column_alias e)))
                column_equality_descriptions
              ++ [SqlComparisonExpression
                    (column_of (alias base_data_set) (metric_time_column base_data_set))
                    LESS_THAN_OR_EQUALS
                    (column_of (alias conversion_data_set)
                       (metric_time_column conversion_data_set))])))
    INNER.

Definition optimizers_for_level (level : SqlQueryOptimizationLevel) (flag : bool)
  : list (SqlQueryPlanNode -> SqlQueryPlanNode) := [].

Definition table_select (table : SqlTable) (columns : list string) : SqlQueryPlanNode :=
  SqlSelectStatementNode
    (select_statement "Read from table"
       (map (fun c => mkSqlSelectColumn
                        (SqlColumnReferenceExpression (mkSqlColumnReference "src" c)) c)
          columns)
       (SqlTableFromClauseNode table) "src" [] None []).

Definition origin (model element : string) : list SemanticModelElementReference :=
  [mkSemanticModelElementReference model element].

Definition measure (element : string) (state : AggregationState) : MeasureInstance :=
  mkMeasureInstance [mkColumnAssociation element] (mkMeasureSpec element) state
    (mkSemanticModelElementReference "bookings_source" element) None.

Definition dimension (model element : string) (links : list EntityReference)
  : DimensionInstance :=
  mkInstance [resolve_spec (OfDimension (mkDimensionSpec element links))]
    (mkDimensionSpec element links) (origin model element).

Definition time_dimension (element : string) (g : TimeGranularity) (p : option DatePart)
  : TimeDimensionInstance :=
  let s := mkTimeDimensionSpec element [] g p None in
  mkInstance [resolve_spec (OfTimeDimension s)] s (origin "bookings_source" element).

Definition entity (model element : string) : EntityInstance :=
  mkInstance [mkColumnAssociation element] (mkEntitySpec element []) (origin model element).

(** Bookings: a fully aggregated and a raw measure, a day column and its
    year part, and the [listing] entity. *)
Definition bookings_instance_set : InstanceSet :=
  mkInstanceSet
    [measure "bookings" COMPLETE; measure "booking_value" NON_AGGREGATED]
    [dimension "bookings_source" "is_instant" []]
    [time_dimension "ds" DAY None; time_dimension "ds" DAY (Some DP_YEAR)]
    [entity "bookings_source" "listing"]
    [] [] [].

Definition bookings_data_set : SqlDataSet :=
  mkSqlDataSet bookings_instance_set
    (table_select "bookings"
       ["bookings"; "booking_value"; "is_instant"; "ds__day"; "ds__day__extract_year";
        "listing"]).

(** Listings: a local dimension, and one reached through a chain that has
    [listing] twice in a row. *)
Definition listings_instance_set : InstanceSet :=
  mkInstanceSet []
    [dimension "listings_source" "country" [];
     dimension "listings_source" "region" ["host"; "listing"; "listing"]]
    []
    [entity "listings_source" "listing"]
    [] [] [].

Definition listings_data_set : SqlDataSet :=
  mkSqlDataSet listings_instance_set
    (table_select "listings" ["country"; "host__listing__listing__region"; "listing"]).

(** A data set that exposes metric time by month and by day, and a
    metadata column. *)
Definition metric_time_instance_set : InstanceSet :=
  mkInstanceSet
    [measure "bookings" PARTIAL]
    []
    [time_dimension "metric_time" MONTH None; time_dimension "metric_time" DAY None;
     time_dimension "ds" DAY None]
    [] [] []
    [mkInstance [mkColumnAssociation "mf_internal_uuid"]
       (mkMetadataSpec "mf_internal_uuid" None) tt].

Definition metric_time_data_set : SqlDataSet :=
  mkSqlDataSet metric_time_instance_set
    (table_select "bookings"
       ["bookings"; "metric_time__month"; "metric_time__day"; "ds__day";
        "mf_internal_uuid"]).

Definition accept : DataflowPlanNode string -> Conv SqlDataSet :=
  accept resolve_spec get_by_reference checked_agg_time_dimension_for_measure
    get_measure_agg get_metric time_spine_source build_expression_from_aggregation_type
    (fun d : string => d) make_base_output_join_description
    make_join_to_time_spine_join_description qualified_name
    make_cumulative_metric_time_range_join_description
    make_join_description_for_combining_datasets
    CreateSelectColumnForCombineOutputNode
    make_column_equality_sql_join_description
    make_join_conversion_join_description.

Definition join_bookings_to_listings : DataflowPlanNode string :=
  JoinOnEntitiesNode "Join Standard Outputs" (ReadSqlSourceNode bookings_data_set)
    [(ReadSqlSourceNode listings_data_set, mkJoinDescription (Some "listing") LEFT_OUTER)].

Definition january : TimeRangeConstraint string :=
  mkTimeRangeConstraint "2020-01-01" "2020-01-31".

Definition spine_fields : JoinToTimeSpineNodeFields string :=
  mkJoinToTimeSpineNodeFields [mkTimeDimensionSpec "metric_time" [] MONTH None None]
    false None None INNER "Join to Time Spine Dataset".

(** Conversions of bookings: the base events are the bookings, the
    conversion events come from the data set with metric time, whose
    [bookings] measure is the conversion measure. *)
Definition conversion_fields : JoinConversionEventsNodeFields :=
  mkJoinConversionEventsNodeFields
    (mkTimeDimensionSpec "ds" [] DAY None None)
    (mkTimeDimensionSpec "ds" [] DAY None None)
    (mkEntitySpec "listing" []) None
    [OfMetadata (mkMetadataSpec "mf_internal_uuid" None)]
    (mkMeasureSpec "bookings") None "Find conversions for listing within the range of INF".

Definition join_conversion_events : DataflowPlanNode string :=
  JoinConversionEventsNode conversion_fields
    (ReadSqlSourceNode bookings_data_set) (ReadSqlSourceNode metric_time_data_set).

(** Bookings by [is_instant], aggregated. *)
Definition aggregated_bookings : DataflowPlanNode string :=
  AggregateMeasuresNode "Aggregate Measures"
    (FilterElementsNode "Pass Only Elements" (ReadSqlSourceNode bookings_data_set)
       (mkInstanceSpecSet [mkMeasureSpec "bookings"] [mkDimensionSpec "is_instant" []]
          [] [] [] [] [])
       false)
    [mkMetricInputMeasureSpec (mkMeasureSpec "bookings") None None].

(** Two metrics by [is_instant], the second one filtered, combined, ordered
    and written to a table. *)
Definition metrics_by_is_instant : DataflowPlanNode string :=
  WriteToResultTableNode
    (OrderByLimitNode "Order By"
       (CombineAggregatedOutputsNode "Combine Aggregated Outputs"
          [ComputeMetricsNode "Compute Metrics" aggregated_bookings
             [mkMetricSpec "bookings"] false;
           ComputeMetricsNode "Compute Metrics"
             (WhereConstraintNode "Constrain Output with WHERE" aggregated_bookings
                (mkWhereFilterSpec "is_instant" []
                   [OfDimension (mkDimensionSpec "is_instant" [])]))
             [mkMetricSpec "listings"] false])
       [mkOrderBySpec (OfMetric (mkMetricSpec "bookings")) true] (Some 10%Z))
    "metrics_by_is_instant".

End Sample.

(* ================================================================== *)
(** ** The properties at work on the sample plans *)

Definition read_bookings : Conv SqlDataSet := visit_source_node Sample.bookings_data_set.
Definition read_listings : Conv SqlDataSet := visit_source_node Sample.listings_data_set.
Definition read_metric_time : Conv SqlDataSet :=
  visit_source_node Sample.metric_time_data_set.

Definition join_on_listing : Conv SqlDataSet :=
  visit_join_on_entities_node Sample.resolve_spec Sample.make_base_output_join_description
    "Join Standard Outputs" read_bookings
    [(read_listings, mkJoinDescription (Some "listing") LEFT_OUTER)].


(** A left data set with two instances of the measure [bookings], the
    first COMPLETE and the second NON_AGGREGATED. *)
Definition bookings_twice_data_set : SqlDataSet :=
  mkSqlDataSet
    (mkInstanceSet
       [Sample.measure "bookings" COMPLETE; Sample.measure "bookings" NON_AGGREGATED]
       [] [] [Sample.entity "bookings_source" "listing"] [] [] [])
    (Sample.table_select "bookings" ["bookings"; "listing"]).



(** The region dimension of the listings data set is reached through
    [host], [listing], [listing]; after the join on [listing] its chain has
    [listing] twice in a row. *)
Lemma right_side_chain_repeats_join_entity :
  exists out chain,
    join_on_listing 0 = Returned out 2
    /\ In chain (linkable_chains (instance_set out))
    /\ ~ In chain (linkable_chains (instance_set Sample.bookings_data_set))
    /\ chain = ["listing"; "host"; "listing"; "listing"]
    /\ repeats_consecutively "listing" chain.
Proof.
  eexists. exists ["listing"; "host"; "listing"; "listing"].
  split; [vm_compute; reflexivity |].
  split; [vm_compute; tauto |].
  split; [vm_compute; intuition discriminate |].
  split; [reflexivity |].
  exists ["listing"; "host"], []. reflexivity.
Qed.

Lemma join_on_entities_right_side_chains_witness :
  exists out,
    join_on_listing 0 = Returned out 2
    /\ ((exists from_data_set s1,
            read_bookings 0 = Returned from_data_set s1
            /\ In ["listing"] (linkable_chains (instance_set from_data_set)))
        \/ (exists right_node jd right_data_set sr sr',
              In (right_node, jd) [(read_listings, mkJoinDescription (Some "listing") LEFT_OUTER)]
              /\ right_node sr = Returned right_data_set sr'
              /\ match join_on_entity jd with
                 | Some e =>
                     exists rest,
                       ["listing"] = e :: rest
                       /\ In rest (linkable_chains (instance_set right_data_set))
                       /\ has_leading_link e rest = false
                       /\ (repeats_consecutively e ["listing"] ->
                           repeats_consecutively e rest)
                 | None => In ["listing"] (linkable_chains (instance_set right_data_set))
                 end)).
Proof.
  eexists. split; [vm_compute; reflexivity |].
  apply (join_on_entities_right_side_chains
           Sample.resolve_spec Sample.make_base_output_join_description
           "Join Standard Outputs" read_bookings
           [(read_listings, mkJoinDescription (Some "listing") LEFT_OUTER)]
           0 _ 2 eq_refl ["listing"]).
  vm_compute. tauto.
Defined.

Definition metric_time_transform_of_bookings : Conv SqlDataSet :=
  visit_metric_time_dimension_transform_node Sample.resolve_spec Sample.get_by_reference
    Sample.checked_agg_time_dimension_for_measure "Metric Time Dimension ds"
    read_bookings "ds".

(** The year part of [ds] is a date-part variant, and it gets a metric-time
    analog all the same. *)
Lemma metric_time_mirrors_date_part_variant :
  exists out analog,
    metric_time_transform_of_bookings 0 = Returned out 1
    /\ In (Sample.time_dimension "ds" DAY (Some DP_YEAR))
         (time_dimension_instances (instance_set Sample.bookings_data_set))
    /\ In analog (time_dimension_instances (instance_set out))
    /\ spec analog = mkTimeDimensionSpec METRIC_TIME_ELEMENT_NAME [] DAY (Some DP_YEAR) None.
Proof.
  eexists.
  exists (metric_time_analog Sample.resolve_spec (Sample.time_dimension "ds" DAY (Some DP_YEAR))).
  split; [vm_compute; reflexivity |].
  split; [right; left; reflexivity |].
  split; [vm_compute; tauto | reflexivity].
Qed.

Lemma metric_time_transform_mirrors_witness :
  exists out,
    metric_time_transform_of_bookings 0 = Returned out 1
    /\ time_dimension_instances (instance_set out)
       = map (with_resolved_columns Sample.resolve_spec OfTimeDimension)
           (time_dimension_instances (instance_set Sample.bookings_data_set))
         ++ map (metric_time_analog Sample.resolve_spec)
              (filter (is_matching_time_dimension "ds")
                 (time_dimension_instances (instance_set Sample.bookings_data_set))).
Proof.
  eexists. split; [vm_compute; reflexivity |].
  destruct (metric_time_transform_mirrors
              Sample.resolve_spec string Sample.get_by_reference
              Sample.checked_agg_time_dimension_for_measure
              "Metric Time Dimension ds" read_bookings "ds"
              0 Sample.bookings_data_set 0 _ 1 eq_refl eq_refl) as (Hinstances & _).
  exact Hinstances.
Defined.

(** The bookings source with a generated UUID column. *)
Definition bookings_with_uuid : DataflowPlanNode string :=
  AddGeneratedUuidColumnNode (ReadSqlSourceNode Sample.bookings_data_set).

Definition metric_time_transform_of_metadata : DataflowPlanNode string :=
  MetricTimeDimensionTransformNode "Metric Time Dimension ds" bookings_with_uuid "ds".

(** C5, at a parent that has a metadata column.  The handler rebuilds the
    output instance set from the parent's measures, dimensions, time
    dimensions, entities and metrics only: the metadata instance that the
    parent node added is not in the output, and the SELECT has no column
    for it. *)
Theorem metric_time_transform_drops_metadata :
  exists parent_out out select,
    Sample.accept bookings_with_uuid 0 = Returned parent_out 1
    /\ Sample.accept metric_time_transform_of_metadata 0 = Returned out 2
    /\ sql_node out = SqlSelectStatementNode select
    /\ map (fun i => column_name (Sample.resolve_spec (OfMetadata (spec i))))
         (metadata_instances (instance_set parent_out))
       = ["mf_internal_uuid"]
    /\ metadata_instances (instance_set out) = []
    /\ In "metric_time__day" (map column_alias (select_columns select))
    /\ ~ In "mf_internal_uuid" (map column_alias (select_columns select)).
Proof.
  eexists. eexists. eexists.
  split; [vm_compute; reflexivity |]. split; [vm_compute; reflexivity |].
  split; [reflexivity |]. split; [reflexivity |]. split; [reflexivity |].
  split; [vm_compute; tauto |].
  vm_compute. intuition discriminate.
Qed.

Definition aggregate_bookings : Conv SqlDataSet :=
  visit_aggregate_measures_node Sample.resolve_spec Sample.get_measure_agg
    Sample.build_expression_from_aggregation_type "Aggregate Measures" read_bookings [].

Lemma aggregate_measures_complete_and_grouped_witness :
  exists out select,
    aggregate_bookings 0 = Returned out 1
    /\ sql_node out = SqlSelectStatementNode select
    /\ (forall m, In m (measure_instances (instance_set out)) ->
                  aggregation_state m = COMPLETE)
    /\ map column_alias (group_bys select)
       = ["ds__day"; "ds__day__extract_year"; "listing"; "is_instant"].
Proof.
  destruct (aggregate_measures_complete_and_grouped
              Sample.resolve_spec Sample.get_measure_agg
              Sample.build_expression_from_aggregation_type
              "Aggregate Measures" read_bookings [] 0 Sample.bookings_data_set 0 _
              eq_refl eq_refl)
    as (out & select & before & after & Hrun & Hselect & Hstates & _ & _ & _).
  exists out, select. split; [exact Hrun |]. split; [exact Hselect |].
  split; [exact Hstates |].
  unfold aggregate_bookings in Hrun. vm_compute in Hrun. inversion Hrun; subst out.
  simpl in Hselect. inversion Hselect; subst select. reflexivity.
Defined.

Definition constrain_metric_time : Conv SqlDataSet :=
  visit_constrain_time_range_node Sample.resolve_spec (fun d : string => d)
    "Constrain Time Range" read_metric_time Sample.january.

(** Metric time is exposed by month and by day: the WHERE clause is on the
    day column. *)
Lemma constrain_time_range_where_witness :
  exists out select,
    constrain_metric_time 0 = Returned out 1
    /\ sql_node out = SqlSelectStatementNode select
    /\ where_clause select
       = Some (SqlBetweenExpression
                 (SqlColumnReferenceExpression
                    (mkSqlColumnReference "subq_0" "metric_time__day"))
                 (SqlStringLiteralExpression "2020-01-01")
                 (SqlStringLiteralExpression "2020-01-31")).
Proof.
  destruct (constrain_time_range_where
              Sample.resolve_spec string (fun d => d)
              "Constrain Time Range" read_metric_time Sample.january
              0 Sample.metric_time_data_set 0 eq_refl) as (_ & Hwhere).
  destruct Hwhere as (t & Hin & Hmin & Hwhere); [discriminate |].
  assert (Ht : t = Sample.time_dimension "metric_time" DAY None).
  { destruct Hin as [<- | [<- | []]]; [| reflexivity].
    specialize (Hmin (Sample.time_dimension "metric_time" DAY None)
                  (or_intror (or_introl eq_refl))).
    simpl in Hmin. lia. }
  subst t.
  destruct (Hwhere (mkColumnAssociation "metric_time__day") _ eq_refl eq_refl)
    as (out & select & Hrun & Hselect & Hclause).
  exists out, select. repeat split; assumption.
Defined.

Definition join_metric_time_to_spine : Conv SqlDataSet :=
  visit_join_to_time_spine_node Sample.resolve_spec Sample.time_spine_source
    (fun d : string => d) Sample.make_join_to_time_spine_join_description
    Sample.qualified_name Sample.spine_fields read_metric_time.

Lemma metric_time_single_columns :
  single_columns (instance_set Sample.metric_time_data_set).
Proof.
  unfold single_columns. simpl.
  repeat split; repeat constructor; eexists; reflexivity.
Defined.

(** Month and day are both at or above the day column chosen for the join:
    the check passes. *)
Lemma join_to_time_spine_granularity_check_witness :
  exists out, join_metric_time_to_spine 0 = Returned out 3.
Proof.
  destruct (join_to_time_spine_granularity_check
              Sample.resolve_spec Sample.time_spine_source string (fun d => d)
              Sample.make_join_to_time_spine_join_description Sample.qualified_name
              Sample.spine_fields read_metric_time 0 Sample.metric_time_data_set 0 _
              "metric_time" []
              (Sample.time_dimension "metric_time" DAY None)
              [Sample.time_dimension "metric_time" MONTH None]
              eq_refl eq_refl metric_time_single_columns eq_refl eq_refl)
    as (_ & Hreturns).
  apply Hreturns. intros t [<- | [<- | []]]; simpl; lia.
Defined.

(** At a join of conversion events the conversion measure comes from the
    conversion data set: [bookings], COMPLETE in the base data set, has in
    the output the PARTIAL state of the conversion data set, while
    [booking_value] keeps the state it has in the base data set. *)
Example conversion_measure_comes_from_conversion_data_set :
  exists out,
    Sample.accept Sample.join_conversion_events 0 = Returned out 3
    /\ map (fun m => (measure_spec m, aggregation_state m))
         (measure_instances (instance_set out))
       = [(mkMeasureSpec "bookings", PARTIAL);
          (mkMeasureSpec "booking_value", NON_AGGREGATED)].
Proof. eexists. vm_compute. repeat split. Qed.

(** The sample plan with two combined metrics converts: ten sub-query
    aliases are used and the result carries both metrics and the dimension. *)
Example metrics_by_is_instant_converts :
  exists out,
    Sample.accept Sample.metrics_by_is_instant 0 = Returned out 10
    /\ map (fun i => spec i) (metric_instances (instance_set out))
       = [mkMetricSpec "bookings"; mkMetricSpec "listings"]
    /\ map (fun i => spec i) (dimension_instances (instance_set out))
       = [mkDimensionSpec "is_instant" []]
    /\ measure_instances (instance_set out) = [].
Proof. eexists. vm_compute. repeat split. Qed.

(** Metric time by month, and the day of the week of metric time at day
    granularity. *)
Definition month_and_day_of_week_data_set : SqlDataSet :=
  mkSqlDataSet
    (mkInstanceSet [] []
       [Sample.time_dimension "metric_time" MONTH None;
        Sample.time_dimension "metric_time" DAY (Some DP_DOW)]
       [] [] [] [])
    (Sample.table_select "bookings" ["metric_time__month"; "metric_time__day__extract_dow"]).

(** A time spine declared at month granularity. *)
Definition monthly_time_spine_source : TimeSpineSource :=
  mkTimeSpineSource "mf_time_spine" "ds" MONTH.

(** The granularity the time spine source declares is not what the handler
    compares with.  With a time spine declared at DAY and every instance to
    select at DAY or coarser, the handler raises all the same: the join is
    on the month column, and the day-of-week part at DAY is finer than
    that.  With a time spine declared at MONTH and metric time at DAY, finer
    than the declared granularity, the handler returns: the join is on the
    day column, and no instance is finer than that. *)
Lemma join_to_time_spine_check_ignores_declared_granularity :
  (time_column_granularity Sample.time_spine_source = DAY
   /\ Forall (fun t => (to_int (time_column_granularity Sample.time_spine_source)
                        <= to_int (time_granularity (spec t)))%Z)
        (filter (is_agg_time_dimension METRIC_TIME_ELEMENT_NAME [])
           (time_dimension_instances (instance_set month_and_day_of_week_data_set)))
   /\ exists message,
        visit_join_to_time_spine_node Sample.resolve_spec Sample.time_spine_source
          (fun d : string => d) Sample.make_join_to_time_spine_join_description
          Sample.qualified_name Sample.spine_fields
          (visit_source_node month_and_day_of_week_data_set) 0
        = Raised (RuntimeError message))
  /\ (time_column_granularity monthly_time_spine_source = MONTH
      /\ Exists (fun t => (to_int (time_granularity (spec t))
                           < to_int (time_column_granularity monthly_time_spine_source))%Z)
           (filter (is_agg_time_dimension METRIC_TIME_ELEMENT_NAME [])
              (time_dimension_instances (instance_set Sample.metric_time_data_set)))
      /\ exists out,
           visit_join_to_time_spine_node Sample.resolve_spec monthly_time_spine_source
             (fun d : string => d) Sample.make_join_to_time_spine_join_description
             Sample.qualified_name Sample.spine_fields
             (visit_source_node Sample.metric_time_data_set) 0
           = Returned out 3).
Proof.
  split; (split; [reflexivity |]); split.
  - repeat constructor; discriminate.
  - eexists. vm_compute. reflexivity.
  - apply Exists_cons_tl. apply Exists_cons_hd. reflexivity.
  - eexists. vm_compute. reflexivity.
Qed.

Definition convert_sample (engine : SqlEngine) : Conv ConvertToSqlPlanResult :=
  convert_to_sql_query_plan Sample.resolve_spec Sample.get_by_reference
    Sample.checked_agg_time_dimension_for_measure Sample.get_measure_agg Sample.get_metric
    Sample.time_spine_source Sample.build_expression_from_aggregation_type
    (fun d : string => d) Sample.make_base_output_join_description
    Sample.make_join_to_time_spine_join_description Sample.qualified_name
    Sample.make_cumulative_metric_time_range_join_description
    Sample.make_join_description_for_combining_datasets
    Sample.CreateSelectColumnForCombineOutputNode
    Sample.make_column_equality_sql_join_description
    Sample.make_join_conversion_join_description
    Sample.optimizers_for_level engine Sample.join_bookings_to_listings O4 None.

Lemma engine_kind_only_through_group_by_flag_witness :
  use_column_alias_in_group_by DUCKDB = use_column_alias_in_group_by POSTGRES
  /\ convert_sample DUCKDB = convert_sample POSTGRES.
Proof.
  split; [reflexivity |].
  apply (engine_kind_only_through_group_by_flag
           Sample.resolve_spec string Sample.get_by_reference
           Sample.checked_agg_time_dimension_for_measure Sample.get_measure_agg
           Sample.get_metric Sample.time_spine_source
           Sample.build_expression_from_aggregation_type string (fun d => d)
           Sample.make_base_output_join_description
           Sample.make_join_to_time_spine_join_description Sample.qualified_name
           Sample.make_cumulative_metric_time_range_join_description
           Sample.make_join_description_for_combining_datasets
           Sample.CreateSelectColumnForCombineOutputNode
           Sample.make_column_equality_sql_join_description
           Sample.make_join_conversion_join_description
           Sample.optimizers_for_level DUCKDB POSTGRES Sample.join_bookings_to_listings
           O4 None eq_refl).
Defined.

Definition compute_sample_metrics : Conv SqlDataSet :=
  visit_compute_metrics_node Sample.resolve_spec Sample.get_metric "Compute Metrics"
    aggregate_bookings [mkMetricSpec "listings"; mkMetricSpec "bookings"] false.

(** [listings] has no input measure: its column is the plain reference
    [subq_1.listings]. *)
Lemma simple_metric_select_expression_witness :
  exists out select column,
    compute_sample_metrics 0 = Returned out 2
    /\ sql_node out = SqlSelectStatementNode select
    /\ In column (select_columns select)
    /\ expr column
       = SqlColumnReferenceExpression (mkSqlColumnReference "subq_1" "listings").
Proof.
  destruct (simple_metric_select_expression
              Sample.resolve_spec Sample.get_metric "Compute Metrics" aggregate_bookings
              [mkMetricSpec "listings"; mkMetricSpec "bookings"] false 0 _ 2 eq_refl)
    as (from_data_set & s1 & select & before & columns & after
        & Hparent & Hselect & Hcolumns & Hall).
  vm_compute in Hparent. inversion Hparent; subst s1. clear Hparent.
  inversion Hall as [| metric_spec column specs rest Hfirst Hrest]; subst.
  destruct (Hfirst eq_refl) as (Hplain & _).
  eexists. exists select, column. split; [reflexivity |].
  split; [exact Hselect |]. split.
  - rewrite Hcolumns. apply in_or_app. right. now left.
  - exact (Hplain eq_refl).
Defined.

(* ================================================================== *)
(** ** The walker and the handlers at work on the sample plans *)

(** A theorem about [accept], read with the sample collaborators. *)
Abbreviation on_sample thm :=
  (thm Sample.resolve_spec string Sample.get_by_reference
     Sample.checked_agg_time_dimension_for_measure Sample.get_measure_agg
     Sample.get_metric Sample.time_spine_source
     Sample.build_expression_from_aggregation_type string (fun d : string => d)
     Sample.make_base_output_join_description
     Sample.make_join_to_time_spine_join_description Sample.qualified_name
     Sample.make_cumulative_metric_time_range_join_description
     Sample.make_join_description_for_combining_datasets
     Sample.CreateSelectColumnForCombineOutputNode
     Sample.make_column_equality_sql_join_description
     Sample.make_join_conversion_join_description) (only parsing).

(** The plan of two metrics has ten nodes that mint an alias. *)
Lemma accept_mints_alias_count_witness :
  exists out,
    Sample.accept Sample.metrics_by_is_instant 0 = Returned out 10
    /\ 10 = 0 + alias_count Sample.metrics_by_is_instant.
Proof.
  eexists. split; [vm_compute; reflexivity |].
  refine (proj1 (on_sample accept_mints_alias_count Sample.metrics_by_is_instant 0 _ 10 _)).
  vm_compute. reflexivity.
Defined.

(** [subq_0] is minted before the join is converted from counter 1;
    [subq_5], minted two steps after it, is another alias. *)
Lemma alias_minted_after_conversion_is_fresh_witness :
  exists out,
    Sample.accept Sample.join_bookings_to_listings 1 = Returned out 3
    /\ alias_of_index 0 <> alias_of_index 5.
Proof.
  eexists. split; [vm_compute; reflexivity |].
  eapply (on_sample alias_minted_after_conversion_is_fresh
           Sample.join_bookings_to_listings 0 _ 1 _ 3 2 _ 6);
    vm_compute; reflexivity.
Defined.

(** The plan of two metrics ends in a table write: its data set holds a
    CREATE TABLE AS over a SELECT. *)
Lemma accept_returns_select_or_create_table_witness :
  exists out,
    Sample.accept Sample.metrics_by_is_instant 0 = Returned out 10
    /\ is_create_table_as out.
Proof.
  eexists. split; [vm_compute; reflexivity |].
  refine (proj2 (on_sample accept_returns_select_or_create_table
                   Sample.metrics_by_is_instant 0 _ 10 _) _);
    [vm_compute; reflexivity | reflexivity].
Defined.

Definition order_written_metrics : DataflowPlanNode string :=
  OrderByLimitNode "Order By" Sample.metrics_by_is_instant [] None.

(** Ordering the rows of a written table does not convert. *)
Lemma table_write_is_never_read_witness :
  writes_table Sample.metrics_by_is_instant = true
  /\ Sample.accept order_written_metrics 0 <> Returned Sample.bookings_data_set 11.
Proof.
  split; [reflexivity |].
  eapply (on_sample table_write_is_never_read
           order_written_metrics Sample.metrics_by_is_instant 0);
    reflexivity.
Defined.

(** The aggregated bookings carry the resolver's column for each instance. *)
Lemma re_resolved_output_in_resolver_format_witness :
  exists out,
    Sample.accept Sample.aggregated_bookings 0 = Returned out 2
    /\ in_resolver_format Sample.resolve_spec (instance_set out).
Proof.
  eexists. split; [vm_compute; reflexivity |].
  eapply (on_sample re_resolved_output_in_resolver_format Sample.aggregated_bookings 0 _ 2);
    [reflexivity | vm_compute; reflexivity].
Defined.

(** Both sample metrics are simple metrics with at most one input measure:
    the node converts. *)
Lemma compute_metrics_converts_iff_metrics_valid_witness :
  exists from_data_set from_select,
    aggregate_bookings 0 = Returned from_data_set 1
    /\ sql_node from_data_set = SqlSelectStatementNode from_select
    /\ ((exists out s',
           visit_compute_metrics_node Sample.resolve_spec Sample.get_metric
             "Compute Metrics" aggregate_bookings
             [mkMetricSpec "listings"; mkMetricSpec "bookings"] false 0
           = Returned out s')
        <-> forallb (fun metric_spec =>
                       metric_is_valid (Sample.get_metric (metric_element_name metric_spec)))
              [mkMetricSpec "listings"; mkMetricSpec "bookings"] = true).
Proof.
  do 2 eexists. split; [vm_compute; reflexivity |]. split; [reflexivity |].
  eapply (compute_metrics_converts_iff_metrics_valid Sample.resolve_spec Sample.get_metric
           "Compute Metrics" aggregate_bookings
           [mkMetricSpec "listings"; mkMetricSpec "bookings"] 0 _ 1 _);
    [vm_compute; reflexivity | reflexivity].
Defined.

(** The output metrics are the two requested ones, and no measure is left. *)
Lemma compute_metrics_output_metrics_witness :
  exists out,
    compute_sample_metrics 0 = Returned out 2
    /\ map (fun i => spec i) (metric_instances (instance_set out))
       = [mkMetricSpec "listings"; mkMetricSpec "bookings"]
    /\ measure_instances (instance_set out) = [].
Proof.
  eexists. split; [vm_compute; reflexivity |].
  eapply (compute_metrics_output_metrics Sample.resolve_spec Sample.get_metric
           "Compute Metrics" aggregate_bookings
           [mkMetricSpec "listings"; mkMetricSpec "bookings"] 0 _ 2).
  vm_compute. reflexivity.
Defined.

Definition bookings_metric_for_group_by : Conv SqlDataSet :=
  visit_compute_metrics_node Sample.resolve_spec Sample.get_metric "Compute Metrics"
    aggregate_bookings [mkMetricSpec "bookings"] true.

(** Bookings as a group-by metric of the [listing] entity. *)
Lemma compute_metrics_for_group_by_source_witness :
  exists out new_instance,
    bookings_metric_for_group_by 0 = Returned out 2
    /\ metric_instances (instance_set out) = []
    /\ group_by_metric_instances (instance_set out) = [new_instance]
    /\ spec new_instance = mkGroupByMetricSpec "bookings" [] ["listing"].
Proof.
  destruct (compute_metrics_for_group_by_source Sample.resolve_spec Sample.get_metric
              "Compute Metrics" aggregate_bookings [mkMetricSpec "bookings"] 0 _ 2 eq_refl)
    as (from_data_set & s1 & metric_spec & entity_instance & new_instance
        & Hparent & Hspecs & Hentities & Hmetrics & Hgroup & Hspec).
  vm_compute in Hparent. inversion Hparent; subst. clear Hparent.
  injection Hspecs as <-.
  vm_compute in Hentities. injection Hentities as <-.
  eexists. exists new_instance. split; [reflexivity |].
  split; [exact Hmetrics |]. split; [exact Hgroup | exact Hspec].
Defined.

Definition booking_days : Conv SqlDataSet :=
  visit_filter_elements_node Sample.resolve_spec "Pass Only Elements" read_bookings
    (mkInstanceSpecSet [] [] [mkTimeDimensionSpec "ds" [] DAY None None] [] [] [] [])
    false.

(** The parent selects the day column only: the node returns its minimum
    and its maximum. *)
Lemma min_max_needs_one_parent_column_witness :
  exists out,
    visit_min_max_node Sample.resolve_spec Sample.build_expression_from_aggregation_type
      "Calculate min and max" booking_days 0
    = Returned out 2
    /\ map (fun i => spec i) (metadata_instances (instance_set out))
       = [MetadataSpec_from_name "ds__day" (Some AGG_MIN);
          MetadataSpec_from_name "ds__day" (Some AGG_MAX)].
Proof.
  pose proof (min_max_needs_one_parent_column Sample.resolve_spec
                Sample.build_expression_from_aggregation_type
                "Calculate min and max" booking_days 0 _ 1 _ eq_refl eq_refl) as H.
  hnf in H. destruct H as (out & select & Hrun & Hspecs & _).
  exists out. split; [exact Hrun | exact Hspecs].
Defined.

(** A single parent is refused. *)
Lemma combine_needs_two_parents_witness :
  length [read_bookings] <= 1
  /\ visit_combine_aggregated_outputs_node Sample.resolve_spec
       Sample.make_join_description_for_combining_datasets
       Sample.CreateSelectColumnForCombineOutputNode
       "Combine Aggregated Outputs" [read_bookings] 0
     = Raised
         (AssertionError
            "Shouldn't have a CombineAggregatedOutputsNode in the dataflow plan if there's only 1 parent.").
Proof.
  split; [simpl; lia |].
  apply (combine_needs_two_parents Sample.resolve_spec
           Sample.make_join_description_for_combining_datasets
           Sample.CreateSelectColumnForCombineOutputNode
           "Combine Aggregated Outputs" [read_bookings] 0).
  simpl. lia.
Defined.

Definition combine_sample_metrics : Conv SqlDataSet :=
  visit_combine_aggregated_outputs_node Sample.resolve_spec
    Sample.make_join_description_for_combining_datasets
    Sample.CreateSelectColumnForCombineOutputNode
    "Combine Aggregated Outputs" [compute_sample_metrics; compute_sample_metrics].

(** Two parents: one join, from the first parent. *)
Lemma combine_joins_parents_of_equal_linkable_specs_witness :
  exists out select,
    combine_sample_metrics 0 = Returned out 6
    /\ sql_node out = SqlSelectStatementNode select
    /\ length (joins_descs select) = 1.
Proof.
  destruct (combine_joins_parents_of_equal_linkable_specs Sample.resolve_spec
              Sample.make_join_description_for_combining_datasets
              Sample.CreateSelectColumnForCombineOutputNode
              "Combine Aggregated Outputs" [compute_sample_metrics; compute_sample_metrics]
              0 _ 6 eq_refl)
    as (first & others & select & Hparents & _ & _ & _ & Hselect & _ & Hjoins & _).
  inversion Hparents as [| parent1 d1 parents1 ds1 _ Hothers]; subst.
  inversion Hothers as [| parent2 d2 parents2 ds2 _ Hnone]; subst.
  inversion Hnone; subst.
  eexists. exists select. split; [reflexivity |]. split; [exact Hselect | exact Hjoins].
Defined.

Definition cumulative_over_metric_time_day : JoinOverTimeRangeNodeFields string :=
  mkJoinOverTimeRangeNodeFields (mkTimeDimensionSpec "metric_time" [] DAY None None)
    None None None "Join Self Over Time Range".

(** The bookings have no metric time: the self join over a time range is
    refused. *)
Lemma join_over_time_range_needs_time_dimension_witness :
  read_bookings 0 = Returned Sample.bookings_data_set 0
  /\ visit_join_over_time_range_node Sample.resolve_spec Sample.time_spine_source
       (fun d : string => d) Sample.make_cumulative_metric_time_range_join_description
       cumulative_over_metric_time_day read_bookings 0
     = Raised
         (AssertionError
            "Specified metric time spec not found in parent data set. This should have been caught by validations.").
Proof.
  split; [reflexivity |].
  eapply (join_over_time_range_needs_time_dimension Sample.resolve_spec
            Sample.time_spine_source string (fun d : string => d)
            Sample.make_cumulative_metric_time_range_join_description
            cumulative_over_metric_time_day read_bookings 0 _ 0);
    [reflexivity |].
  intros i Hin. vm_compute in Hin.
  destruct Hin as [<- | [<- | []]]; discriminate.
Defined.

(** Over the data set with metric time the node reads from a SELECT on the
    time spine table and keeps the parent's specs. *)
Lemma join_over_time_range_reads_from_time_spine_witness :
  exists out select spine_select,
    visit_join_over_time_range_node Sample.resolve_spec Sample.time_spine_source
      (fun d : string => d) Sample.make_cumulative_metric_time_range_join_description
      cumulative_over_metric_time_day read_metric_time 0
    = Returned out 3
    /\ spec_set (instance_set out) = spec_set Sample.metric_time_instance_set
    /\ sql_node out = SqlSelectStatementNode select
    /\ from_source select = SqlSelectStatementNode spine_select
    /\ from_source spine_select = SqlTableFromClauseNode "mf_time_spine"
    /\ length (joins_descs select) = 1.
Proof.
  destruct (join_over_time_range_reads_from_time_spine Sample.resolve_spec
              Sample.time_spine_source string (fun d : string => d)
              Sample.make_cumulative_metric_time_range_join_description
              cumulative_over_metric_time_day read_metric_time 0 _ 3 eq_refl)
    as (input_data_set & s1 & select & spine_select
        & Hparent & _ & Hspecs & Hselect & Hfrom & Hspine & _ & _ & Hjoins).
  vm_compute in Hparent. inversion Hparent; subst. clear Hparent.
  eexists. exists select, spine_select. split; [reflexivity |].
  split; [exact Hspecs |]. split; [exact Hselect |]. split; [exact Hfrom |].
  split; [exact Hspine | exact Hjoins].
Defined.

(** The bookings have no metric time: the join to the time spine is
    refused. *)
Lemma join_to_time_spine_needs_instance_without_date_part_witness :
  read_bookings 0 = Returned Sample.bookings_data_set 0
  /\ visit_join_to_time_spine_node Sample.resolve_spec Sample.time_spine_source
       (fun d : string => d) Sample.make_join_to_time_spine_join_description
       Sample.qualified_name Sample.spine_fields read_bookings 0
     = Raised
         (AssertionError
            "Couldn't find requested agg_time_dimension in parent data set. The dataflow plan may have been configured incorrectly.").
Proof.
  split; [reflexivity |].
  eapply (join_to_time_spine_needs_instance_without_date_part Sample.resolve_spec
            Sample.time_spine_source string (fun d : string => d)
            Sample.make_join_to_time_spine_join_description Sample.qualified_name
            Sample.spine_fields read_bookings 0 _ 0 "metric_time" []);
    [reflexivity | reflexivity |].
  intros i Hin Hagg. vm_compute in Hin.
  destruct Hin as [<- | [<- | []]]; discriminate Hagg.
Defined.

(** No offset to a grain is asked for: the SELECT has no WHERE clause. *)
Lemma join_to_time_spine_filters_only_with_offset_to_grain_witness :
  exists out select,
    join_metric_time_to_spine 0 = Returned out 3
    /\ sql_node out = SqlSelectStatementNode select
    /\ where_clause select = None
    /\ length (joins_descs select) = 1.
Proof.
  destruct (join_to_time_spine_filters_only_with_offset_to_grain Sample.resolve_spec
              Sample.time_spine_source string (fun d : string => d)
              Sample.make_join_to_time_spine_join_description Sample.qualified_name
              Sample.spine_fields read_metric_time 0 _ 3 eq_refl eq_refl)
    as (select & Hselect & Hwhere & Hjoins).
  eexists. exists select. split; [vm_compute; reflexivity |].
  split; [exact Hselect |]. split; [exact Hwhere | exact Hjoins].
Defined.

(** Both measures of the bookings aggregate over [ds]: both are kept. *)
Lemma metric_time_transform_keeps_matching_measures_witness :
  exists out,
    metric_time_transform_of_bookings 0 = Returned out 1
    /\ map measure_spec (measure_instances (instance_set out))
       = [mkMeasureSpec "bookings"; mkMeasureSpec "booking_value"].
Proof.
  destruct (metric_time_transform_keeps_matching_measures Sample.resolve_spec string
              Sample.get_by_reference Sample.checked_agg_time_dimension_for_measure
              "Metric Time Dimension ds" read_bookings "ds" 0 _ 1 eq_refl)
    as (input_data_set & s1 & Hparent & Hmeasures & _).
  vm_compute in Hparent. inversion Hparent; subst. clear Hparent.
  eexists. split; [vm_compute; reflexivity |].
  exact (f_equal (map measure_spec) Hmeasures).
Defined.

(** With a manifest that has no semantic model, the node is refused at the
    first measure. *)
Lemma metric_time_transform_needs_semantic_models_witness :
  exists message,
    visit_metric_time_dimension_transform_node Sample.resolve_spec
      (fun _ : SemanticModelReference => @None string)
      Sample.checked_agg_time_dimension_for_measure
      "Metric Time Dimension ds" read_bookings "ds" 0
    = Raised (AssertionError message).
Proof.
  eapply (metric_time_transform_needs_semantic_models Sample.resolve_spec string
            (fun _ : SemanticModelReference => @None string)
            Sample.checked_agg_time_dimension_for_measure
            "Metric Time Dimension ds" read_bookings "ds" 0 _ 0
            (Sample.measure "bookings" COMPLETE));
    [reflexivity | left; reflexivity | reflexivity].
Defined.

(** Only the day column is asked for: it is the only output spec, and the
    only select column. *)
Lemma filter_elements_keeps_included_specs_witness :
  exists out select,
    booking_days 0 = Returned out 1
    /\ sql_node out = SqlSelectStatementNode select
    /\ (forall x,
          In x (all_specs (spec_set (instance_set out)))
          -> x = OfTimeDimension (mkTimeDimensionSpec "ds" [] DAY None None))
    /\ length (select_columns select) = length (all_specs (spec_set (instance_set out)))
    /\ group_bys select = []
    /\ where_clause select = None.
Proof.
  destruct (filter_elements_keeps_included_specs Sample.resolve_spec
              "Pass Only Elements" read_bookings
              (mkInstanceSpecSet [] [] [mkTimeDimensionSpec "ds" [] DAY None None]
                 [] [] [] [])
              false 0 _ 1 eq_refl)
    as (from_data_set & s1 & select & _ & Hselect & Hspecs & Hcolumns & Hgroup & Hwhere).
  eexists. exists select. split; [vm_compute; reflexivity |]. split; [exact Hselect |].
  split.
  - intros x Hin. apply Hspecs in Hin. destruct Hin as [_ [<- | []]]. reflexivity.
  - split; [exact Hcolumns |]. split; [exact Hgroup | exact Hwhere].
Defined.

(** The metric-time transform over the bookings with a UUID column: one
    select column per output instance, under the instance's name. *)
Lemma select_columns_follow_output_instances_witness :
  exists out,
    Sample.accept metric_time_transform_of_metadata 0 = Returned out 2
    /\ select_exposes_instances Sample.resolve_spec out.
Proof.
  eexists. split; [vm_compute; reflexivity |].
  eapply (on_sample select_columns_follow_output_instances
            metric_time_transform_of_metadata 0 _ 2);
    [reflexivity | vm_compute; reflexivity].
Defined.

Definition aggregate_bookings_as_total : Conv SqlDataSet :=
  visit_aggregate_measures_node Sample.resolve_spec Sample.get_measure_agg
    Sample.build_expression_from_aggregation_type "Aggregate Measures" read_bookings
    [mkMetricInputMeasureSpec (mkMeasureSpec "bookings") None (Some "total_bookings")].

(** The [bookings] measure is asked for under an alias: the output measure
    and its select column carry the alias, the other measure keeps its
    name. *)
Lemma aggregate_measures_select_names_output_instances_witness :
  exists out,
    aggregate_bookings_as_total 0 = Returned out 1
    /\ select_exposes_instances Sample.resolve_spec out
    /\ map measure_spec (measure_instances (instance_set out))
       = [mkMeasureSpec "total_bookings"; mkMeasureSpec "booking_value"].
Proof.
  destruct (aggregate_measures_select_names_output_instances Sample.resolve_spec
              Sample.get_measure_agg Sample.build_expression_from_aggregation_type
              "Aggregate Measures" read_bookings
              [mkMetricInputMeasureSpec (mkMeasureSpec "bookings") None
                 (Some "total_bookings")]
              0 _ 1 eq_refl)
    as (from_data_set & s1 & Hparent & Hexposes & Hmeasures).
  vm_compute in Hparent. inversion Hparent; subst. clear Hparent.
  eexists. split; [vm_compute; reflexivity |].
  split; [exact Hexposes | exact Hmeasures].
Defined.

(** The two metric columns and the group-by columns of the sample metrics
    are named after the output instances. *)
Lemma compute_metrics_select_names_output_instances_witness :
  exists out,
    compute_sample_metrics 0 = Returned out 2
    /\ select_exposes_instances Sample.resolve_spec out.
Proof.
  eexists. split; [vm_compute; reflexivity |].
  eapply (compute_metrics_select_names_output_instances Sample.resolve_spec
            Sample.get_metric "Compute Metrics" aggregate_bookings
            [mkMetricSpec "listings"; mkMetricSpec "bookings"] false 0 _ 2).
  vm_compute. reflexivity.
Defined.

Definition order_bookings : DataflowPlanNode string :=
  OrderByLimitNode "Order By" (ReadSqlSourceNode Sample.bookings_data_set)
    [mkOrderBySpec (OfTimeDimension (mkTimeDimensionSpec "ds" [] DAY None None)) false]
    (Some 5%Z).

(** Ordering the bookings keeps their specs. *)
Lemma row_level_nodes_keep_parent_specs_witness :
  exists out,
    Sample.accept order_bookings 0 = Returned out 1
    /\ spec_set (instance_set out) = spec_set Sample.bookings_instance_set.
Proof.
  destruct (on_sample row_level_nodes_keep_parent_specs
              order_bookings (ReadSqlSourceNode Sample.bookings_data_set) 0 _ 1
              eq_refl eq_refl eq_refl)
    as (parent_out & s1 & Hparent & Hspecs).
  vm_compute in Hparent. inversion Hparent; subst. clear Hparent.
  eexists. split; [vm_compute; reflexivity |]. exact Hspecs.
Defined.

(** The bookings have six columns; the UUID column is the seventh. *)
Lemma add_generated_uuid_appends_one_column_witness :
  exists out select parent_columns,
    visit_add_generated_uuid_column_node Sample.resolve_spec read_bookings 0
    = Returned out 1
    /\ map (fun i => spec i) (metadata_instances (instance_set out))
       = [MetadataSpec_from_name MF_INTERNAL_UUID None]
    /\ sql_node out = SqlSelectStatementNode select
    /\ select_columns select
       = parent_columns ++ [mkSqlSelectColumn SqlGenerateUuidExpression "mf_internal_uuid"]
    /\ length parent_columns = 6.
Proof.
  destruct (add_generated_uuid_appends_one_column Sample.resolve_spec read_bookings
              0 _ 1 eq_refl)
    as (input_data_set & s1 & select & parent_columns & uuid_instance
        & Hparent & Hset & Hspec & Hselect & Hcolumns & Hlength).
  vm_compute in Hparent. inversion Hparent; subst. clear Hparent.
  eexists. exists select, parent_columns. split; [vm_compute; reflexivity |].
  split.
  { rewrite <- Hspec.
    exact (f_equal (fun set => map (fun i => spec i) (metadata_instances set)) Hset). }
  split; [exact Hselect |].
  split; [rewrite Hcolumns, Hspec; reflexivity | exact Hlength].
Defined.

(** One join target: one join, from the bookings read as [subq_0]. *)
Lemma join_on_entities_joins_each_target_once_witness :
  exists out select,
    join_on_listing 0 = Returned out 2
    /\ sql_node out = SqlSelectStatementNode select
    /\ from_source select = sql_node Sample.bookings_data_set
    /\ from_source_alias select = "subq_0"
    /\ length (joins_descs select) = 1
    /\ where_clause select = None
    /\ group_bys select = [].
Proof.
  destruct (join_on_entities_joins_each_target_once Sample.resolve_spec
              Sample.make_base_output_join_description
              "Join Standard Outputs" read_bookings
              [(read_listings, mkJoinDescription (Some "listing") LEFT_OUTER)]
              0 _ 2 eq_refl)
    as (from_data_set & s1 & select & Hparent & Hselect & Hfrom & Halias & Hjoins
        & Hwhere & Hgroup).
  vm_compute in Hparent. inversion Hparent; subst. clear Hparent.
  eexists. exists select. split; [vm_compute; reflexivity |].
  split; [exact Hselect |]. split; [exact Hfrom |]. split; [exact Halias |].
  split; [exact Hjoins |]. split; [exact Hwhere | exact Hgroup].
Defined.

(** The join of bookings to listings, converted for two engines at two
    optimization levels: the same instance set and the same counter. *)
Lemma convert_to_sql_query_plan_instance_set_witness :
  exists result1 result2,
    convert_sample DUCKDB 0 = Returned result1 2
    /\ on_sample convert_to_sql_query_plan Sample.optimizers_for_level
         BIGQUERY Sample.join_bookings_to_listings O0 (Some "plan0") 0
       = Returned result2 2
    /\ result_instance_set result1 = result_instance_set result2
    /\ plan_id (sql_plan result2) = Some "plan0".
Proof.
  destruct (on_sample convert_to_sql_query_plan_instance_set Sample.optimizers_for_level
              DUCKDB BIGQUERY O4 O0 None (Some "plan0")
              Sample.join_bookings_to_listings 0 _ 2 eq_refl)
    as (result2 & data_set & Hconvert & _ & Hfirst & Hsecond & Hid & _).
  eexists. exists result2. split; [vm_compute; reflexivity |].
  split; [exact Hconvert |].
  split; [rewrite Hsecond; exact Hfirst | exact Hid].
Defined.

(** Metric time by month and by day: the join is on the day column, the
    FROM source is the SELECT on the time spine table, and both metric-time
    columns are read from it. *)
Lemma join_to_time_spine_reads_agg_time_from_spine_witness :
  exists out select spine_select spine_columns parent_columns,
    join_metric_time_to_spine 0 = Returned out 3
    /\ sql_node out = SqlSelectStatementNode select
    /\ from_source select = SqlSelectStatementNode spine_select
    /\ from_source spine_select = SqlTableFromClauseNode "mf_time_spine"
    /\ from_source_alias spine_select = "subq_2"
    /\ from_source_alias select = "subq_1"
    /\ length (joins_descs select) = 1
    /\ select_columns select = spine_columns ++ parent_columns
    /\ length spine_columns = 2.
Proof.
  destruct (join_to_time_spine_reads_agg_time_from_spine Sample.resolve_spec
              Sample.time_spine_source string (fun d : string => d)
              Sample.make_join_to_time_spine_join_description Sample.qualified_name
              Sample.spine_fields read_metric_time 0 _ 3 eq_refl)
    as (parent_data_set & s1 & parent_select & agg_time_element_name
        & agg_time_entity_links & join_instance & others & select & spine_select
        & spine_columns & parent_columns
        & Hparent & _ & _ & Hagg & _ & _ & _ & _ & _ & Hspine_from & Hspine_alias
        & Hselect & Hfrom & Halias & Hjoins & Hcolumns & Hspine & _).
  vm_compute in Hparent. inversion Hparent; subst. clear Hparent.
  vm_compute in Hagg. inversion Hagg; subst. clear Hagg.
  eexists. exists select, spine_select, spine_columns, parent_columns.
  split; [vm_compute; reflexivity |].
  split; [exact Hselect |]. split; [exact Hfrom |]. split; [exact Hspine_from |].
  split; [exact Hspine_alias |]. split; [exact Halias |].
  split; [rewrite Hjoins; reflexivity |]. split; [exact Hcolumns |].
  apply Forall2_length in Hspine. rewrite <- Hspine. reflexivity.
Defined.

Definition earliest_booking_by_listing : SemiAdditiveJoinNodeFields :=
  mkSemiAdditiveJoinNodeFields (mkTimeDimensionSpec "ds" [] DAY None None) AGG_MIN
    [mkEntitySpec "listing" []] None "Join on MIN(ds) and [listing] grouping by None".

(** The bookings at the earliest day of each listing: the row filter
    groups by [listing] and selects [listing] and the minimum of [ds__day],
    from the bookings read as [subq_1]. *)
Lemma semi_additive_join_filters_rows_of_parent_witness :
  exists out select row_filter,
    visit_semi_additive_join_node Sample.resolve_spec
      Sample.build_expression_from_aggregation_type
      Sample.make_column_equality_sql_join_description
      earliest_booking_by_listing read_bookings 0
    = Returned out 3
    /\ sql_node out = SqlSelectStatementNode select
    /\ from_source select = sql_node Sample.bookings_data_set
    /\ from_source_alias select = "subq_0"
    /\ length (joins_descs select) = 1
    /\ from_source row_filter = sql_node Sample.bookings_data_set
    /\ from_source_alias row_filter = "subq_1"
    /\ map column_alias (group_bys row_filter) = ["listing"]
    /\ map column_alias (select_columns row_filter) = ["listing"; "ds__day"].
Proof.
  destruct (semi_additive_join_filters_rows_of_parent Sample.resolve_spec
              Sample.build_expression_from_aggregation_type
              Sample.make_column_equality_sql_join_description
              earliest_booking_by_listing read_bookings 0 _ 3 eq_refl)
    as (from_data_set & s1 & from_select & select & row_filter & equalities
        & Hparent & _ & Hnode & Hselect & Hfrom & Halias & Hjoins & _ & _
        & Hfilter_from & Hfilter_alias & Hgroup & Hcolumns & _).
  vm_compute in Hparent. inversion Hparent; subst. clear Hparent.
  eexists. exists select, row_filter. split; [vm_compute; reflexivity |].
  split; [exact Hselect |]. split; [rewrite Hfrom, <- Hnode; reflexivity |].
  split; [exact Halias |]. split; [rewrite Hjoins; reflexivity |].
  split; [rewrite Hfilter_from, <- Hnode; reflexivity |].
  split; [exact Hfilter_alias |]. split; [exact Hgroup |].
  rewrite Hcolumns, map_app, Hgroup. reflexivity.
Defined.

(** Conversions of bookings: the deduplicated rows have the six base
    columns as window columns, the UUID key and the conversion measure. *)
Lemma join_conversion_events_reads_deduplicated_rows_witness :
  exists out select deduped windows others,
    visit_join_conversion_events_node Sample.resolve_spec Sample.qualified_name
      Sample.make_join_conversion_join_description
      Sample.conversion_fields read_bookings read_metric_time 0
    = Returned out 3
    /\ sql_node out = SqlSelectStatementNode select
    /\ from_source select = SqlSelectStatementNode deduped
    /\ from_source_alias select = "subq_2"
    /\ distinct deduped = true
    /\ from_source deduped = sql_node Sample.bookings_data_set
    /\ from_source_alias deduped = "subq_0"
    /\ length (joins_descs deduped) = 1
    /\ select_columns deduped = windows ++ others
    /\ map column_alias windows
       = ["bookings"; "booking_value"; "is_instant"; "ds__day"; "ds__day__extract_year";
          "listing"]
    /\ map column_alias others = ["mf_internal_uuid"; "bookings"]
    /\ Forall
         (fun window =>
            expr window
            = SqlWindowFunctionExpression FIRST_VALUE
                [column_reference "subq_0" (column_alias window)]
                (map (column_reference "subq_1") ["listing"; "ds__day"; "mf_internal_uuid"])
                [(column_reference "subq_0" "ds__day", true)])
         windows.
Proof.
  destruct (join_conversion_events_reads_deduplicated_rows Sample.resolve_spec
              Sample.qualified_name Sample.make_join_conversion_join_description
              Sample.conversion_fields read_bookings read_metric_time 0 _ 3 eq_refl)
    as (base_data_set & s1 & conversion_data_set & s2 & select & deduped & windows
        & measures & Hbase & Hconversion & _ & Hselect & Hfrom & Halias & _ & _ & _
        & Hdistinct & Hdeduped_from & Hdeduped_alias & Hjoins & Hcolumns & Hwindows
        & Hpartition & Hmeasures).
  vm_compute in Hbase. inversion Hbase; subst. clear Hbase.
  vm_compute in Hconversion. inversion Hconversion; subst. clear Hconversion.
  eexists. exists select, deduped, windows. eexists.
  split; [vm_compute; reflexivity |].
  split; [exact Hselect |]. split; [exact Hfrom |]. split; [exact Halias |].
  split; [exact Hdistinct |]. split; [exact Hdeduped_from |].
  split; [exact Hdeduped_alias |]. split; [exact Hjoins |].
  split; [exact Hcolumns |]. split; [exact Hwindows |].
  split; [rewrite map_app, Hmeasures; reflexivity | exact Hpartition].
Defined.

